(** * HiDream-I1 image generation API server: job lifecycle engine

    A shallow embedding of [src/models.py], [src/hidream_api.py] and
    [src/pipelines/npu_pipeline.py].

    Python integers are [Z]; a [str] value is the [string] of the bytes of
    its UTF-8 encoding; the job table
    [status_dict] is a [gmap string Job]; code that mutates the job table,
    the pipeline object or the process-wide working directory, and code
    that raises, runs in a state-and-exception monad [M].  Everything the
    program obtains from its environment (child processes, the file
    system, environment variables) is read from a [World] record. *)

From Stdlib Require Import ZArith String Ascii List Lia Bool.
From stdpp Require Import base gmap strings list pretty sorting.

Open Scope string_scope.
Open Scope Z_scope.

(** ** Python string and list primitives *)

Module Py.

(** [str(n)] for an [int]. *)
Definition str (n : Z) : string := pretty n.

Definition lower_ascii (c : ascii) : ascii :=
  let n := N_of_ascii c in
  if ((65 <=? n) && (n <=? 90))%N then ascii_of_N (n + 32) else c.

(** [s.lower()], on the ASCII letters.  The three keywords the runner
    looks for are ASCII, and no character outside ASCII lowers to a
    sequence that completes one of them, so this decides the same
    lines as Python's Unicode-aware [lower]. *)
Fixpoint lower (s : string) : string :=
  match s with
  | EmptyString => EmptyString
  | String c s' => String (lower_ascii c) (lower s')
  end.

(** [needle in hay] for strings. *)
Fixpoint contains (needle hay : string) : bool :=
  String.prefix needle hay
  || match hay with
     | EmptyString => false
     | String _ hay' => contains needle hay'
     end.

(** [s.endswith(suffix)]: some tail of [s] is [suffix]. *)
Fixpoint endswith (s suffix : string) : bool :=
  String.eqb s suffix
  || match s with
     | EmptyString => false
     | String _ s' => endswith s' suffix
     end.

(** The characters [str.strip] removes, by the bytes of their UTF-8
    encoding.  In ASCII: U+0009 to U+000D, U+001C to U+0020. *)
Definition is_space (c : ascii) : bool :=
  let n := N_of_ascii c in
  ((9 <=? n) && (n <=? 13) || (28 <=? n) && (n <=? 32))%N.

(** In two bytes: U+0085 (C2 85) and U+00A0 (C2 A0). *)
Definition is_space2 (c1 c2 : ascii) : bool :=
  let n1 := N_of_ascii c1 in
  let n2 := N_of_ascii c2 in
  ((n1 =? 194) && ((n2 =? 133) || (n2 =? 160)))%N.

(** In three bytes: U+1680 (E1 9A 80), U+2000 to U+200A (E2 80 80 to
    E2 80 8A), U+2028, U+2029 and U+202F (E2 80 A8, E2 80 A9, E2 80 AF),
    U+205F (E2 81 9F) and U+3000 (E3 80 80). *)
Definition is_space3 (c1 c2 c3 : ascii) : bool :=
  let n1 := N_of_ascii c1 in
  let n2 := N_of_ascii c2 in
  let n3 := N_of_ascii c3 in
  ((n1 =? 225) && (n2 =? 154) && (n3 =? 128)
   || (n1 =? 226) && (n2 =? 128)
      && ((128 <=? n3) && (n3 <=? 138)
          || (n3 =? 168) || (n3 =? 169) || (n3 =? 175))
   || (n1 =? 226) && (n2 =? 129) && (n3 =? 159)
   || (n1 =? 227) && (n2 =? 128) && (n3 =? 128))%N.

(** [s.lstrip()]; with [backwards], the same on the bytes of [s] in
    reverse order, where every character has its bytes reversed. *)
Fixpoint lstrip_bytes (backwards : bool) (s : string) : string :=
  match s with
  | EmptyString => EmptyString
  | String c1 s1 =>
      if is_space c1 then lstrip_bytes backwards s1
      else
        match s1 with
        | EmptyString => s
        | String c2 s2 =>
            if (if backwards then is_space2 c2 c1 else is_space2 c1 c2)
            then lstrip_bytes backwards s2
            else
              match s2 with
              | EmptyString => s
              | String c3 s3 =>
                  if (if backwards then is_space3 c3 c2 c1
                      else is_space3 c1 c2 c3)
                  then lstrip_bytes backwards s3
                  else s
              end
        end
  end.

Definition lstrip (s : string) : string := lstrip_bytes false s.

(** [s.strip()] *)
Definition strip (s : string) : string :=
  String.rev (lstrip_bytes true (String.rev (lstrip s))).

Definition newline : string := String "010" EmptyString.

(** [sep.join(l)] *)
Fixpoint join (sep : string) (l : list string) : string :=
  match l with
  | [] => ""
  | [x] => x
  | x :: l' => x +:+ sep +:+ join sep l'
  end.

(** [l[:n]] *)
Definition slice_to {A} (l : list A) (n : Z) : list A :=
  if 0 <=? n then take (Z.to_nat n) l
  else take (length l - Z.to_nat (- n))%nat l.

(** [l[-k:]] for a positive literal [k] *)
Definition last_n {A} (k : nat) (l : list A) : list A :=
  drop (length l - k)%nat l.

(** The text after the last ["/"]: [os.path.basename(p)], and
    [Path(p).name] for a path that does not end in ["/"]. *)
Fixpoint basename_from (acc s : string) : string :=
  match s with
  | EmptyString => acc
  | String c s' =>
      if Ascii.eqb c "/" then basename_from s' s' else basename_from acc s'
  end.

Definition basename (p : string) : string := basename_from p p.

(** [str(Path(d) / name)] for a [name] that is one path component: not
    empty, not ["."] and without a separator, as the file names of a
    directory listing and the task ids that [submit] makes are.
    ([pathlib] drops the components [""] and ["."], and an absolute
    [name] replaces [d].) *)
Definition path_join (d name : string) : string := d +:+ "/" +:+ name.

(** [list.sort(key=..., reverse=True)]: stable, largest key first. *)
Section SortDesc.
Context {A : Type} (key : A -> Z).

Fixpoint insert_desc (x : A) (l : list A) : list A :=
  match l with
  | [] => [x]
  | y :: l' =>
      if key y <=? key x then x :: l else y :: insert_desc x l'
  end.

Definition sort_desc (l : list A) : list A := foldr insert_desc [] l.
End SortDesc.

End Py.

(** ** models.py *)

Inductive TaskStatus := PENDING | PROCESSING | COMPLETED | FAILED.

#[global] Instance TaskStatus_eq_dec : EqDecision TaskStatus.
Proof. solve_decision. Defined.

(** [ImageGenerationRequest].  [guidance_scale] is a float that no code
    of the lifecycle reads; it is left out. *)
Record ImageGenerationRequest := {
  prompt : string;
  negative_prompt : option string;
  resolution : string;
  num_inference_steps : Z;
  num_images_per_prompt : Z;
  seed : option Z;
  batch_size : Z;
  infer_type : string;
}.

(** What [_run_distributed_inference] and [_run_single_inference] read
    from their [request] argument.  The pipeline is duck-typed: the
    fallback path passes an object that has these three attributes only. *)
Record InferRequest := {
  ir_num_images_per_prompt : Z;
  ir_resolution : string;
  ir_num_inference_steps : Z;
}.

Definition as_infer_request (r : ImageGenerationRequest) : InferRequest :=
  {| ir_num_images_per_prompt := num_images_per_prompt r;
     ir_resolution := resolution r;
     ir_num_inference_steps := num_inference_steps r |}.

(** ** npu_pipeline.py: the pure parts *)

(** [NPUHiDreamPipeline._calculate_distributed_config].  [//] is floor
    division and raises [ZeroDivisionError] on a zero divisor, which is
    the [None] here (reached for a device count of 0 only). *)
Definition floordiv (a b : Z) : option Z :=
  if b =? 0 then None else Some (a / b).

Definition _calculate_distributed_config (device_count : Z) : option (Z * Z) :=
  if device_count =? 1 then Some (1, 1)
  else if device_count =? 2 then Some (2, 1)
  else if device_count =? 4 then Some (4, 1)
  else if device_count =? 8 then Some (4, 2)
  else
    let tp_size := Z.min 4 device_count in
    match floordiv device_count tp_size with
    | Some ep_size => Some (tp_size, ep_size)
    | None => None
    end.

(** A directory entry as the collector sees it: the file name and what
    [os.path.getmtime] returns for it.  Only the order of modification
    times matters, so they are integers (ticks). *)
Record DirEntry := { de_name : string; de_mtime : Z }.

Definition image_exts : list string := [".png"; ".jpg"; ".jpeg"; ".webp"].

(** [output_dir.glob("*" + ext)], on the directory's entries. *)
Definition glob_ext (entries : list DirEntry) (ext : string) : list DirEntry :=
  filter (fun e => Py.endswith (de_name e) ext = true) entries.

(** The body of [_collect_images] on a directory listing; each result is
    the path string paired with its modification time. *)
Definition matching_paths (output_dir : string) (entries : list DirEntry)
    : list (string * Z) :=
  concat (map (fun ext =>
                 map (fun e => (Py.path_join output_dir (de_name e), de_mtime e))
                     (glob_ext entries ext))
              image_exts).

Definition collect_entries (output_dir : string) (entries : list DirEntry)
    (num_images : Z) : list (string * Z) :=
  let image_paths := matching_paths output_dir entries in
  match image_paths with
  | [] => []
  | _ => Py.slice_to (Py.sort_desc snd image_paths) num_images
  end.

(** The progress heuristic of the read loop in [_execute_inference]. *)
Definition progress_keywords : list string := ["step"; "sampling"; "inference"].

Definition is_progress_line (output_line : string) : bool :=
  existsb (fun keyword => Py.contains keyword (Py.lower output_line))
          progress_keywords.

Definition advance (progress : Z) : Z := Z.min (progress + 2) 85.


(** ** The world outside the program *)

(** What one [subprocess.Popen] call leads to: the child runs and exits
    with the lines [readline] returned before end of file; or the read
    loop is interrupted ([KeyboardInterrupt]) after some lines; or
    [readline] raises after some lines because the next bytes of the
    output do not decode (the pipe is opened with [text=True], so this
    is a [UnicodeDecodeError], and the exit status of the child is never
    looked at); or the launch itself raises [OSError].

    The read loop has no timeout.  A child that neither exits nor closes
    its output keeps [readline] waiting for ever, and such a run has no
    end to describe: it has no outcome here, and every statement below
    is about runs whose child's output ends in one of these four
    ways. *)
Inductive Outcome :=
| Exited (lines : list string) (return_code : Z)
| Interrupted (lines : list string)
| ReadFailed (lines : list string) (msg : string)
| LaunchFailed (msg : string).

Record World := {
  (** [os.environ] *)
  environ : gmap string string;
  (** the outcome of the [n]-th [Popen] call of the run, for its command
      line and environment *)
  spawn : nat -> list string -> gmap string string -> Outcome;
  (** [os.chdir(path)] from working directory [cwd]: the new working
      directory, or the message of the [OSError] it raises *)
  chdir_result : string -> string -> string + string;
  (** the entries of directory [path], resolved from working directory
      [cwd], in the order [glob] yields them *)
  listdir : string -> string -> list DirEntry;
}.

(** ** Program state and the monad *)

Inductive Exn :=
| RuntimeError (msg : string)
| OSError (msg : string)
| KeyError (key : string)
| IndexError (msg : string)
| UnicodeDecodeError (msg : string)
| KeyboardInterrupt.

(** [isinstance(e, Exception)]: [KeyboardInterrupt] derives from
    [BaseException] only. *)
Definition is_Exception (e : Exn) : bool :=
  match e with KeyboardInterrupt => false | _ => true end.

(** [str(e)] *)
Definition str_exn (e : Exn) : string :=
  match e with
  | RuntimeError msg | OSError msg | IndexError msg
  | UnicodeDecodeError msg => msg
  | KeyError key => "'" +:+ key +:+ "'"
  | KeyboardInterrupt => ""
  end.

(** A record of [status_dict].  The three timestamp fields ([created_at],
    [completed_at], [processing_time]) are wall-clock readings that no
    code path branches on; they are left out. *)
Record Job := {
  status : TaskStatus;
  progress : Z;
  result_urls : list string;
  error : string;
  request : ImageGenerationRequest;
}.

Definition set_status (v : TaskStatus) (j : Job) : Job :=
  {| status := v; progress := progress j; result_urls := result_urls j;
     error := error j; request := request j |}.

Definition set_progress (v : Z) (j : Job) : Job :=
  {| status := status j; progress := v; result_urls := result_urls j;
     error := error j; request := request j |}.

Definition set_result_urls (v : list string) (j : Job) : Job :=
  {| status := status j; progress := progress j; result_urls := v;
     error := error j; request := request j |}.

Definition set_error (v : string) (j : Job) : Job :=
  {| status := status j; progress := progress j; result_urls := result_urls j;
     error := v; request := request j |}.

Inductive LogLevel := WARNING | ERROR.

(** The mutable state: the process-wide working directory, the
    pipeline's [device_count] attribute, the job table and the queue of
    [create_app], and the warning and error records written to the
    logger (info and debug records are not kept).  Two further fields
    are ghost state, written and never read by the program: every
    [Popen] call in order, and every write to a job record in order
    (the job's id with the record as it stands after the write: what a
    status query would see from then on). *)
Record State := {
  cwd : string;
  device_count : Z;
  status_dict : gmap string Job;
  task_queue : list (string * ImageGenerationRequest);
  log : list (LogLevel * string);
  popen_calls : list (list string * gmap string string);
  history : list (string * Job);
}.

Definition with_cwd (v : string) (s : State) : State :=
  {| cwd := v; device_count := device_count s; status_dict := status_dict s;
     task_queue := task_queue s; log := log s; popen_calls := popen_calls s;
     history := history s |}.

Definition with_device_count (v : Z) (s : State) : State :=
  {| cwd := cwd s; device_count := v; status_dict := status_dict s;
     task_queue := task_queue s; log := log s; popen_calls := popen_calls s;
     history := history s |}.

Definition with_job (task_id : string) (j : Job) (s : State) : State :=
  {| cwd := cwd s; device_count := device_count s;
     status_dict := <[task_id := j]> (status_dict s);
     task_queue := task_queue s; log := log s; popen_calls := popen_calls s;
     history := history s ++ [(task_id, j)] |}.

Definition with_task_queue (v : list (string * ImageGenerationRequest))
    (s : State) : State :=
  {| cwd := cwd s; device_count := device_count s; status_dict := status_dict s;
     task_queue := v; log := log s; popen_calls := popen_calls s;
     history := history s |}.

Definition with_log (level : LogLevel) (msg : string) (s : State) : State :=
  {| cwd := cwd s; device_count := device_count s; status_dict := status_dict s;
     task_queue := task_queue s; log := log s ++ [(level, msg)];
     popen_calls := popen_calls s; history := history s |}.

Definition with_popen (cmd : list string) (env : gmap string string)
    (s : State) : State :=
  {| cwd := cwd s; device_count := device_count s; status_dict := status_dict s;
     task_queue := task_queue s; log := log s;
     popen_calls := popen_calls s ++ [(cmd, env)]; history := history s |}.

Inductive Result (A : Type) :=
| Ok (a : A)
| Raise (e : Exn).
Arguments Ok {A} a.
Arguments Raise {A} e.

(** A computation maps a state to a result and a state; [None] is the
    recursion bound of [_execute_inference] running out. *)
Definition M (A : Type) : Type := State -> option (Result A * State).

Definition ret {A} (a : A) : M A := fun s => Some (Ok a, s).

Definition raise {A} (e : Exn) : M A := fun s => Some (Raise e, s).

Definition out_of_fuel {A} : M A := fun _ => None.

Definition bind {A B} (m : M A) (f : A -> M B) : M B :=
  fun s =>
    match m s with
    | Some (Ok a, s') => f a s'
    | Some (Raise e, s') => Some (Raise e, s')
    | None => None
    end.

Notation "x <- m ;; k" := (bind m (fun x => k))
  (at level 100, m at next level, right associativity).
Notation "m ;; k" := (bind m (fun _ => k))
  (at level 100, right associativity).

Definition gets {A} (f : State -> A) : M A := fun s => Some (Ok (f s), s).

Definition modify (f : State -> State) : M unit := fun s => Some (Ok tt, f s).

(** [try: body finally: fin] *)
Definition try_finally {A} (body : M A) (fin : M unit) : M A :=
  fun s =>
    match body s with
    | Some (r, s') =>
        match fin s' with
        | Some (Ok _, s'') => Some (r, s'')
        | Some (Raise e, s'') => Some (Raise e, s'')
        | None => None
        end
    | None => None
    end.

(** [try: body except ...: handler]; [handler e] is [None] when no
    [except] clause matches [e]. *)
Definition try_except {A} (body : M A) (handler : Exn -> option (M A)) : M A :=
  fun s =>
    match body s with
    | Some (Raise e, s') =>
        match handler e with
        | Some h => h s'
        | None => Some (Raise e, s')
        end
    | other => other
    end.

(** ** npu_pipeline.py: [NPUHiDreamPipeline] *)

(** The attributes [__init__] sets and nothing changes afterwards.
    [device_count] is reassigned by the fallback path and lives in
    [State]. *)
Record Pipeline := {
  model_path : string;
  extra_model_path : string;
  project_path : string;
  tp_size : Z;
  ep_size : Z;
  output_dir : string;
}.

(** The synthetic request object the fallback path builds with [type]. *)
Definition fallback_request (num_images : Z) : InferRequest :=
  {| ir_num_images_per_prompt := num_images;
     ir_resolution := "1024x1024";
     ir_num_inference_steps := 50 |}.

Section Program.

Variable w : World.
Variable self : Pipeline.

Definition getcwd : M string := gets cwd.

Definition chdir (path : string) : M unit :=
  fun s =>
    match chdir_result w (cwd s) path with
    | inr target => Some (Ok tt, with_cwd target s)
    | inl msg => Some (Raise (OSError msg), s)
    end.

Definition logger (level : LogLevel) (msg : string) : M unit :=
  modify (with_log level msg).

(** [subprocess.Popen(cmd, ..., env=env)] *)
Definition popen (cmd : list string) (env : gmap string string) : M Outcome :=
  fun s =>
    let s' := with_popen cmd env s in
    match spawn w (length (popen_calls s)) cmd env with
    | LaunchFailed msg => Some (Raise (OSError msg), s')
    | process => Some (Ok process, s')
    end.

Definition call (progress_callback : option (Z -> M unit)) (p : Z) : M unit :=
  match progress_callback with
  | Some f => f p
  | None => ret tt
  end.

(** The [while True] loop of [_execute_inference] over the lines that
    [readline] returns, carrying the local variables [progress] and
    [output_lines]. *)
Fixpoint read_lines (progress_callback : option (Z -> M unit))
    (lines : list string) (progress : Z) (output_lines : list string)
    : M (Z * list string) :=
  match lines with
  | [] => ret (progress, output_lines)
  | output :: rest =>
      if String.eqb output "" then
        read_lines progress_callback rest progress output_lines
      else
        let output_line := Py.strip output in
        let output_lines := (output_lines ++ [output_line])%list in
        if is_progress_line output_line then
          let progress := advance progress in
          call progress_callback progress ;;
          read_lines progress_callback rest progress output_lines
        else
          read_lines progress_callback rest progress output_lines
  end.

(** [process.poll()] once [readline] has returned end of file: the
    exit code; a loop that is interrupted, or whose [readline] raises,
    raises instead. *)
Definition wait (process : Outcome)
    (progress_callback : option (Z -> M unit)) : M (Z * list string) :=
  match process with
  | Exited lines return_code =>
      r <- read_lines progress_callback lines 30 [] ;;
      ret (return_code, snd r)
  | Interrupted lines =>
      read_lines progress_callback lines 30 [] ;;
      raise KeyboardInterrupt
  | ReadFailed lines msg =>
      read_lines progress_callback lines 30 [] ;;
      raise (UnicodeDecodeError msg)
  | LaunchFailed msg => raise (OSError msg)
  end.

(** [_collect_images]: the relative [output_dir] is resolved from the
    working directory at the time of the call. *)
Definition _collect_images (output_dir : string) (num_images : Z)
    : M (list string) :=
  entries <- gets (fun s => listdir w (cwd s) output_dir) ;;
  ret (map fst (collect_entries output_dir entries num_images)).

Definition single_env : gmap string string :=
  <["HCCL_DISABLE" := "1"]>
    (<["TOKENIZERS_PARALLELISM" := "false"]>
       (<["PYTORCH_NPU_ALLOC_CONF" := "max_split_size_mb:512"]>
          (<["ACL_STREAM_TIMEOUT" := "7200"]> (environ w)))).

Definition single_cmd (task_id prompt_file output_dir : string)
    (request : InferRequest) : list string :=
  [ "python3"; "inference.py";
    "--model_path"; model_path self;
    "--model_path_extra"; extra_model_path self;
    "--prompt_file"; prompt_file;
    "--prompt_file_type"; "plain";
    "--info_file_save_path"; Py.path_join output_dir (task_id +:+ "_info.json");
    "--save_dir"; output_dir;
    "--num_images_per_prompt"; Py.str (ir_num_images_per_prompt request);
    "--resolution"; ir_resolution request;
    "--num_inference_steps"; Py.str (ir_num_inference_steps request);
    "--batch_size"; "1";
    "--infer_type"; "Accuracy";
    "--device_id"; "0" ].

Definition distributed_env (device_count : Z) : gmap string string :=
  <["TOKENIZERS_PARALLELISM" := "false"]>
    (<["PYTORCH_NPU_ALLOC_CONF" := "max_split_size_mb:512"]>
       (<["ACL_STREAM_TIMEOUT" := "7200"]>
          (<["HCCL_SECURITY_ENABLE" := "0"]>
             (<["HCCL_WHITELIST_DISABLE" := "1"]>
                (<["HCCL_LOCAL_RANK_NUM" := Py.str device_count]>
                   (<["HCCL_SINGLE_NODE" := "1"]>
                      (<["HCCL_BUFFSIZE" := "2048"]>
                         (<["HCCL_TIMEOUT" := "7200"]> (environ w))))))))).

Definition distributed_cmd (device_count : Z)
    (task_id prompt_file output_dir : string) (request : InferRequest)
    : list string :=
  [ "torchrun";
    "--nproc_per_node=" +:+ Py.str device_count;
    "--standalone";
    "--nnodes=1";
    "inference.py";
    "--enable_parallelism"; "True";
    "--tp_size"; Py.str (tp_size self);
    "--ep_size"; Py.str (ep_size self);
    "--model_path"; model_path self;
    "--model_path_extra"; extra_model_path self;
    "--prompt_file"; prompt_file;
    "--prompt_file_type"; "plain";
    "--info_file_save_path"; Py.path_join output_dir (task_id +:+ "_info.json");
    "--save_dir"; output_dir;
    "--num_images_per_prompt"; Py.str (ir_num_images_per_prompt request);
    "--resolution"; ir_resolution request;
    "--num_inference_steps"; Py.str (ir_num_inference_steps request);
    "--batch_size"; "1";
    "--infer_type"; "Accuracy" ].

(** [cmd[0]] *)
Definition cmd0 (cmd : list string) : M string :=
  match cmd with
  | c :: _ => ret c
  | [] => raise (IndexError "list index out of range")
  end.

(** [_execute_inference] calls [_run_single_inference], which calls
    [_execute_inference]; [fuel] bounds the depth of that recursion. *)
Fixpoint _execute_inference (fuel : nat) (cmd : list string)
    (env : gmap string string) (progress_callback : option (Z -> M unit))
    (output_dir : string) (num_images : Z) : M (list string) :=
  match fuel with
  | O => out_of_fuel
  | S fuel' =>
      original_cwd <- getcwd ;;
      try_finally
        (chdir (project_path self) ;;
         process <- popen cmd env ;;
         r <- wait process progress_callback ;;
         let return_code := fst r in
         let output_lines := snd r in
         if negb (return_code =? 0) then
           device_count_now <- gets device_count ;;
           is_torchrun <-
             (if device_count_now >? 1 then
                c <- cmd0 cmd ;; ret (Py.contains "torchrun" c)
              else ret false) ;;
           if is_torchrun then
             let error_output :=
               Py.join Py.newline (Py.last_n 10 output_lines) in
             logger WARNING "⚠️ Multi-NPU failed, trying single NPU..." ;;
             logger WARNING ("⚠️ Error: " +:+ error_output) ;;
             original_device_count <- gets device_count ;;
             modify (with_device_count 1) ;;
             try_finally
               (let task_id := Py.basename output_dir in
                let prompt_file :=
                  Py.path_join output_dir (task_id +:+ "_prompt.txt") in
                let request := fallback_request num_images in
                (* _run_single_inference *)
                _execute_inference fuel'
                  (single_cmd task_id prompt_file output_dir request)
                  single_env progress_callback output_dir
                  (ir_num_images_per_prompt request))
               (modify (with_device_count original_device_count))
           else
             let error_output :=
               Py.join Py.newline (Py.last_n 15 output_lines) in
             logger ERROR
               ("❌ Inference failed with code " +:+ Py.str return_code) ;;
             logger ERROR ("❌ Error: " +:+ error_output) ;;
             raise (RuntimeError
                      ("Inference failed with code " +:+ Py.str return_code))
         else
           _collect_images output_dir num_images)
        (chdir original_cwd)
  end.

Definition _run_single_inference (fuel : nat)
    (task_id prompt_file output_dir : string) (request : InferRequest)
    (progress_callback : option (Z -> M unit)) : M (list string) :=
  _execute_inference fuel
    (single_cmd task_id prompt_file output_dir request)
    single_env progress_callback output_dir
    (ir_num_images_per_prompt request).

Definition _run_distributed_inference (fuel : nat)
    (task_id prompt_file output_dir : string) (request : InferRequest)
    (progress_callback : option (Z -> M unit)) : M (list string) :=
  device_count_now <- gets device_count ;;
  _execute_inference fuel
    (distributed_cmd device_count_now task_id prompt_file output_dir request)
    (distributed_env device_count_now) progress_callback output_dir
    (ir_num_images_per_prompt request).

(** [generate_images].  Creating the task directory and writing the
    prompt file touch nothing of [State] and are taken to succeed. *)
Definition generate_images (fuel : nat) (task_id : string)
    (request : ImageGenerationRequest)
    (progress_callback : option (Z -> M unit)) : M (list string) :=
  try_except
    (call progress_callback 10 ;;
     let task_output_dir := Py.path_join (output_dir self) task_id in
     let prompt_file :=
       Py.path_join task_output_dir (task_id +:+ "_prompt.txt") in
     call progress_callback 20 ;;
     device_count_now <- gets device_count ;;
     image_paths <-
       (if device_count_now >? 1 then
          _run_distributed_inference fuel task_id prompt_file
            task_output_dir (as_infer_request request) progress_callback
        else
          _run_single_inference fuel task_id prompt_file
            task_output_dir (as_infer_request request) progress_callback) ;;
     call progress_callback 100 ;;
     ret image_paths)
    (fun e =>
       if is_Exception e then
         Some (logger ERROR
                 ("❌ Image generation failed for task " +:+ task_id
                  +:+ ": " +:+ str_exn e) ;;
               raise e)
       else None).

(** ** hidream_api.py *)

(** [status_dict[task_id][...] = ...] and [status_dict[task_id].update]:
    a [KeyError] when the id is absent. *)
Definition update_job (task_id : string) (f : Job -> Job) : M unit :=
  fun s =>
    match status_dict s !! task_id with
    | Some j => Some (Ok tt, with_job task_id (f j) s)
    | None => Some (Raise (KeyError task_id), s)
    end.

(** [update_progress] *)
Definition update_progress (task_id : string) (p : Z) : M unit :=
  present <- gets (fun s => bool_decide (is_Some (status_dict s !! task_id))) ;;
  if present then update_job task_id (set_progress (Z.min p 95))
  else ret tt.

Definition base_url : string :=
  default "http://localhost:8088" (environ w !! "API_BASE_URL").

Definition result_url (path : string) : string :=
  base_url +:+ "/images/" +:+ Py.basename path.

(** [process_task] *)
Definition process_task (fuel : nat) (task_id : string)
    (request : ImageGenerationRequest) : M unit :=
  try_except
    (update_job task_id (set_status PROCESSING) ;;
     update_job task_id (set_progress 10) ;;
     result_paths <-
       generate_images fuel task_id request
         (Some (update_progress task_id)) ;;
     let result_urls := map result_url result_paths in
     update_job task_id
       (fun j => set_result_urls result_urls
                   (set_progress 100 (set_status COMPLETED j))))
    (fun e =>
       match e with
       | KeyboardInterrupt =>
           Some (update_job task_id
                   (fun j => set_error "Task interrupted"
                               (set_status FAILED j)) ;;
                 raise KeyboardInterrupt)
       | _ =>
           Some (logger ERROR
                   ("❌ Task " +:+ task_id +:+ " failed: " +:+ str_exn e) ;;
                 update_job task_id
                   (fun j => set_error (str_exn e) (set_status FAILED j)))
       end).

(** The record [submit] and [batch_submit] store for a new task. *)
Definition new_job (request : ImageGenerationRequest) : Job :=
  {| status := PENDING; progress := 0; result_urls := []; error := "";
     request := request |}.

(** The state change of [submit], for the id [uuid4] produced. *)
Definition submit (task_id : string) (request : ImageGenerationRequest)
    : M unit :=
  modify (with_job task_id (new_job request)) ;;
  queue <- gets task_queue ;;
  modify (with_task_queue (queue ++ [(task_id, request)])%list).

(** One round of the [while True] loop of [task_worker]. *)
Definition task_worker_round (fuel : nat) : M unit :=
  try_except
    (queue <- gets task_queue ;;
     match queue with
     | (task_id, request) :: rest =>
         modify (with_task_queue rest) ;;
         process_task fuel task_id request
     | [] => ret tt
     end)
    (fun e =>
       if is_Exception e then
         Some (logger ERROR ("❌ Task worker error: " +:+ str_exn e))
       else None).

End Program.

(** ** The values the read loop forwards *)

(** The lines the loop keeps: non-empty reads, stripped. *)
Definition captured (lines : list string) : list string :=
  map Py.strip (filter (fun output => output <> "") lines).

(** The values [read_lines] passes to the callback, in order, from the
    local counter [progress]. *)
Fixpoint forwarded (progress : Z) (lines : list string) : list Z :=
  match lines with
  | [] => []
  | output :: rest =>
      if String.eqb output "" then forwarded progress rest
      else if is_progress_line (Py.strip output)
           then advance progress :: forwarded (advance progress) rest
           else forwarded progress rest
  end.

(** The local counter when the loop ends. *)
Definition final_progress (progress : Z) (lines : list string) : Z :=
  default progress (last (forwarded progress lines)).

(** The number of progress-indicating lines among the kept ones. *)
Definition progress_line_count (lines : list string) : nat :=
  length (filter (fun l => is_progress_line l = true) (captured lines)).

(** A sink that returns normally whenever it is called. *)
Definition sink_ok (f : Z -> M unit) : Prop :=
  forall v s, exists s', f v s = Some (Ok tt, s').

(** The state a sink leaves. *)
Definition run_sink (f : Z -> M unit) (s : State) (v : Z) : State :=
  match f v s with
  | Some (_, s') => s'
  | None => s
  end.

(** The state [update_progress] leaves. *)
Definition store_progress (task_id : string) (s : State) (p : Z) : State :=
  match status_dict s !! task_id with
  | Some j => with_job task_id (set_progress (Z.min p 95) j) s
  | None => s
  end.

(** ** Vocabulary of the specification *)

(** Newest first: [a] may stand before [b]. *)
Definition key_ge {A : Type} (key : A -> Z) (a b : A) : Prop :=
  key b <= key a.

(** [pm] is the path and modification time of a directory entry whose
    name ends in one of the image extensions. *)
Definition image_entry (output_dir : string) (entries : list DirEntry)
    (pm : string * Z) : Prop :=
  exists e ext,
    e ∈ entries /\ ext ∈ image_exts /\ Py.endswith (de_name e) ext = true
    /\ pm = (Py.path_join output_dir (de_name e), de_mtime e).

(** [wp m s Q]: from state [s], [m] ends (returning or raising, within
    its recursion bound) with a result and a state that satisfy [Q]. *)
Definition wp {A} (m : M A) (s : State) (Q : Result A -> State -> Prop)
    : Prop :=
  exists r s', m s = Some (r, s') /\ Q r s'.

(** A command whose first word does not name [torchrun]: a failure of
    such a run is never retried. *)
Definition leaf_cmd (cmd : list string) : Prop :=
  match cmd with
  | c :: _ => Py.contains "torchrun" c = false
  | [] => False
  end.

(** What a normal return of [_execute_inference] carries: the collector's
    selection from the listing of the output directory. *)
Definition collected (w : World) (output_dir : string) (n : Z)
    (r : Result (list string)) : Prop :=
  forall paths, r = Ok paths ->
    exists c,
      paths = map fst (collect_entries output_dir (listdir w c output_dir) n).

(** The progress values of a sequence of writes. *)
Definition progresses (writes : list (string * Job)) : list Z :=
  map (fun x => progress (snd x)) writes.

(** [l] never decreases and stays at or below [x]. *)
Definition ordered (l : list Z) (x : Z) : Prop :=
  StronglySorted Z.le l /\ Forall (fun v => v <= x) l.

(** What every state of a job record satisfies once it is written:
    progress is 100 in a COMPLETED record, and at most 95 with no result
    locations in any other. *)
Definition snapshot_ok (j : Job) : Prop :=
  match status j with
  | COMPLETED => progress j = 100
  | _ => progress j <= 95 /\ result_urls j = []
  end.

(** A record of the job while it is being processed. *)
Definition in_flight (j : Job) : Prop :=
  status j = PROCESSING /\ result_urls j = [] /\ progress j <= 95.

(** The invariant of [process_task] for task [task_id] started in state
    [s0]: the record is in flight; the writes since [s0] are writes of
    in-flight records of this task; as long as at most one process was
    launched, their progress values never decrease and end at the
    current one.  [extra] ties the current progress to the phase. *)
Definition tracked (task_id : string) (s0 : State)
    (extra : State -> Job -> Prop) (s : State) : Prop :=
  exists j writes,
    status_dict s !! task_id = Some j
    /\ history s = (history s0 ++ writes)%list
    /\ in_flight j
    /\ Forall (fun x => fst x = task_id /\ in_flight (snd x)) writes
    /\ (length (popen_calls s0) <= length (popen_calls s))%nat
    /\ ((length (popen_calls s) <= S (length (popen_calls s0)))%nat ->
        ordered (0 :: progresses writes) (progress j))
    /\ extra s j.

(** Before the first launch the progress is at most 30, the value every
    run starts its counter from. *)
Definition between_runs (task_id : string) (s0 : State) : State -> Prop :=
  tracked task_id s0
    (fun s j => length (popen_calls s) = length (popen_calls s0) ->
                progress j <= 30).

(** Inside the read loop with local counter [p]: during the first run
    the stored progress is at most [p]. *)
Definition in_loop (task_id : string) (s0 : State) (p : Z) : State -> Prop :=
  tracked task_id s0
    (fun s j =>
       30 <= p <= 85
       /\ (length (popen_calls s0) < length (popen_calls s))%nat
       /\ ((length (popen_calls s) <= S (length (popen_calls s0)))%nat ->
           progress j <= p)).

(** What [process_task] leaves behind for a freshly created job: the
    writes it made are writes of this task's record, each satisfying
    [snapshot_ok]; their progress values never decrease when at most one
    process was launched; the record ends COMPLETED, with the URLs of
    the collector's selection, or FAILED. *)
Definition lifecycle_post (w : World) (self : Pipeline) (task_id : string)
    (request : ImageGenerationRequest) (s0 : State)
    (r : Result unit) (s' : State) : Prop :=
  exists writes j',
    history s' = (history s0 ++ writes)%list
    /\ status_dict s' !! task_id = Some j'
    /\ Forall (fun x => fst x = task_id /\ snapshot_ok (snd x)) writes
    /\ ((length (popen_calls s') <= S (length (popen_calls s0)))%nat ->
        StronglySorted Z.le (0 :: progresses writes))
    /\ ((status j' = COMPLETED
         /\ exists c,
              let out := Py.path_join (output_dir self) task_id in
              result_urls j'
              = map (result_url w)
                    (map fst (collect_entries out (listdir w c out)
                                (num_images_per_prompt request))))
        \/ status j' = FAILED).

(** [os.chdir] never raises in this world. *)
Definition chdir_total (w : World) : Prop :=
  forall c path, exists target, chdir_result w c path = inr target.

(** The record of task [task_id] in [s'] differs from the one in [s] in
    its progress at most. *)
Definition job_frame (task_id : string) (s s' : State) : Prop :=
  forall j, status_dict s !! task_id = Some j ->
    exists j', status_dict s' !! task_id = Some j'
               /\ status j' = status j /\ error j' = error j
               /\ result_urls j' = result_urls j.

(** Since [s]: the [Popen] calls [calls] were made, the records [lines]
    were logged, the device count is [d], and the task's record changed
    in its progress at most. *)
Definition since (task_id : string) (s : State) (d : Z)
    (calls : list (list string * gmap string string))
    (lines : list (LogLevel * string)) (s' : State) : Prop :=
  popen_calls s' = (popen_calls s ++ calls)%list
  /\ log s' = (log s ++ lines)%list
  /\ device_count s' = d
  /\ job_frame task_id s s'.

(** The error records and the exception of a run that is not retried. *)
Definition leaf_log (process : Outcome) : list (LogLevel * string) :=
  match process with
  | Exited lines return_code =>
      if return_code =? 0 then []
      else [ (ERROR, "❌ Inference failed with code " +:+ Py.str return_code);
             (ERROR, "❌ Error: "
                     +:+ Py.join Py.newline (Py.last_n 15 (captured lines))) ]
  | _ => []
  end.

Definition leaf_exn (process : Outcome) : option Exn :=
  match process with
  | Exited _ return_code =>
      if return_code =? 0 then None
      else Some (RuntimeError
                   ("Inference failed with code " +:+ Py.str return_code))
  | Interrupted _ => Some KeyboardInterrupt
  | ReadFailed _ msg => Some (UnicodeDecodeError msg)
  | LaunchFailed msg => Some (OSError msg)
  end.

(** The warning records of a failed distributed run that is retried. *)
Definition retry_log (lines : list string) : list (LogLevel * string) :=
  [ (WARNING, "⚠️ Multi-NPU failed, trying single NPU...");
    (WARNING, "⚠️ Error: "
              +:+ Py.join Py.newline (Py.last_n 10 (captured lines))) ].

(** The result [r] raises [e], or returns when [ex] is [None]. *)
Definition result_is {A} (ex : option Exn) (r : Result A) : Prop :=
  match ex with
  | Some e => r = Raise e
  | None => exists a, r = Ok a
  end.

(** The command line of the retry. *)
Definition retry_cmd (self : Pipeline) (output_dir : string) (num_images : Z)
    : list string :=
  single_cmd self (Py.basename output_dir)
    (Py.path_join output_dir (Py.basename output_dir +:+ "_prompt.txt"))
    output_dir (fallback_request num_images).

(** The error record of [generate_images] and of [process_task]. *)
Definition gen_log (task_id : string) (ex : option Exn)
    : list (LogLevel * string) :=
  match ex with
  | Some e =>
      if is_Exception e then
        [ (ERROR, "❌ Image generation failed for task " +:+ task_id
                  +:+ ": " +:+ str_exn e) ]
      else []
  | None => []
  end.

Definition task_log (task_id : string) (ex : option Exn)
    : list (LogLevel * string) :=
  match ex with
  | Some KeyboardInterrupt | None => []
  | Some e => [ (ERROR, "❌ Task " +:+ task_id +:+ " failed: " +:+ str_exn e) ]
  end.

(** How [process_task] ends for a job that started as [j0], by what the
    pipeline raised. *)
Definition task_end (j0 : Job) (ex : option Exn) (r : Result unit) (j' : Job)
    : Prop :=
  match ex with
  | None =>
      r = Ok tt /\ status j' = COMPLETED /\ progress j' = 100
      /\ error j' = error j0
  | Some KeyboardInterrupt =>
      r = Raise KeyboardInterrupt /\ status j' = FAILED
      /\ error j' = "Task interrupted"
  | Some e => r = Ok tt /\ status j' = FAILED /\ error j' = str_exn e
  end.

Definition task_post (task_id : string) (s : State) (j0 : Job)
    (calls : list (list string * gmap string string))
    (lines : list (LogLevel * string)) (ex : option Exn)
    (r : Result unit) (s' : State) : Prop :=
  exists j',
    status_dict s' !! task_id = Some j'
    /\ popen_calls s' = (popen_calls s ++ calls)%list
    /\ log s' = (log s ++ lines ++ task_log task_id ex)%list
    /\ task_end j0 ex r j'.

(** The paths [generate_images] derives from the task id. *)
Definition task_output_dir (self : Pipeline) (task_id : string) : string :=
  Py.path_join (output_dir self) task_id.

Definition task_prompt_file (self : Pipeline) (task_id : string) : string :=
  Py.path_join (task_output_dir self task_id) (task_id +:+ "_prompt.txt").

(** The two command lines [generate_images] can start with. *)
Definition first_single_cmd (self : Pipeline) (task_id : string)
    (request : ImageGenerationRequest) : list string :=
  single_cmd self task_id (task_prompt_file self task_id)
    (task_output_dir self task_id) (as_infer_request request).

Definition first_distributed_cmd (self : Pipeline) (d : Z) (task_id : string)
    (request : ImageGenerationRequest) : list string :=
  distributed_cmd self d task_id (task_prompt_file self task_id)
    (task_output_dir self task_id) (as_infer_request request).

(** A callback that, when present, always ends: it returns or raises. *)
Definition callback_ends (progress_callback : option (Z -> M unit)) : Prop :=
  forall f, progress_callback = Some f ->
    forall v s, exists r s', f v s = Some (r, s').

(** The errors of the operating system and of the decoder come with a
    message: [str(e)] is not empty for the [OSError] of a failed launch
    or [os.chdir] and for the [UnicodeDecodeError] of a failed read. *)
Definition messages_nonempty (w : World) : Prop :=
  (forall n cmd env msg, spawn w n cmd env = LaunchFailed msg -> msg <> "")
  /\ (forall n cmd env lines msg,
        spawn w n cmd env = ReadFailed lines msg -> msg <> "")
  /\ (forall c path msg, chdir_result w c path = inl msg -> msg <> "").

(** An exception whose [str] is not empty, or the interrupt. *)
Definition has_message (e : Exn) : Prop :=
  e = KeyboardInterrupt \/ str_exn e <> "".

(** ** Sample worlds and jobs *)

(** The defaults of [ImageGenerationRequest]. *)
Definition default_request (prompt : string) : ImageGenerationRequest :=
  {| prompt := prompt; negative_prompt := Some ""; resolution := "1024x1024";
     num_inference_steps := 50; num_images_per_prompt := 1; seed := None;
     batch_size := 1; infer_type := "Accuracy" |}.

Module Demo.

(** A world in which the [n]-th launched process has the [n]-th outcome
    of [outcomes], every [chdir] to an absolute path succeeds, and the
    output directory lists [entries]. *)
Definition world (outcomes : list Outcome) (entries : list DirEntry) : World :=
  {| environ := ∅;
     spawn := fun n _ _ =>
       nth n outcomes (LaunchFailed "[Errno 2] No such file or directory");
     chdir_result := fun _ path => inr path;
     listdir := fun _ _ => entries |}.

Definition pipeline : Pipeline :=
  {| model_path := "/data/HiDream-I1-Full";
     extra_model_path := "/data/Llama-3.1-8B-Instruct";
     project_path := "/workspace/HiDream-I1";
     tp_size := 2; ep_size := 1;
     output_dir := "generated_images" |}.

(** The server before any submission, with [d] devices. *)
Definition idle (d : Z) : State :=
  {| cwd := "/srv/api"; device_count := d; status_dict := ∅;
     task_queue := []; log := []; popen_calls := []; history := [] |}.

Definition request : ImageGenerationRequest :=
  {| prompt := "a lighthouse at dusk"; negative_prompt := Some "";
     resolution := "2048x2048"; num_inference_steps := 30;
     num_images_per_prompt := 2; seed := Some 42; batch_size := 1;
     infer_type := "Accuracy" |}.

Definition task_id : string := "img_0123456789abcdef".

Definition two_images : list DirEntry :=
  [ {| de_name := "0_0.png"; de_mtime := 1700000010 |};
    {| de_name := "0_1.png"; de_mtime := 1700000020 |};
    {| de_name := "img_0123456789abcdef_info.json"; de_mtime := 1700000030 |} ].

Definition nl (s : string) : string := s +:+ Py.newline.

(** A distributed run that reports two steps and dies, then a retry that
    reports one step and succeeds. *)
Definition retry_world : World :=
  world [ Exited [nl "Sampling step 1/30"; nl "Sampling step 2/30";
                  nl "HCCL timeout"] 1;
          Exited [nl "loading"; nl "step 1/50"] 0 ]
        two_images.

(** Both runs fail. *)
Definition retry_fails_world : World :=
  world [ Exited [nl "HCCL timeout"] 1;
          Exited [nl "step 1/50"; nl "out of memory"] 137 ]
        [].

(** A single run that reports two steps and succeeds. *)
Definition single_world : World :=
  world [ Exited [nl "step 1/30"; nl "step 2/30"] 0 ] two_images.

(** A single run that succeeds and leaves no image behind. *)
Definition no_image_world : World :=
  world [ Exited [nl "step 1/30"] 0 ] [].

(** A single run that prints twelve lines and exits 1. *)
Definition twelve_lines : list string :=
  map (fun k => nl ("trace line " +:+ Py.str k)) [1;2;3;4;5;6;7;8;9;10;11;12].

Definition failing_world : World := world [ Exited twelve_lines 1 ] [].

(** The state after the job is submitted. *)
Definition submitted (d : Z) : State := with_task_queue [(task_id, request)]
  (with_job task_id (new_job request) (idle d)).




End Demo.

(** The progress values a poller of [task_id] can have seen while the
    job was PENDING or PROCESSING, oldest first. *)
Definition observed_progress (task_id : string) (s : State) : list Z :=
  progresses
    (filter (fun x => fst x = task_id
                      /\ (status (snd x) = PENDING
                          \/ status (snd x) = PROCESSING))
            (history s)).

(** The state a computation ends in. *)
Definition final_state {A} (m : M A) (s : State) : option State :=
  match m s with
  | Some (_, s') => Some s'
  | None => None
  end.

(** ** hidream_api.py: the remaining endpoints and the worker loop *)

(** [l[i]] for a list: a negative index counts from the end, and an
    index outside the list is the [IndexError] ([None] here). *)
Definition getitem {A : Type} (l : list A) (i : Z) : option A :=
  if 0 <=? i then l !! Z.to_nat i
  else if 0 <=? Z.of_nat (length l) + i
       then l !! Z.to_nat (Z.of_nat (length l) + i)
       else None.

(** What an endpoint gives back: a response, the [HTTPException] it
    raises, or another exception it lets escape. *)
Inductive Http (A : Type) :=
| Respond (a : A)
| HTTPException (status_code : Z) (detail : string)
| Escapes (e : Exn).
Arguments Respond {A} a.
Arguments HTTPException {A} status_code detail.
Arguments Escapes {A} e.

(** The arguments of the [FileResponse] that [download_result] builds. *)
Record FileResponse := {
  fr_path : string;
  fr_media_type : string;
  fr_filename : string;
}.

(** [download_result]; [path_exists] is [os.path.exists] for the working
    directory of the server. *)
Definition download_result (path_exists : string -> bool) (s : State)
    (task_id : string) (image_index : Z) : Http FileResponse :=
  match status_dict s !! task_id with
  | None => HTTPException 404 "Task not found"
  | Some task_info =>
      if negb (bool_decide (status task_info = COMPLETED)) then
        HTTPException 400 "Task not completed"
      else if bool_decide (result_urls task_info = [])
              || (Z.of_nat (length (result_urls task_info)) <=? image_index)
      then HTTPException 404 "Image not found"
      else
        match getitem (result_urls task_info) image_index with
        | None => Escapes (IndexError "list index out of range")
        | Some image_url =>
            (* image_url.split("/")[-1] *)
            let filename := Py.basename image_url in
            let file_path := "generated_images/" +:+ filename in
            if negb (path_exists file_path) then
              HTTPException 404 "Image file not found"
            else
              Respond {| fr_path := file_path;
                         fr_media_type := "image/png";
                         fr_filename := task_id +:+ "_image_"
                                        +:+ Py.str image_index +:+ ".png" |}
        end
  end.

(** The counters of [health]. *)
Record Health := {
  queue_length : nat;
  active_tasks : nat;
  total_tasks : nat;
}.

Definition health (s : State) : Health :=
  {| queue_length := length (task_queue s);
     active_tasks :=
       size (filter (fun kv : string * Job => status (snd kv) = PROCESSING)
               (status_dict s));
     total_tasks := size (status_dict s) |}.

(** The state change of [batch_submit], for the ids [uuid4] produced,
    one per request. *)
Fixpoint batch_submit (items : list (string * ImageGenerationRequest))
    : M unit :=
  match items with
  | [] => ret tt
  | (task_id, req) :: rest =>
      modify (with_job task_id (new_job req)) ;;
      queue <- gets task_queue ;;
      modify (with_task_queue (queue ++ [(task_id, req)])%list) ;;
      batch_submit rest
  end.

(** [rounds] rounds of the [while True] loop of [task_worker]. *)
Fixpoint task_worker (w : World) (self : Pipeline) (fuel : nat)
    (rounds : nat) : M unit :=
  match rounds with
  | O => ret tt
  | S rounds' =>
      task_worker_round w self fuel ;; task_worker w self fuel rounds'
  end.

(** ** npu_pipeline.py: construction and cleanup *)

(** What the constructor asks of the machine besides [World]: the
    answers of [Path.home()] and [Path.exists], and for [Path.mkdir] with
    [exist_ok=True] the message of the [OSError] it raises, if it raises
    (the path is a file, or may not be created).  [Path.home()],
    [Path.cwd()] and [Path.exists] are taken to answer: a home directory
    that cannot be determined, a working directory that was removed and
    a candidate that may not be examined make them raise instead, and
    have no place here. *)
Record Host := {
  host_home : string;
  host_exists : string -> bool;
  host_mkdir : string -> option string;
}.

(** [str(Path(d) / name)] for an absolute, normalised [d]: the root
    directory already ends in the separator. *)
Definition pjoin (d name : string) : string :=
  if String.eqb d "/" then "/" +:+ name else d +:+ "/" +:+ name.

(** The text before the last ["/"]. *)
Fixpoint dirname_from (acc seen s : string) : string :=
  match s with
  | EmptyString => acc
  | String c s' =>
      if Ascii.eqb c "/" then dirname_from seen (seen +:+ "/") s'
      else dirname_from acc (seen +:+ String c EmptyString) s'
  end.

(** [str(Path(p).parent)] for an absolute, normalised [p]. *)
Definition parent (p : string) : string :=
  let d := dirname_from "" "" p in
  if String.eqb d "" then "/" else d.

(** The candidates of [_detect_project_path], in the order it tries
    them. *)
Definition possible_paths (home cwd : string) : list string :=
  [ "/workspace/HiDream-I1";
    "/data/HiDream-I1";
    pjoin home "HiDream-I1";
    pjoin cwd "HiDream-I1";
    pjoin (parent cwd) "HiDream-I1";
    cwd ].

Definition is_project (h : Host) (path : string) : bool :=
  host_exists h path && host_exists h (pjoin path "inference.py").

(** The errors the constructor can raise: of [_detect_project_path], of
    the planner, and the [OSError] of [mkdir]. *)
Inductive InitError :=
| FileNotFoundError (msg : string)
| ZeroDivisionError
| MkdirError (msg : string).

(** [_detect_project_path] *)
Definition _detect_project_path (w : World) (h : Host) (cwd : string)
    : InitError + string :=
  match environ w !! "HIDREAM_PROJECT_PATH" with
  | Some path => inr path
  | None =>
      match filter (fun path => is_project h path = true)
                   (possible_paths (host_home h) cwd) with
      | path :: _ => inr path
      | [] => inl (FileNotFoundError "HiDream-I1 project not found")
      end
  end.

(** [NPUHiDreamPipeline.__init__]: the attributes it sets, in the order
    of the source: the project path, the planner's pair, the output
    directory, which it creates. *)
Definition init (w : World) (h : Host) (cwd : string)
    (model_path extra_model_path : string) (device_count : Z)
    : InitError + Pipeline :=
  match _detect_project_path w h cwd with
  | inl e => inl e
  | inr project =>
      match _calculate_distributed_config device_count with
      | None => inl ZeroDivisionError
      | Some (tp, ep) =>
          match host_mkdir h "generated_images" with
          | Some msg => inl (MkdirError msg)
          | None =>
              inr {| model_path := model_path;
                     extra_model_path := extra_model_path;
                     project_path := project;
                     tp_size := tp; ep_size := ep;
                     output_dir := "generated_images" |}
          end
      end
  end.



(** A name that is one path component.  [Py.path_join] is the join of
    [pathlib] on these names; [pathlib] drops the names [""] and ["."],
    so that [(Path(d) / name).name] is not [name] for them. *)
Definition path_component (name : string) : Prop :=
  name <> "" /\ name <> "." /\ Py.contains "/" name = false.

(** The entry is an image for the collector: its name ends in one of
    the image extensions. *)
Definition is_image (e : DirEntry) : bool :=
  existsb (fun ext => Py.endswith (de_name e) ext) image_exts.

(** What the collector makes of a directory entry. *)
Definition entry_path (output_dir : string) (e : DirEntry) : string * Z :=
  (Py.path_join output_dir (de_name e), de_mtime e).

(** The invariant of [process_task] for any record of task [task_id]
    that was [j0] in state [s0]: the record is there with the request of
    [j0] and a progress between 0 and 95; at least one write was made
    since [s0], every write is a write of this task's record with a
    progress between 0 and 100; no other record and no queue entry
    changed. *)
Definition running (task_id : string) (s0 : State) (j0 : Job) (s : State)
    : Prop :=
  exists j writes,
    status_dict s !! task_id = Some j
    /\ request j = request j0
    /\ 0 <= progress j <= 95
    /\ history s = (history s0 ++ writes)%list
    /\ writes <> []
    /\ Forall (fun x => fst x = task_id /\ 0 <= progress (snd x) <= 100) writes
    /\ (forall other, other <> task_id ->
                      status_dict s !! other = status_dict s0 !! other)
    /\ task_queue s = task_queue s0.

(** How [process_task] ends for a record that was [j0] in [s0]. *)
Definition settled (task_id : string) (s0 : State) (j0 : Job)
    (r : Result unit) (s' : State) : Prop :=
  (r = Ok tt \/ r = Raise KeyboardInterrupt)
  /\ task_queue s' = task_queue s0
  /\ (forall other, other <> task_id ->
                    status_dict s' !! other = status_dict s0 !! other)
  /\ exists j' writes,
       status_dict s' !! task_id = Some j'
       /\ request j' = request j0
       /\ (status j' = COMPLETED \/ status j' = FAILED)
       /\ (r = Raise KeyboardInterrupt ->
           status j' = FAILED /\ error j' = "Task interrupted")
       /\ history s' = (history s0 ++ writes)%list
       /\ writes <> []
       /\ Forall (fun x => fst x = task_id /\ 0 <= progress (snd x) <= 100)
            writes.

(** The variables [_run_distributed_inference] and
    [_run_single_inference] set in the environment of the child. *)
Definition distributed_env_keys : list string :=
  [ "HCCL_TIMEOUT"; "HCCL_BUFFSIZE"; "HCCL_SINGLE_NODE";
    "HCCL_LOCAL_RANK_NUM"; "HCCL_WHITELIST_DISABLE"; "HCCL_SECURITY_ENABLE";
    "ACL_STREAM_TIMEOUT"; "PYTORCH_NPU_ALLOC_CONF"; "TOKENIZERS_PARALLELISM" ].

Definition single_env_keys : list string :=
  [ "ACL_STREAM_TIMEOUT"; "PYTORCH_NPU_ALLOC_CONF"; "TOKENIZERS_PARALLELISM";
    "HCCL_DISABLE" ].

(** ** Further sample data *)

Module Sample.

(** A batch of two requests with the ids [uuid4] gave them. *)
Definition batch : list (string * ImageGenerationRequest) :=
  [ ("img_00000000000000a1", Demo.request);
    ("img_00000000000000b2", default_request "a harbour at dawn") ].

(** The server with [d] devices after that batch was submitted. *)
Definition queued (d : Z) : State :=
  with_task_queue batch
    (with_job "img_00000000000000b2"
       (new_job (default_request "a harbour at dawn"))
       (with_job "img_00000000000000a1" (new_job Demo.request)
          (Demo.idle d))).

(** The first run succeeds, the second runs out of memory. *)
Definition batch_world : World :=
  Demo.world [ Exited [Demo.nl "step 1/30"] 0;
               Exited [Demo.nl "out of memory"] 1 ]
             Demo.two_images.

(** The first run of the batch is interrupted. *)
Definition interrupted_batch_world : World :=
  Demo.world [ Interrupted [Demo.nl "step 1/30"];
               Exited [Demo.nl "step 1/50"] 0 ]
             Demo.two_images.


(** The job table after the job of [Demo] completed with the two images
    of its task directory. *)
Definition completed : State :=
  with_job Demo.task_id
    (set_result_urls
       (map (result_url (Demo.world [] Demo.two_images))
          (map fst (collect_entries
                      (task_output_dir Demo.pipeline Demo.task_id)
                      Demo.two_images 2)))
       (set_progress 100 (set_status COMPLETED (new_job Demo.request))))
    (Demo.idle 1).

(** A working directory of the server in which "generated_images" holds
    the task directories and no file of its own. *)
Definition no_files (path : string) : bool := false.

(** A machine whose only project checkout is next to the working
    directory of the server. *)
Definition host : Host :=
  {| host_home := "/root";
     host_exists := fun path =>
       bool_decide (path ∈ [ "/data/HiDream-I1"; "/srv/HiDream-I1";
                              "/srv/HiDream-I1/inference.py"; "/srv/app" ]);
     host_mkdir := fun _ => None |}.

(** The same machine with a file in the place of the output directory. *)
Definition blocked_host : Host :=
  {| host_home := host_home host;
     host_exists := host_exists host;
     host_mkdir := fun path =>
       Some ("[Errno 17] File exists: '" +:+ path +:+ "'") |}.

End Sample.

(** * Verification *)

(** ** The model on sample inputs *)

Example planner_table :
  map _calculate_distributed_config [1; 2; 3; 4; 5; 6; 8; 16; 0]
  = [Some (1, 1); Some (2, 1); Some (3, 1); Some (4, 1); Some (4, 1);
     Some (4, 1); Some (4, 2); Some (4, 4); None].
Proof. reflexivity. Qed.

Example progress_lines :
  map is_progress_line
    ["Sampling STEP 3/50"; "loading weights"; "INFERENCE done"; "stepping"; ""]
  = [true; false; true; true; false].
Proof. reflexivity. Qed.

Example strip_line : Py.strip (Demo.nl "  step 1/30 ") = "step 1/30".
Proof. reflexivity. Qed.

(** White space outside ASCII is stripped as well: here U+00A0 in front
    and U+2003 and U+3000 behind; inside the line it stays. *)
Example strip_unicode :
  Py.strip (String "194" (String "160" "step")
            +:+ String "226" (String "128" (String "131" " 1"))
            +:+ String "226" (String "128" (String "131" ""))
            +:+ String "227" (String "128" (String "128" Py.newline)))
  = "step" +:+ String "226" (String "128" (String "131" " 1")).
Proof. reflexivity. Qed.

Example collect_newest_first :
  collect_entries "out"
    [ {| de_name := "a.png"; de_mtime := 3 |};
      {| de_name := "b.jpg"; de_mtime := 5 |};
      {| de_name := "notes.txt"; de_mtime := 9 |};
      {| de_name := "c.png"; de_mtime := 5 |} ] 2
  = [("out/c.png", 5); ("out/b.jpg", 5)].
Proof. reflexivity. Qed.

Example retry_command :
  retry_cmd Demo.pipeline "generated_images/img_1" 2
  = [ "python3"; "inference.py";
      "--model_path"; "/data/HiDream-I1-Full";
      "--model_path_extra"; "/data/Llama-3.1-8B-Instruct";
      "--prompt_file"; "generated_images/img_1/img_1_prompt.txt";
      "--prompt_file_type"; "plain";
      "--info_file_save_path"; "generated_images/img_1/img_1_info.json";
      "--save_dir"; "generated_images/img_1";
      "--num_images_per_prompt"; "2";
      "--resolution"; "1024x1024";
      "--num_inference_steps"; "50";
      "--batch_size"; "1";
      "--infer_type"; "Accuracy";
      "--device_id"; "0" ].
Proof. reflexivity. Qed.

(** Both runs fail: the job is FAILED with the exit code of the retry,
    at the progress the retry reached. *)
Example both_runs_fail :
  option_map
    (fun s => option_map (fun j => (status j, progress j, error j))
                (status_dict s !! Demo.task_id))
    (final_state
       (process_task Demo.retry_fails_world Demo.pipeline 2 Demo.task_id
          Demo.request)
       (Demo.submitted 2))
  = Some (Some (FAILED, 32, "Inference failed with code 137")).
Proof. vm_compute. reflexivity. Qed.

(** A submission followed by one round of the worker. *)
Example submit_then_work :
  option_map
    (fun s => (option_map (fun j => (status j, progress j, result_urls j))
                 (status_dict s !! Demo.task_id),
               task_queue s, cwd s))
    (final_state
       (submit Demo.task_id Demo.request ;;
        task_worker_round Demo.single_world Demo.pipeline 2)
       (Demo.idle 1))
  = Some (Some (COMPLETED, 100,
                ["http://localhost:8088/images/0_1.png";
                 "http://localhost:8088/images/0_0.png"]),
          [], "/srv/api").
Proof. vm_compute. reflexivity. Qed.

(** ** Python primitives *)

Lemma slice_to_nonneg {A} (l : list A) (n : Z) :
  0 <= n -> Py.slice_to l n = take (Z.to_nat n) l.
Proof.
  intros Hn. unfold Py.slice_to.
  destruct (Z.leb_spec 0 n) as [_ | Hlt]; [reflexivity | lia].
Qed.

Section SortDescFacts.
Context {A : Type} (key : A -> Z).

Lemma insert_desc_perm (x : A) (l : list A) :
  Py.insert_desc key x l ≡ₚ x :: l.
Proof.
  induction l as [| y l IH]; cbn; [reflexivity |].
  destruct (key y <=? key x); [reflexivity |].
  rewrite IH. apply Permutation_swap.
Qed.

Lemma sort_desc_perm (l : list A) : Py.sort_desc key l ≡ₚ l.
Proof.
  induction l as [| x l IH]; cbn; [reflexivity |].
  rewrite insert_desc_perm. by rewrite IH.
Qed.

Lemma insert_desc_sorted (x : A) (l : list A) :
  StronglySorted (key_ge key) l -> StronglySorted (key_ge key) (Py.insert_desc key x l).
Proof.
  induction 1 as [| y l Hl IH Hy]; cbn.
  - repeat constructor.
  - destruct (Z.leb_spec (key y) (key x)) as [Hle | Hgt].
    + constructor; [by constructor |].
      constructor; [exact Hle |].
      eapply Forall_impl; [exact Hy |].
      intros z Hz. unfold key_ge in *. lia.
    + constructor; [exact IH |].
      rewrite insert_desc_perm. constructor; [| exact Hy].
      unfold key_ge. lia.
Qed.

Lemma sort_desc_sorted (l : list A) :
  StronglySorted (key_ge key) (Py.sort_desc key l).
Proof.
  induction l as [| x l IH]; cbn; [constructor |].
  by apply insert_desc_sorted.
Qed.

Lemma take_sorted (R : A -> A -> Prop) (n : nat) (l : list A) :
  StronglySorted R l -> StronglySorted R (take n l).
Proof.
  intros Hl. rewrite <- (take_drop n l) in Hl.
  by apply StronglySorted_app_1_l in Hl.
Qed.
End SortDescFacts.

(** ** Device Topology Planner *)

(** C6: for every positive device count the planner returns a pair
    (tp, ep) with tp >= 1, ep >= 1 and tp * ep <= d; the pairs for 1, 2,
    4 and 8 are (1,1), (2,1), (4,1) and (4,2); otherwise tp = min(4, d)
    and ep = d // tp.  The planner is a function of the device count
    alone: it reads and writes no state. *)
Theorem planner_contract (d : Z) :
  0 < d ->
  exists tp ep,
    _calculate_distributed_config d = Some (tp, ep)
    /\ 1 <= tp /\ 1 <= ep /\ tp * ep <= d
    /\ (d = 1 -> tp = 1 /\ ep = 1)
    /\ (d = 2 -> tp = 2 /\ ep = 1)
    /\ (d = 4 -> tp = 4 /\ ep = 1)
    /\ (d = 8 -> tp = 4 /\ ep = 2)
    /\ (d <> 1 -> d <> 2 -> d <> 4 -> d <> 8 ->
        tp = Z.min 4 d /\ ep = d / tp).
Proof.
  intros Hd. unfold _calculate_distributed_config.
  destruct (Z.eqb_spec d 1) as [-> | H1];
    [exists 1, 1; repeat split; lia |].
  destruct (Z.eqb_spec d 2) as [-> | H2];
    [exists 2, 1; repeat split; lia |].
  destruct (Z.eqb_spec d 4) as [-> | H4];
    [exists 4, 1; repeat split; lia |].
  destruct (Z.eqb_spec d 8) as [-> | H8];
    [exists 4, 2; repeat split; lia |].
  unfold floordiv.
  assert (Htp : 0 < Z.min 4 d) by lia.
  destruct (Z.eqb_spec (Z.min 4 d) 0) as [H0 | _]; [lia |].
  exists (Z.min 4 d), (d / Z.min 4 d).
  assert (Hep : 0 < d / Z.min 4 d) by (apply Z.div_str_pos; lia).
  pose proof (Z.mul_div_le d (Z.min 4 d) Htp) as Hle.
  repeat split; lia.
Qed.

(** ** Result Collector *)

Lemma matching_paths_image_entry output_dir entries pm :
  pm ∈ matching_paths output_dir entries -> image_entry output_dir entries pm.
Proof.
  unfold matching_paths, image_exts. cbn [map concat].
  rewrite !elem_of_app.
  assert (Hone : forall ext, ext ∈ image_exts ->
            pm ∈ map (fun e => (Py.path_join output_dir (de_name e), de_mtime e))
                     (glob_ext entries ext) ->
            image_entry output_dir entries pm).
  { intros ext Hext Hin.
    apply list_elem_of_fmap in Hin as (e & -> & He).
    apply list_elem_of_filter in He as [Hsuffix He].
    exists e, ext. done. }
  unfold image_exts in Hone.
  intros [H | [H | [H | [H | H]]]];
    [eapply Hone; [| exact H];
     repeat first [apply list_elem_of_here | apply list_elem_of_further] ..
    | by apply elem_of_nil in H].
Qed.

Lemma matching_paths_none output_dir entries :
  (forall e ext, e ∈ entries -> ext ∈ image_exts ->
                 Py.endswith (de_name e) ext = false) ->
  matching_paths output_dir entries = [].
Proof.
  intros Hnone.
  destruct (matching_paths output_dir entries) as [| pm l] eqn:E; [done |].
  assert (Hin : pm ∈ matching_paths output_dir entries)
    by (rewrite E; left).
  apply matching_paths_image_entry in Hin as (e & ext & He & Hext & Hs & _).
  rewrite (Hnone e ext He Hext) in Hs. discriminate.
Qed.

Lemma collect_entries_nonneg output_dir entries (N : Z) :
  0 <= N ->
  collect_entries output_dir entries N
  = take (Z.to_nat N) (Py.sort_desc snd (matching_paths output_dir entries)).
Proof.
  intros HN. unfold collect_entries.
  destruct (matching_paths output_dir entries) as [| pm l];
    [by destruct (Z.to_nat N) |].
  by apply slice_to_nonneg.
Qed.

(** C8: for a desired count N >= 0 the collector returns, without
    raising and without changing any state, at most N paths (the first N
    of the matching files, all of them when fewer exist); each is a
    directory entry whose name ends in .png, .jpg, .jpeg or .webp; they
    are ordered by modification time, newest first; a directory with no
    matching file gives the empty list. *)
Theorem collector_contract (w : World) (output_dir : string) (N : Z)
    (s : State) :
  0 <= N ->
  let entries := listdir w (cwd s) output_dir in
  let found := collect_entries output_dir entries N in
  _collect_images w output_dir N s = Some (Ok (map fst found), s)
  /\ Z.of_nat (length found) <= N
  /\ length found
     = Nat.min (Z.to_nat N) (length (matching_paths output_dir entries))
  /\ (forall pm, pm ∈ found -> image_entry output_dir entries pm)
  /\ StronglySorted (key_ge snd) found
  /\ ((forall e ext, e ∈ entries -> ext ∈ image_exts ->
                     Py.endswith (de_name e) ext = false) ->
      found = []).
Proof.
  intros HN entries found.
  assert (Hfound : found
            = take (Z.to_nat N)
                (Py.sort_desc snd (matching_paths output_dir entries)))
    by (by apply collect_entries_nonneg).
  assert (Hlen : length found
            = Nat.min (Z.to_nat N)
                (length (matching_paths output_dir entries))).
  { rewrite Hfound, length_take.
    by rewrite (Permutation_length (sort_desc_perm snd _)). }
  split; [reflexivity |].
  split; [lia |].
  split; [exact Hlen |].
  split.
  { intros pm Hpm. apply matching_paths_image_entry.
    rewrite Hfound in Hpm. apply elem_of_take in Hpm as (i & Hi & _).
    apply list_elem_of_lookup_2 in Hi.
    by rewrite sort_desc_perm in Hi. }
  split.
  { rewrite Hfound. apply take_sorted, sort_desc_sorted. }
  intros Hnone. unfold found, collect_entries.
  by rewrite (matching_paths_none _ _ Hnone).
Qed.

(** ** Inference Process Runner: the read loop *)


Lemma progress_line_count_cons (output : string) (rest : list string) :
  progress_line_count (output :: rest)
  = if String.eqb output "" then progress_line_count rest
    else if is_progress_line (Py.strip output)
         then S (progress_line_count rest)
         else progress_line_count rest.
Proof.
  unfold progress_line_count, captured. rewrite filter_cons.
  destruct (String.eqb_spec output "") as [-> | Hne]; case_decide; try done.
  cbn [map]. rewrite filter_cons.
  destruct (is_progress_line (Py.strip output)) eqn:E; case_decide; done.
Qed.




Lemma captured_cons (output : string) (rest : list string) :
  captured (output :: rest)
  = if String.eqb output "" then captured rest
    else Py.strip output :: captured rest.
Proof.
  unfold captured. rewrite filter_cons.
  destruct (String.eqb_spec output "") as [-> | Hne]; case_decide; done.
Qed.

Lemma final_progress_cons (p : Z) (output : string) (rest : list string) :
  final_progress p (output :: rest)
  = if String.eqb output "" then final_progress p rest
    else if is_progress_line (Py.strip output)
         then final_progress (advance p) rest
         else final_progress p rest.
Proof.
  unfold final_progress. cbn [forwarded].
  destruct (String.eqb output ""); [reflexivity |].
  destruct (is_progress_line (Py.strip output)); [| reflexivity].
  rewrite last_cons. by destruct (last (forwarded (advance p) rest)).
Qed.

(** The read loop with a sink that always returns: it ends normally with
    the final counter and the kept lines, having run the sink on the
    forwarded values in order. *)
Lemma read_lines_sink (f : Z -> M unit) (lines : list string) :
  sink_ok f ->
  forall p acc s,
    read_lines (Some f) lines p acc s
    = Some (Ok (final_progress p lines, (acc ++ captured lines)%list),
            foldl (run_sink f) s (forwarded p lines)).
Proof.
  intros Hf. induction lines as [| output rest IH]; intros p acc s.
  - cbn. by rewrite app_nil_r.
  - rewrite captured_cons, final_progress_cons. cbn [read_lines forwarded].
    destruct (String.eqb output ""); [apply IH |].
    destruct (is_progress_line (Py.strip output)).
    + unfold bind, call. cbn [foldl]. unfold run_sink at 2.
      destruct (Hf (advance p) s) as [s' ->].
      by rewrite IH, <- app_assoc.
    + by rewrite IH, <- app_assoc.
Qed.


(** ** A weakest-precondition calculus for [M] *)

Lemma wp_ret {A} (a : A) s (Q : Result A -> State -> Prop) :
  Q (Ok a) s -> wp (ret a) s Q.
Proof. intros HQ. by exists (Ok a), s. Qed.

Lemma wp_raise {A} (e : Exn) s (Q : Result A -> State -> Prop) :
  Q (Raise e) s -> wp (raise e) s Q.
Proof. intros HQ. by exists (Raise e), s. Qed.

Lemma wp_gets {A} (f : State -> A) s (Q : Result A -> State -> Prop) :
  Q (Ok (f s)) s -> wp (gets f) s Q.
Proof. intros HQ. by exists (Ok (f s)), s. Qed.

Lemma wp_modify (f : State -> State) s (Q : Result unit -> State -> Prop) :
  Q (Ok tt) (f s) -> wp (modify f) s Q.
Proof. intros HQ. by exists (Ok tt), (f s). Qed.

Lemma wp_bind {A B} (m : M A) (f : A -> M B) s
    (Q : Result B -> State -> Prop) :
  wp m s (fun r s' =>
            match r with
            | Ok a => wp (f a) s' Q
            | Raise e => Q (Raise e) s'
            end) ->
  wp (bind m f) s Q.
Proof.
  intros (r & s' & Hm & Hr). unfold wp, bind. rewrite Hm.
  destruct r as [a | e]; [exact Hr | by exists (Raise e), s'].
Qed.

Lemma wp_mono {A} (m : M A) s (Q Q' : Result A -> State -> Prop) :
  wp m s Q -> (forall r s', Q r s' -> Q' r s') -> wp m s Q'.
Proof. intros (r & s' & Hm & Hr) HQ. exists r, s'. auto. Qed.

Lemma wp_try_finally {A} (body : M A) (fin : M unit) s
    (Q : Result A -> State -> Prop) :
  wp body s (fun r s' =>
               wp fin s' (fun r2 s'' =>
                            match r2 with
                            | Ok _ => Q r s''
                            | Raise e => Q (Raise e) s''
                            end)) ->
  wp (try_finally body fin) s Q.
Proof.
  intros (r & s' & Hm & r2 & s'' & Hfin & Hr). unfold wp, try_finally.
  rewrite Hm, Hfin. destruct r2 as [u | e]; eauto.
Qed.

Lemma wp_try_except {A} (body : M A) (handler : Exn -> option (M A)) s
    (Q : Result A -> State -> Prop) :
  wp body s (fun r s' =>
               match r with
               | Ok a => Q (Ok a) s'
               | Raise e =>
                   match handler e with
                   | Some h => wp h s' Q
                   | None => Q (Raise e) s'
                   end
               end) ->
  wp (try_except body handler) s Q.
Proof.
  intros (r & s' & Hm & Hr). unfold wp, try_except. rewrite Hm.
  destruct r as [a | e]; [by eauto |].
  destruct (handler e); [exact Hr | by eauto].
Qed.

Lemma wp_chdir (w : World) (path : string) s
    (Q : Result unit -> State -> Prop) :
  (forall target, chdir_result w (cwd s) path = inr target ->
                  Q (Ok tt) (with_cwd target s)) ->
  (forall msg, chdir_result w (cwd s) path = inl msg ->
               Q (Raise (OSError msg)) s) ->
  wp (chdir w path) s Q.
Proof.
  intros Hok Herr. unfold wp, chdir.
  destruct (chdir_result w (cwd s) path) as [msg | target]; eauto.
Qed.

Lemma wp_popen (w : World) cmd env s (Q : Result Outcome -> State -> Prop) :
  match spawn w (length (popen_calls s)) cmd env with
  | LaunchFailed msg => Q (Raise (OSError msg)) (with_popen cmd env s)
  | process => Q (Ok process) (with_popen cmd env s)
  end ->
  wp (popen w cmd env) s Q.
Proof.
  intros HQ. unfold wp, popen.
  destruct (spawn w (length (popen_calls s)) cmd env); eauto.
Qed.

Lemma wp_update_job_present task_id (f : Job -> Job) j s
    (Q : Result unit -> State -> Prop) :
  status_dict s !! task_id = Some j ->
  Q (Ok tt) (with_job task_id (f j) s) ->
  wp (update_job task_id f) s Q.
Proof. intros Hj HQ. unfold wp, update_job. rewrite Hj. eauto. Qed.

Lemma update_progress_eq task_id p s :
  update_progress task_id p s = Some (Ok tt, store_progress task_id s p).
Proof.
  unfold update_progress, bind, gets, update_job, store_progress.
  destruct (status_dict s !! task_id) as [j |] eqn:E.
  - rewrite bool_decide_eq_true_2 by eauto. by rewrite E.
  - rewrite bool_decide_eq_false_2; [done |]. by intros [? ?].
Qed.

Lemma wp_update_progress task_id p s (Q : Result unit -> State -> Prop) :
  Q (Ok tt) (store_progress task_id s p) ->
  wp (update_progress task_id p) s Q.
Proof. intros HQ. unfold wp. rewrite update_progress_eq. eauto. Qed.

Lemma update_progress_sink task_id : sink_ok (update_progress task_id).
Proof. intros v s. rewrite update_progress_eq. eauto. Qed.

Lemma run_sink_update_progress task_id s v :
  run_sink (update_progress task_id) s v = store_progress task_id s v.
Proof. unfold run_sink. by rewrite update_progress_eq. Qed.

Ltac wp_step :=
  lazymatch goal with
  | |- wp (bind _ _) _ _ => apply wp_bind
  | |- wp (ret _) _ _ => apply wp_ret
  | |- wp (raise _) _ _ => apply wp_raise
  | |- wp (gets _) _ _ => apply wp_gets
  | |- wp getcwd _ _ => apply wp_gets
  | |- wp (modify _) _ _ => apply wp_modify
  | |- wp (logger _ _) _ _ => apply wp_modify
  | |- wp (try_finally _ _) _ _ => apply wp_try_finally
  | |- wp (try_except _ _) _ _ => apply wp_try_except
  | |- wp (update_progress _ _) _ _ => apply wp_update_progress
  | |- wp (call (Some _) _) _ _ => unfold call
  | |- wp (popen _ _ _) _ _ => apply wp_popen
  end;
  cbn beta match.

Ltac wp_steps := repeat wp_step.

(** The read loop under a loop invariant [L] on the counter and the
    state, with [update_progress] as the sink. *)
Lemma wp_read_lines task_id (L : Z -> State -> Prop) :
  (forall p s, L p s -> L (advance p) (store_progress task_id s (advance p))) ->
  forall lines p acc s,
    L p s ->
    wp (read_lines (Some (update_progress task_id)) lines p acc) s
       (fun r s' =>
          r = Ok (final_progress p lines, (acc ++ captured lines)%list)
          /\ L (final_progress p lines) s').
Proof.
  intros Hstep lines p acc s HL.
  exists (Ok (final_progress p lines, (acc ++ captured lines)%list)),
         (foldl (run_sink (update_progress task_id)) s (forwarded p lines)).
  split; [apply read_lines_sink, update_progress_sink |].
  split; [reflexivity |].
  revert p s HL. clear acc.
  induction lines as [| output rest IH]; intros p s HL; [exact HL |].
  rewrite final_progress_cons. cbn [forwarded].
  destruct (String.eqb output ""); [by apply IH |].
  destruct (is_progress_line (Py.strip output)); [| by apply IH].
  cbn [foldl]. rewrite run_sink_update_progress. apply IH, Hstep, HL.
Qed.

(** ** Invariants of an inference run *)

Section RunInvariant.

Variable w : World.
Variable self : Pipeline.
Variable task_id : string.

(** [I] holds between runs, [L p] inside the read loop when the local
    counter is [p]. *)
Variable I : State -> Prop.
Variable L : Z -> State -> Prop.

Hypothesis I_cwd : forall s c, I s -> I (with_cwd c s).
Hypothesis I_device_count : forall s d, I s -> I (with_device_count d s).
Hypothesis I_log : forall s level msg, I s -> I (with_log level msg s).
Hypothesis I_popen : forall s cmd env, I s -> L 30 (with_popen cmd env s).
Hypothesis L_step :
  forall p s, L p s -> L (advance p) (store_progress task_id s (advance p)).
Hypothesis L_done : forall p s, L p s -> I s.

Lemma wp_wait_inv (process : Outcome) s :
  L 30 s ->
  wp (wait process (Some (update_progress task_id))) s
     (fun r s' =>
        I s'
        /\ match process with
           | Exited lines return_code =>
               r = Ok (return_code, captured lines)
           | Interrupted _ => r = Raise KeyboardInterrupt
           | ReadFailed _ msg => r = Raise (UnicodeDecodeError msg)
           | LaunchFailed msg => r = Raise (OSError msg)
           end).
Proof.
  intros HL. destruct process as [lines rc | lines | lines msg | msg];
    unfold wait.
  - wp_step. eapply wp_mono; [by apply (wp_read_lines task_id L L_step) |].
    intros r s' [-> HL']. cbn beta match. wp_step. eauto.
  - wp_step. eapply wp_mono; [by apply (wp_read_lines task_id L L_step) |].
    intros r s' [-> HL']. cbn beta match. wp_step. eauto.
  - wp_step. eapply wp_mono; [by apply (wp_read_lines task_id L L_step) |].
    intros r s' [-> HL']. cbn beta match. wp_step. eauto.
  - wp_step. eauto.
Qed.

Lemma wp_execute_inference_inv (fuel : nat) :
  forall cmd env out n s,
    (leaf_cmd cmd /\ (1 <= fuel)%nat) \/ (2 <= fuel)%nat ->
    I s ->
    wp (_execute_inference w self fuel cmd env
          (Some (update_progress task_id)) out n) s
       (fun r s' => I s' /\ collected w out n r).
Proof.
  induction fuel as [| fuel' IH]; intros cmd env out n s Hfuel HI;
    [lia |].
  cbn [_execute_inference]. wp_step. wp_step. wp_step.
  eapply wp_mono with (Q := fun r s' => I s' /\ collected w out n r).
  2:{ intros r s' [HI' Hr]. apply wp_chdir.
      - intros target _. split; [by apply I_cwd | exact Hr].
      - intros msg _. split; [exact HI' | by intros paths [=]]. }
  wp_step. apply wp_chdir; [intros target _ | intros msg _];
    [| split; [exact HI | by intros paths [=]]].
  cbn beta match. wp_step. apply wp_popen.
  assert (HL : L 30 (with_popen cmd env (with_cwd target s)))
    by (by apply I_popen, I_cwd).
  destruct (spawn w (length (popen_calls (with_cwd target s))) cmd env)
    as [lines rc | lines | lines msg | msg] eqn:Hspawn.
  4:{ split; [by eapply L_done | by intros paths [=]]. }
  3:{ wp_step. eapply wp_mono; [by apply wp_wait_inv |].
      intros r s' [HI' ->]. cbn beta match.
      split; [exact HI' | by intros paths [=]]. }
  2:{ wp_step. eapply wp_mono; [by apply wp_wait_inv |].
      intros r s' [HI' ->]. cbn beta match.
      split; [exact HI' | by intros paths [=]]. }
  wp_step. eapply wp_mono; [by apply wp_wait_inv |].
  intros r s' [HI' ->]. cbn beta match. cbn [fst snd].
  destruct (Z.eqb_spec rc 0) as [-> | Hrc]; cbn [negb].
  { unfold _collect_images. wp_steps.
    split; [exact HI' |]. intros paths [= <-]. eauto. }
  wp_step. wp_step. wp_step.
  destruct (device_count s' >? 1) eqn:Hdev.
  - wp_step. unfold cmd0. destruct cmd as [| c rest].
    { wp_step. split; [exact HI' | by intros paths [=]]. }
    wp_steps. destruct (Py.contains "torchrun" c) eqn:Htorch.
    + wp_steps.
      eapply wp_mono.
      { apply IH; [| by auto].
        left. split; [reflexivity |].
        destruct Hfuel as [[Hleaf _] | Hfuel]; [| lia].
        cbn in Hleaf. congruence. }
      intros r s'' [HI'' Hr]. cbn beta. wp_step. auto.
    + wp_steps. split; [by auto | by intros paths [=]].
  - wp_steps. split; [by auto | by intros paths [=]].
Qed.

Lemma wp_generate_images_inv (fuel : nat) (request : ImageGenerationRequest)
    s :
  (2 <= fuel)%nat ->
  I (store_progress task_id (store_progress task_id s 10) 20) ->
  wp (generate_images w self fuel task_id request
        (Some (update_progress task_id))) s
     (fun r s' =>
        match r with
        | Ok paths =>
            (exists s'', I s'' /\ s' = store_progress task_id s'' 100)
            /\ collected w (Py.path_join (output_dir self) task_id)
                 (num_images_per_prompt request) (Ok paths)
        | Raise e => I s'
        end).
Proof.
  intros Hfuel HI. unfold generate_images. wp_step. wp_step.
  wp_step. wp_step. wp_step. wp_step. wp_step. wp_step. wp_step.
  eapply wp_mono.
  { instantiate (1 := fun r s' =>
      I s' /\ collected w (Py.path_join (output_dir self) task_id)
                (num_images_per_prompt request) r).
    destruct (device_count _ >? 1).
    - unfold _run_distributed_inference. wp_step. wp_step.
      by apply wp_execute_inference_inv; [right |].
    - unfold _run_single_inference.
      by apply wp_execute_inference_inv; [right |]. }
  intros r s' [HI' Hr]. destruct r as [paths | e]; cbn beta match.
  - wp_steps. split; [by eauto | exact Hr].
  - destruct (is_Exception e); [| exact HI'].
    wp_steps. by apply I_log.
Qed.

End RunInvariant.

(** ** The life of a job record under [process_task] *)

Lemma ordered_snoc (l : list Z) (x y : Z) :
  ordered l x -> x <= y -> ordered (l ++ [y]) y.
Proof.
  intros [Hs Hx] Hxy. split.
  - apply StronglySorted_app_2; [| exact Hs | repeat constructor].
    intros v1 v2 Hv1 Hv2. apply list_elem_of_singleton in Hv2 as ->.
    rewrite Forall_forall in Hx. specialize (Hx v1 Hv1). cbn in Hx. lia.
  - apply Forall_app. split; [| by repeat constructor].
    eapply Forall_impl; [exact Hx |]. cbn. intros v Hv. lia.
Qed.

Lemma progresses_snoc (writes : list (string * Job)) (x : string * Job) :
  progresses (writes ++ [x]) = (progresses writes ++ [progress (snd x)])%list.
Proof. unfold progresses. by rewrite map_app. Qed.

Lemma in_flight_ok (j : Job) : in_flight j -> snapshot_ok j.
Proof. intros (Hst & Hr & Hp). unfold snapshot_ok. by rewrite Hst. Qed.

Lemma store_progress_present task_id s v j :
  status_dict s !! task_id = Some j ->
  store_progress task_id s v
  = with_job task_id (set_progress (Z.min v 95) j) s.
Proof. intros Hj. unfold store_progress. by rewrite Hj. Qed.

(** One more in-flight write of the task keeps [tracked], provided its
    progress does not go below the current one while a single process
    has been launched. *)
Lemma tracked_write task_id s0 (extra extra' : State -> Job -> Prop) s j v :
  tracked task_id s0 extra s ->
  status_dict s !! task_id = Some j ->
  v <= 95 ->
  ((length (popen_calls s) <= S (length (popen_calls s0)))%nat ->
   progress j <= v) ->
  (extra s j -> extra' (with_job task_id (set_progress v j) s)
                       (set_progress v j)) ->
  tracked task_id s0 extra' (with_job task_id (set_progress v j) s).
Proof.
  intros (j' & writes & Hj' & Hh & Hfl & Hw & Hn & Hord & Hex) Hj Hv Hle Hextra.
  rewrite Hj in Hj'. injection Hj' as <-.
  destruct Hfl as (Hst & Hr & Hp).
  exists (set_progress v j), (writes ++ [(task_id, set_progress v j)])%list.
  cbn. rewrite lookup_insert_eq, Hh, <- app_assoc.
  assert (Hfl' : in_flight (set_progress v j)) by (by split).
  split; [reflexivity |]. split; [reflexivity |]. split; [exact Hfl' |].
  split; [apply Forall_app; split; [exact Hw | by repeat constructor] |].
  split; [exact Hn |].
  split; [| by apply Hextra].
  intros Hone. rewrite progresses_snoc. cbn.
  apply (ordered_snoc (0 :: progresses writes) (progress j)); auto.
Qed.

Lemma tracked_frame task_id s0 (extra extra' : State -> Job -> Prop) s s' :
  tracked task_id s0 extra s ->
  status_dict s' = status_dict s ->
  history s' = history s ->
  (length (popen_calls s) <= length (popen_calls s'))%nat ->
  (forall j, extra s j -> extra' s' j) ->
  tracked task_id s0 extra' s'.
Proof.
  intros (j & writes & Hj & Hh & Hfl & Hw & Hn & Hord & Hex) Hsd Hhist Hpc Hextra.
  exists j, writes. rewrite Hsd, Hhist.
  split; [exact Hj |]. split; [exact Hh |]. split; [exact Hfl |].
  split; [exact Hw |]. split; [lia |].
  split; [intros Hone; apply Hord; lia | by apply Hextra].
Qed.

Section Lifecycle.

Variable w : World.
Variable self : Pipeline.
Variable task_id : string.
Variable s0 : State.

Lemma between_runs_cwd s c :
  between_runs task_id s0 s -> between_runs task_id s0 (with_cwd c s).
Proof. intros H. by eapply tracked_frame. Qed.

Lemma between_runs_device_count s d :
  between_runs task_id s0 s -> between_runs task_id s0 (with_device_count d s).
Proof. intros H. by eapply tracked_frame. Qed.

Lemma between_runs_log s level msg :
  between_runs task_id s0 s -> between_runs task_id s0 (with_log level msg s).
Proof. intros H. by eapply tracked_frame. Qed.

Lemma between_runs_popen s cmd env :
  between_runs task_id s0 s -> in_loop task_id s0 30 (with_popen cmd env s).
Proof.
  intros H.
  assert (Hn : (length (popen_calls s0) <= length (popen_calls s))%nat)
    by (destruct H as (? & ? & ? & ? & ? & ? & Hn & ?); exact Hn).
  eapply tracked_frame; [exact H | done | done | |]; cbn;
    rewrite ?length_app; cbn; [lia |].
  intros j Hex. split; [lia |]. split; [lia |].
  intros Hone. apply Hex. lia.
Qed.

Lemma in_loop_step p s :
  in_loop task_id s0 p s ->
  in_loop task_id s0 (advance p) (store_progress task_id s (advance p)).
Proof.
  intros H. pose proof H as (j & writes & Hj & _ & _ & _ & _ & _ & Hex).
  destruct Hex as (Hp & Hlt & Hle).
  rewrite (store_progress_present _ _ _ j Hj).
  assert (Hadv : Z.min (advance p) 95 = advance p) by (unfold advance; lia).
  rewrite Hadv.
  eapply tracked_write; [exact H | exact Hj | unfold advance; lia | |].
  - intros Hone. specialize (Hle Hone). unfold advance. lia.
  - intros _. cbn. split; [unfold advance; lia |]. split; [exact Hlt |].
    intros _. lia.
Qed.

Lemma in_loop_done p s : in_loop task_id s0 p s -> between_runs task_id s0 s.
Proof.
  intros H. eapply tracked_frame; [exact H | done | done | lia |].
  intros j (_ & Hlt & _) Heq. lia.
Qed.

End Lifecycle.

Lemma tracked_extra task_id s0 (extra : State -> Job -> Prop) s j :
  tracked task_id s0 extra s -> status_dict s !! task_id = Some j -> extra s j.
Proof.
  intros (j' & writes & Hj' & _ & _ & _ & _ & _ & Hex) Hj.
  rewrite Hj in Hj'. by injection Hj' as <-.
Qed.

Lemma tracked_in_flight task_id s0 (extra : State -> Job -> Prop) s j :
  tracked task_id s0 extra s -> status_dict s !! task_id = Some j -> in_flight j.
Proof.
  intros (j' & writes & Hj' & _ & Hfl & _) Hj.
  rewrite Hj in Hj'. by injection Hj' as <-.
Qed.

Lemma tracked_store task_id s0 (extra extra' : State -> Job -> Prop) s v :
  tracked task_id s0 extra s ->
  (forall j, status_dict s !! task_id = Some j ->
             (length (popen_calls s) <= S (length (popen_calls s0)))%nat ->
             progress j <= Z.min v 95) ->
  (forall j, extra s j ->
             extra' (with_job task_id (set_progress (Z.min v 95) j) s)
                    (set_progress (Z.min v 95) j)) ->
  tracked task_id s0 extra' (store_progress task_id s v).
Proof.
  intros H Hle Hextra.
  pose proof H as (j & writes & Hj & _).
  rewrite (store_progress_present _ _ _ j Hj).
  eapply tracked_write; [exact H | exact Hj | lia | by apply Hle | by apply Hextra].
Qed.

(** The terminal write. *)
Lemma tracked_finish w self task_id request s0 extra s (f : Job -> Job) r :
  tracked task_id s0 extra s ->
  (forall j, in_flight j ->
     progress j <= progress (f j)
     /\ snapshot_ok (f j)
     /\ ((status (f j) = COMPLETED
          /\ exists c,
               let out := Py.path_join (output_dir self) task_id in
               result_urls (f j)
               = map (result_url w)
                     (map fst (collect_entries out (listdir w c out)
                                 (num_images_per_prompt request))))
         \/ status (f j) = FAILED)) ->
  wp (update_job task_id f) s
     (fun r1 s' => r1 = Ok tt
                   /\ lifecycle_post w self task_id request s0 r s').
Proof.
  intros (j & writes & Hj & Hh & Hfl & Hw & Hn & Hord & _) Hf.
  destruct (Hf j Hfl) as (Hle & Hok & Hend).
  eapply wp_update_job_present; [exact Hj |].
  split; [reflexivity |].
  exists (writes ++ [(task_id, f j)])%list, (f j). cbn.
  rewrite lookup_insert_eq, Hh, <- app_assoc.
  split; [reflexivity |]. split; [reflexivity |].
  split.
  { apply Forall_app. split; [| by repeat constructor].
    eapply Forall_impl; [exact Hw |].
    intros x [Hx Hfx]. split; [exact Hx | by apply in_flight_ok]. }
  split; [| exact Hend].
  intros Hone. rewrite progresses_snoc. cbn.
  apply (ordered_snoc (0 :: progresses writes) (progress j)); auto.
Qed.

Lemma process_task_lifecycle (w : World) (self : Pipeline) (fuel : nat)
    (task_id : string) (request : ImageGenerationRequest) (s0 : State) :
  (2 <= fuel)%nat ->
  status_dict s0 !! task_id = Some (new_job request) ->
  wp (process_task w self fuel task_id request) s0
     (lifecycle_post w self task_id request s0).
Proof.
  intros Hfuel Hjob. unfold process_task.
  set (j1 := set_status PROCESSING (new_job request)).
  set (j2 := set_progress 10 j1).
  set (s1 := with_job task_id j1 s0).
  set (s2 := with_job task_id j2 s1).
  assert (H2 : tracked task_id s0
                 (fun s j => length (popen_calls s) = length (popen_calls s0)
                             /\ progress j <= 10) s2).
  { exists j2, [(task_id, j1); (task_id, j2)].
    unfold s2, s1. cbn. rewrite lookup_insert_eq, <- app_assoc.
    split; [reflexivity |]. split; [reflexivity |].
    split; [by repeat split |].
    split; [by repeat constructor |].
    split; [lia |].
    split; [| split; [reflexivity | lia]].
    intros _. split; repeat constructor; lia. }
  assert (H2' : tracked task_id s0
                  (fun s j => length (popen_calls s) = length (popen_calls s0)
                              /\ progress j <= 10)
                  (store_progress task_id s2 10)).
  { eapply tracked_store; [exact H2 | |].
    - intros j Hj _. destruct (tracked_extra _ _ _ _ _ H2 Hj). lia.
    - intros j [Hn Hp]. cbn. split; [exact Hn | lia]. }
  assert (H3 : between_runs task_id s0
                 (store_progress task_id (store_progress task_id s2 10) 20)).
  { eapply tracked_store; [exact H2' | |].
    - intros j Hj _. destruct (tracked_extra _ _ _ _ _ H2' Hj). lia.
    - intros j [Hn Hp] _. cbn. lia. }
  wp_step. wp_step.
  eapply wp_update_job_present; [exact Hjob |]. cbn beta match.
  wp_step. eapply wp_update_job_present; [apply lookup_insert_eq |].
  cbn beta match. wp_step.
  eapply wp_mono.
  { apply (wp_generate_images_inv w self task_id
             (between_runs task_id s0) (in_loop task_id s0)).
    - apply between_runs_cwd.
    - apply between_runs_device_count.
    - apply between_runs_log.
    - apply between_runs_popen.
    - apply in_loop_step.
    - apply in_loop_done.
    - exact Hfuel.
    - exact H3. }
  intros r s' Hr. destruct r as [paths | e]; cbn beta match.
  - destruct Hr as [(s'' & HI & ->) Hpaths].
    destruct (Hpaths paths eq_refl) as [c Hc].
    eapply wp_mono.
    { eapply (tracked_finish w self task_id request s0 (fun _ _ => True)).
      - eapply tracked_store; [exact HI | | done].
        intros j Hj _. destruct (tracked_in_flight _ _ _ _ _ HI Hj) as (_ & _ & Hp).
        lia.
      - intros j (Hst & Hres & Hp). cbn.
        split; [lia |]. split; [reflexivity |].
        left. split; [reflexivity |]. exists c. by rewrite Hc. }
    intros r1 s1' [-> Hpost]. exact Hpost.
  - assert (Hfail : forall msg,
              wp (update_job task_id
                    (fun j => set_error msg (set_status FAILED j))) s'
                 (fun r1 s1' =>
                    r1 = Ok tt
                    /\ lifecycle_post w self task_id request s0 (Ok tt) s1')).
    { intros msg.
      eapply (tracked_finish w self task_id request s0); [exact Hr |].
      intros j (Hst & Hres & Hp). cbn.
      split; [lia |]. split; [by split |]. by right. }
    assert (Hfail_log : forall level line msg,
              wp (update_job task_id
                    (fun j => set_error msg (set_status FAILED j)))
                 (with_log level line s')
                 (fun r1 s1' =>
                    r1 = Ok tt
                    /\ lifecycle_post w self task_id request s0 (Ok tt) s1')).
    { intros level line msg.
      eapply (tracked_finish w self task_id request s0);
        [by apply between_runs_log |].
      intros j (Hst & Hres & Hp). cbn.
      split; [lia |]. split; [by split |]. by right. }
    destruct e; cbn beta match;
      try (wp_step; wp_step;
           eapply wp_mono; [apply Hfail_log |];
           intros r1 s1' [-> Hpost]; exact Hpost).
    wp_step. eapply wp_mono; [apply Hfail |].
    intros r1 s1' [-> Hpost]. cbn beta match. wp_step.
    destruct Hpost as (writes & j' & Hpost). by exists writes, j'.
Qed.

(** ** What a run launches, logs and raises *)

Lemma wp_chdir_total (w : World) (path : string) s
    (Q : Result unit -> State -> Prop) :
  chdir_total w ->
  (forall target, Q (Ok tt) (with_cwd target s)) ->
  wp (chdir w path) s Q.
Proof.
  intros Hcd HQ. apply wp_chdir; [by auto |].
  intros msg Hmsg. destruct (Hcd (cwd s) path) as [t Ht]. congruence.
Qed.

Lemma job_frame_refl task_id s : job_frame task_id s s.
Proof. intros j Hj. by exists j. Qed.

Lemma job_frame_store task_id s s' v :
  job_frame task_id s s' -> job_frame task_id s (store_progress task_id s' v).
Proof.
  intros Hfr j Hj. destruct (Hfr j Hj) as (j' & Hj' & Hst & Herr & Hres).
  rewrite (store_progress_present _ _ _ j' Hj').
  exists (set_progress (Z.min v 95) j'). cbn. by rewrite lookup_insert_eq.
Qed.

Lemma job_frame_trans task_id s s' s'' :
  job_frame task_id s s' -> job_frame task_id s' s'' ->
  job_frame task_id s s''.
Proof.
  intros H1 H2 j Hj. destruct (H1 j Hj) as (j' & Hj' & Hst & Herr & Hres).
  destruct (H2 j' Hj') as (j'' & Hj'' & Hst' & Herr' & Hres').
  exists j''. repeat split; congruence.
Qed.

Lemma since_refl task_id s : since task_id s (device_count s) [] [] s.
Proof.
  unfold since. rewrite !app_nil_r. repeat split. apply job_frame_refl.
Qed.

Lemma since_cwd task_id s d calls lines s' c :
  since task_id s d calls lines s' ->
  since task_id s d calls lines (with_cwd c s').
Proof. intros (Hc & Hl & Hd & Hfr). repeat split; try done. Qed.

Lemma since_device_count task_id s d d' calls lines s' :
  since task_id s d calls lines s' ->
  since task_id s d' calls lines (with_device_count d' s').
Proof. intros (Hc & Hl & Hd & Hfr). repeat split; try done. Qed.

Lemma since_log task_id s d calls lines s' level msg :
  since task_id s d calls lines s' ->
  since task_id s d calls (lines ++ [(level, msg)]) (with_log level msg s').
Proof.
  intros (Hc & Hl & Hd & Hfr). unfold since. cbn.
  rewrite Hl, app_assoc. repeat split; try done.
Qed.

Lemma since_popen task_id s d calls lines s' cmd env :
  since task_id s d calls lines s' ->
  since task_id s d (calls ++ [(cmd, env)]) lines (with_popen cmd env s').
Proof.
  intros (Hc & Hl & Hd & Hfr). unfold since. cbn.
  rewrite Hc, app_assoc. repeat split; try done.
Qed.

Lemma since_store task_id s d calls lines s' v :
  since task_id s d calls lines s' ->
  since task_id s d calls lines (store_progress task_id s' v).
Proof.
  intros (Hc & Hl & Hd & Hfr).
  assert (Hfr' := job_frame_store task_id s s' v Hfr).
  unfold since, store_progress in *.
  destruct (status_dict s' !! task_id); repeat split; try done.
Qed.

Lemma since_trans task_id s d calls lines s' d' calls' lines' s'' :
  since task_id s d calls lines s' ->
  since task_id s' d' calls' lines' s'' ->
  since task_id s d' (calls ++ calls') (lines ++ lines') s''.
Proof.
  intros (Hc & Hl & Hd & Hfr) (Hc' & Hl' & Hd' & Hfr'). unfold since.
  rewrite Hc', Hc, Hl', Hl, !app_assoc. repeat split; try done.
  by eapply job_frame_trans.
Qed.

Lemma wp_wait_since (w : World) task_id s d calls lines (process : Outcome) s1 :
  since task_id s d calls lines s1 ->
  wp (wait process (Some (update_progress task_id))) s1
     (fun r s' =>
        since task_id s d calls lines s'
        /\ match process with
           | Exited out return_code => r = Ok (return_code, captured out)
           | Interrupted _ => r = Raise KeyboardInterrupt
           | ReadFailed _ msg => r = Raise (UnicodeDecodeError msg)
           | LaunchFailed msg => r = Raise (OSError msg)
           end).
Proof.
  intros Hs.
  apply (wp_wait_inv task_id (since task_id s d calls lines)
           (fun _ => since task_id s d calls lines)); [| done | exact Hs].
  intros p s2. apply since_store.
Qed.

(** A run that is not retried: one [Popen] call, and the records and
    the exception that its outcome determines. *)
Lemma wp_leaf_run (w : World) (self : Pipeline) task_id (fuel : nat)
    cmd env out n s :
  chdir_total w ->
  leaf_cmd cmd ->
  wp (_execute_inference w self (S fuel) cmd env
        (Some (update_progress task_id)) out n) s
     (fun r s' =>
        let process := spawn w (length (popen_calls s)) cmd env in
        since task_id s (device_count s) [(cmd, env)] (leaf_log process) s'
        /\ result_is (leaf_exn process) r).
Proof.
  intros Hcd Hleaf. cbn [_execute_inference]. wp_step. wp_step. wp_step.
  eapply wp_mono with
    (Q := fun r s' =>
            let process := spawn w (length (popen_calls s)) cmd env in
            since task_id s (device_count s) [(cmd, env)] (leaf_log process) s'
            /\ result_is (leaf_exn process) r).
  2:{ intros r s' [Hs Hr]. apply wp_chdir_total; [exact Hcd |].
      intros target. split; [by apply since_cwd | exact Hr]. }
  wp_step. apply wp_chdir_total; [exact Hcd |]. intros target.
  wp_step. apply wp_popen. cbn [popen_calls with_cwd].
  assert (H0 : since task_id s (device_count s) [(cmd, env)] []
                 (with_popen cmd env (with_cwd target s)))
    by apply (since_popen _ _ _ [] []), since_cwd, since_refl.
  cbn zeta.
  destruct (spawn w (length (popen_calls s)) cmd env)
    as [lines rc | lines | lines msg | msg].
  4:{ split; [exact H0 | reflexivity]. }
  3:{ wp_step. eapply wp_mono; [by apply (wp_wait_since w) |].
      intros r s' [Hs ->]. cbn beta match. split; [exact Hs | reflexivity]. }
  2:{ wp_step. eapply wp_mono; [by apply (wp_wait_since w) |].
      intros r s' [Hs ->]. cbn beta match. split; [exact Hs | reflexivity]. }
  wp_step. eapply wp_mono; [by apply (wp_wait_since w) |].
  intros r s' [Hs ->]. cbn beta match. cbn [fst snd leaf_log leaf_exn].
  destruct (Z.eqb_spec rc 0) as [-> | Hrc]; cbn [negb].
  { unfold _collect_images. wp_steps. split; [exact Hs |]. cbn. eauto. }
  wp_step. wp_step. wp_step.
  assert (Hfin :
    since task_id s (device_count s) [(cmd, env)]
      [ (ERROR, "❌ Inference failed with code " +:+ Py.str rc);
        (ERROR, "❌ Error: "
                +:+ Py.join Py.newline (Py.last_n 15 (captured lines))) ]
      (with_log ERROR
         ("❌ Error: " +:+ Py.join Py.newline (Py.last_n 15 (captured lines)))
         (with_log ERROR ("❌ Inference failed with code " +:+ Py.str rc) s')))
    by (by apply (since_log _ _ _ _ [_]), (since_log _ _ _ _ [])).
  destruct (device_count s' >? 1).
  - wp_step. destruct cmd as [| c rest]; [destruct Hleaf |].
    cbn in Hleaf. unfold cmd0. wp_steps. rewrite Hleaf. wp_steps.
    split; [exact Hfin | reflexivity].
  - wp_steps. split; [exact Hfin | reflexivity].
Qed.

(** A distributed run that exits non-zero: it is retried once, as a run
    that is not retried. *)
Lemma wp_fallback_run (w : World) (self : Pipeline) task_id (fuel : nat)
    c rest env out n s lines0 rc0 :
  chdir_total w ->
  Py.contains "torchrun" c = true ->
  1 < device_count s ->
  spawn w (length (popen_calls s)) (c :: rest) env = Exited lines0 rc0 ->
  rc0 <> 0 ->
  wp (_execute_inference w self (S (S fuel)) (c :: rest) env
        (Some (update_progress task_id)) out n) s
     (fun r s' =>
        let cmd1 := retry_cmd self out n in
        let process := spawn w (S (length (popen_calls s))) cmd1 (single_env w) in
        since task_id s (device_count s)
          [(c :: rest, env); (cmd1, single_env w)]
          (retry_log lines0 ++ leaf_log process) s'
        /\ result_is (leaf_exn process) r).
Proof.
  intros Hcd Htorch Hdev Hspawn Hrc0.
  remember (S fuel) as fuel1 eqn:Hfuel1.
  cbn [_execute_inference]. wp_step. wp_step. wp_step.
  eapply wp_mono with
    (Q := fun r s' =>
            let cmd1 := retry_cmd self out n in
            let process :=
              spawn w (S (length (popen_calls s))) cmd1 (single_env w) in
            since task_id s (device_count s)
              [(c :: rest, env); (cmd1, single_env w)]
              (retry_log lines0 ++ leaf_log process) s'
            /\ result_is (leaf_exn process) r).
  2:{ intros r s' [Hs Hr]. apply wp_chdir_total; [exact Hcd |].
      intros target. split; [by apply since_cwd | exact Hr]. }
  wp_step. apply wp_chdir_total; [exact Hcd |]. intros target.
  wp_step. apply wp_popen. cbn [popen_calls with_cwd]. rewrite Hspawn.
  assert (H0 : since task_id s (device_count s) [(c :: rest, env)] []
                 (with_popen (c :: rest) env (with_cwd target s)))
    by apply (since_popen _ _ _ [] []), since_cwd, since_refl.
  wp_step. eapply wp_mono; [by apply (wp_wait_since w) |].
  intros r s1 [Hs1 ->]. cbn beta match. cbn [fst snd].
  destruct (Z.eqb_spec rc0 0) as [-> | _]; [done |]. cbn [negb].
  assert (Hd1 : device_count s1 = device_count s) by apply Hs1.
  wp_step. wp_step. wp_step. rewrite Hd1.
  destruct (Z.gtb_spec (device_count s) 1) as [_ | Hle]; [| lia].
  wp_step. unfold cmd0. wp_steps. rewrite Htorch. wp_steps.
  match goal with
  | |- wp _ ?s2 _ =>
      assert (Hs2 : since task_id s 1 [(c :: rest, env)] (retry_log lines0) s2)
  end.
  { apply since_device_count with (d := device_count s).
    by apply (since_log _ _ _ _ [_]), (since_log _ _ _ _ []). }
  subst fuel1. eapply wp_mono; [by apply wp_leaf_run |].
  intros r s3 [Hs3 Hr]. cbn zeta in *. cbn beta. wp_step.
  assert (Hlen : length (popen_calls s1) = S (length (popen_calls s))).
  { destruct Hs1 as (-> & _). rewrite length_app. cbn. lia. }
  cbn [popen_calls with_device_count with_log] in Hs3, Hr.
  rewrite Hlen in Hs3, Hr. cbn [device_count with_log with_device_count] in *.
  rewrite Hd1. split; [| exact Hr].
  apply since_device_count with (d := 1).
  exact (since_trans _ _ _ _ _ _ _ _ _ _ Hs2 Hs3).
Qed.

Lemma wp_generate_images_since (w : World) (self : Pipeline) (fuel : nat)
    task_id request s d calls lines ex :
  (forall s1,
     since task_id s (device_count s) [] [] s1 ->
     let task_output_dir := Py.path_join (output_dir self) task_id in
     let prompt_file :=
       Py.path_join task_output_dir (task_id +:+ "_prompt.txt") in
     wp (if device_count s1 >? 1 then
           _run_distributed_inference w self fuel task_id prompt_file
             task_output_dir (as_infer_request request)
             (Some (update_progress task_id))
         else
           _run_single_inference w self fuel task_id prompt_file
             task_output_dir (as_infer_request request)
             (Some (update_progress task_id))) s1
        (fun r s' => since task_id s1 d calls lines s' /\ result_is ex r)) ->
  wp (generate_images w self fuel task_id request
        (Some (update_progress task_id))) s
     (fun r s' =>
        since task_id s d calls (lines ++ gen_log task_id ex) s'
        /\ result_is ex r).
Proof.
  intros Hrun. unfold generate_images. wp_step. wp_step. wp_step. wp_step.
  wp_step. wp_step. wp_step. wp_step. wp_step.
  match goal with
  | |- wp _ ?s1 _ =>
      assert (Hs1 : since task_id s (device_count s) [] [] s1)
        by apply since_store, since_store, since_refl
  end.
  eapply wp_mono; [exact (Hrun _ Hs1) |].
  intros r s' [Hs' Hr]. pose proof (since_trans _ _ _ _ _ _ _ _ _ _ Hs1 Hs') as Hs.
  cbn [app] in Hs. destruct ex as [e |]; cbn in Hr.
  - subst r. cbn beta match. unfold gen_log.
    destruct (is_Exception e).
    + wp_steps. split; [by apply since_log | reflexivity].
    + rewrite app_nil_r. split; [exact Hs | reflexivity].
  - destruct Hr as [paths ->]. cbn beta match. wp_steps.
    unfold gen_log. rewrite app_nil_r.
    split; [by apply since_store | cbn; eauto].
Qed.

Lemma wp_process_task_since (w : World) (self : Pipeline) (fuel : nat)
    task_id request s j0 d calls lines ex :
  status_dict s !! task_id = Some j0 ->
  (forall s2,
     popen_calls s2 = popen_calls s -> log s2 = log s ->
     device_count s2 = device_count s ->
     status_dict s2 !! task_id
     = Some (set_progress 10 (set_status PROCESSING j0)) ->
     wp (generate_images w self fuel task_id request
           (Some (update_progress task_id))) s2
        (fun r s' => since task_id s2 d calls lines s' /\ result_is ex r)) ->
  wp (process_task w self fuel task_id request) s
     (task_post task_id s j0 calls lines ex).
Proof.
  intros Hj0 Hgen. unfold process_task. wp_step. wp_step.
  eapply wp_update_job_present; [exact Hj0 |]. cbn beta match.
  wp_step. eapply wp_update_job_present; [apply lookup_insert_eq |].
  cbn beta match. wp_step.
  eapply wp_mono;
    [apply Hgen; [reflexivity | reflexivity | reflexivity
                 | apply lookup_insert_eq] |].
  intros r s' [(Hcalls & Hlog & _ & Hfr) Hr].
  cbn [popen_calls log with_job] in Hcalls, Hlog.
  destruct (Hfr _ (lookup_insert_eq _ _ _)) as (j & Hj & Hst & Herr & Hres).
  cbn in Hst, Herr, Hres.
  destruct ex as [e |]; cbn in Hr.
  - subst r. cbn beta match.
    destruct e; cbn beta match;
      try (wp_step; wp_step;
           eapply wp_update_job_present; [exact Hj |];
           eexists; cbn; rewrite lookup_insert_eq, Hcalls, Hlog, <- app_assoc;
           by repeat split).
    wp_step. eapply wp_update_job_present; [exact Hj |]. cbn beta match.
    wp_step. eexists. cbn.
    rewrite lookup_insert_eq, Hcalls, Hlog, !app_nil_r. by repeat split.
  - destruct Hr as [paths ->]. cbn beta match.
    eapply wp_update_job_present; [exact Hj |].
    eexists. cbn. rewrite lookup_insert_eq, Hcalls, Hlog, !app_nil_r.
    by repeat split.
Qed.

Lemma since_nil_calls task_id s d s1 :
  since task_id s d [] [] s1 ->
  popen_calls s1 = popen_calls s /\ device_count s1 = d.
Proof. intros (Hc & _ & Hd & _). by rewrite app_nil_r in Hc. Qed.

(** [process_task] on a pipeline with one device. *)
Lemma process_task_single (w : World) (self : Pipeline) (fuel : nat)
    task_id request s j0 :
  chdir_total w ->
  device_count s <= 1 ->
  status_dict s !! task_id = Some j0 ->
  let cmd := first_single_cmd self task_id request in
  let process := spawn w (length (popen_calls s)) cmd (single_env w) in
  wp (process_task w self (S fuel) task_id request) s
     (task_post task_id s j0 [(cmd, single_env w)]
        (leaf_log process ++ gen_log task_id (leaf_exn process))
        (leaf_exn process)).
Proof.
  intros Hcd Hdev Hj0 cmd process.
  eapply wp_process_task_since with (d := device_count s); [exact Hj0 |].
  intros s2 Hpc2 _ Hd2 _. apply wp_generate_images_since.
  intros s1 Hs1. cbn zeta.
  destruct (since_nil_calls _ _ _ _ Hs1) as [Hpc1 Hd1].
  destruct (Z.gtb_spec (device_count s1) 1) as [Hgt | _]; [lia |].
  unfold _run_single_inference.
  eapply wp_mono; [by apply wp_leaf_run |].
  cbn zeta. rewrite Hpc1, Hpc2, Hd1, Hd2. auto.
Qed.

(** [process_task] on a pipeline with several devices whose distributed
    run exits non-zero. *)
Lemma process_task_fallback (w : World) (self : Pipeline) (fuel : nat)
    task_id request s j0 lines0 rc0 :
  chdir_total w ->
  1 < device_count s ->
  status_dict s !! task_id = Some j0 ->
  let cmd0 := first_distributed_cmd self (device_count s) task_id request in
  let env0 := distributed_env w (device_count s) in
  let cmd1 := retry_cmd self (task_output_dir self task_id)
                (num_images_per_prompt request) in
  let process := spawn w (S (length (popen_calls s))) cmd1 (single_env w) in
  spawn w (length (popen_calls s)) cmd0 env0 = Exited lines0 rc0 ->
  rc0 <> 0 ->
  wp (process_task w self (S (S fuel)) task_id request) s
     (task_post task_id s j0 [(cmd0, env0); (cmd1, single_env w)]
        ((retry_log lines0 ++ leaf_log process)
         ++ gen_log task_id (leaf_exn process))
        (leaf_exn process)).
Proof.
  intros Hcd Hdev Hj0 cmd0 env0 cmd1 process Hspawn Hrc0.
  eapply wp_process_task_since with (d := device_count s); [exact Hj0 |].
  intros s2 Hpc2 _ Hd2 _. apply wp_generate_images_since.
  intros s1 Hs1. cbn zeta.
  destruct (since_nil_calls _ _ _ _ Hs1) as [Hpc1 Hd1].
  destruct (Z.gtb_spec (device_count s1) 1) as [_ | Hle]; [| lia].
  unfold _run_distributed_inference. wp_step. wp_step.
  rewrite Hd1, Hd2.
  eapply wp_mono.
  { apply wp_fallback_run with (lines0 := lines0) (rc0 := rc0);
      [exact Hcd | reflexivity | lia | | exact Hrc0].
    rewrite Hpc1, Hpc2. exact Hspawn. }
  cbn zeta. rewrite Hpc1, Hpc2, Hd1, Hd2. auto.
Qed.

(** ** Working directory *)

Lemma wp_call_ends progress_callback v s :
  callback_ends progress_callback ->
  wp (call progress_callback v) s (fun _ _ => True).
Proof.
  intros Hcb. destruct progress_callback as [f |]; cbn [call].
  - destruct (Hcb f eq_refl v s) as (r & s' & Hf). by exists r, s'.
  - by wp_step.
Qed.

Lemma wp_read_lines_ends progress_callback lines :
  callback_ends progress_callback ->
  forall p acc s,
    wp (read_lines progress_callback lines p acc) s (fun _ _ => True).
Proof.
  intros Hcb. induction lines as [| output rest IH]; intros p acc s;
    cbn [read_lines]; [by wp_step |].
  destruct (String.eqb output ""); [apply IH |].
  destruct (is_progress_line (Py.strip output)); [| apply IH].
  wp_step. eapply wp_mono; [by apply wp_call_ends |].
  intros [[] | e] s' _; [apply IH | done].
Qed.

Lemma wp_wait_ends progress_callback process s :
  callback_ends progress_callback ->
  wp (wait process progress_callback) s (fun _ _ => True).
Proof.
  intros Hcb. destruct process as [lines rc | lines | lines msg | msg];
    unfold wait.
  - wp_step. eapply wp_mono; [by apply wp_read_lines_ends |].
    intros [a | e] s' _; [by wp_step | done].
  - wp_step. eapply wp_mono; [by apply wp_read_lines_ends |].
    intros [a | e] s' _; [by wp_step | done].
  - wp_step. eapply wp_mono; [by apply wp_read_lines_ends |].
    intros [a | e] s' _; [by wp_step | done].
  - by wp_step.
Qed.

(** [_execute_inference] ends within a recursion bound of 2, and of 1
    for a command that is not retried. *)
Lemma wp_execute_inference_ends (w : World) (self : Pipeline)
    progress_callback (fuel : nat) :
  callback_ends progress_callback ->
  forall cmd env out n s,
    (leaf_cmd cmd /\ (1 <= fuel)%nat) \/ (2 <= fuel)%nat ->
    wp (_execute_inference w self fuel cmd env progress_callback out n) s
       (fun _ _ => True).
Proof.
  intros Hcb. induction fuel as [| fuel' IH]; intros cmd env out n s Hfuel;
    [lia |].
  cbn [_execute_inference]. wp_step. wp_step. wp_step.
  eapply wp_mono with (Q := fun _ _ => True).
  2:{ intros r s' _. apply wp_chdir; intros; by destruct r. }
  wp_step. apply wp_chdir; [intros target _ | done].
  cbn beta match. wp_step. apply wp_popen.
  assert (Hrest : forall rc' (out_lines : list string) s',
    wp (if negb (rc' =? 0) then
          device_count_now <- gets device_count ;;
          is_torchrun <-
            (if device_count_now >? 1 then
               c <- cmd0 cmd ;; ret (Py.contains "torchrun" c)
             else ret false) ;;
          if is_torchrun then
            logger WARNING "⚠️ Multi-NPU failed, trying single NPU..." ;;
            logger WARNING
              ("⚠️ Error: "
               +:+ Py.join Py.newline (Py.last_n 10 out_lines)) ;;
            original_device_count <- gets device_count ;;
            modify (with_device_count 1) ;;
            try_finally
              (_execute_inference w self fuel'
                 (single_cmd self (Py.basename out)
                    (Py.path_join out (Py.basename out +:+ "_prompt.txt"))
                    out (fallback_request n))
                 (single_env w) progress_callback out
                 (ir_num_images_per_prompt (fallback_request n)))
              (modify (with_device_count original_device_count))
          else
            logger ERROR ("❌ Inference failed with code " +:+ Py.str rc') ;;
            logger ERROR
              ("❌ Error: "
               +:+ Py.join Py.newline (Py.last_n 15 out_lines)) ;;
            raise (RuntimeError
                     ("Inference failed with code " +:+ Py.str rc'))
        else _collect_images w out n) s' (fun _ _ => True)).
  { intros rc' out_lines s'.
    destruct (negb (rc' =? 0)); [| unfold _collect_images; by wp_steps].
    wp_step. wp_step. wp_step.
    destruct (device_count s' >? 1); [| by wp_steps].
    wp_step. unfold cmd0. destruct cmd as [| c rest]; [by wp_step |].
    wp_steps. destruct (Py.contains "torchrun" c) eqn:Htorch; [| by wp_steps].
    wp_steps. eapply wp_mono.
    { apply IH. left. split; [reflexivity |].
      destruct Hfuel as [[Hleaf _] | Hfuel]; [| lia].
      cbn in Hleaf. congruence. }
    intros r s'' _. cbn beta. wp_step. by destruct r. }
  destruct (spawn w _ cmd env) as [lines rc | lines | lines msg | msg];
    [| | | done];
    (wp_step; eapply wp_mono; [by apply wp_wait_ends |];
     intros [[rc' out_lines] | e] s' _; [apply Hrest | done]).
Qed.

(** A [finally] clause that changes to [c0] leaves the process in [c0]
    when that [chdir] succeeds. *)
Lemma try_finally_chdir {A} (w : World) (body : M A) (c0 : string) s r s' :
  try_finally body (chdir w c0) s = Some (r, s') ->
  (forall c, chdir_result w c c0 = inr c0) ->
  cwd s' = c0.
Proof.
  unfold try_finally, chdir. intros Hrun Hback.
  destruct (body s) as [[r1 s1] |]; [| discriminate].
  rewrite Hback in Hrun. by injection Hrun as _ <-.
Qed.

(** C9: every call of [_execute_inference] ends, returning or raising,
    with the working directory it started with: the normal return, the
    non-zero exit with and without the retry, the failed launch and the
    interrupted read loop all pass through the [finally] clause.  The
    callback is any callback that ends, and changing back to the
    starting directory is taken to succeed. *)
Theorem cwd_restored (w : World) (self : Pipeline) (fuel : nat)
    (cmd : list string) (env : gmap string string)
    (progress_callback : option (Z -> M unit)) (out : string) (n : Z)
    (s : State) :
  (2 <= fuel)%nat ->
  callback_ends progress_callback ->
  (forall c, chdir_result w c (cwd s) = inr (cwd s)) ->
  wp (_execute_inference w self fuel cmd env progress_callback out n) s
     (fun _ s' => cwd s' = cwd s).
Proof.
  intros Hfuel Hcb Hback.
  destruct (wp_execute_inference_ends w self progress_callback fuel Hcb
              cmd env out n s) as (r & s' & Hrun & _); [by right |].
  exists r, s'. split; [exact Hrun |].
  destruct fuel as [| fuel']; [lia |].
  cbn [_execute_inference] in Hrun. unfold bind at 1 in Hrun.
  unfold getcwd, gets in Hrun.
  by eapply try_finally_chdir.
Qed.

(** ** Job record invariants *)

Lemma submit_creates (task_id : string) (request : ImageGenerationRequest)
    (s : State) :
  wp (submit task_id request) s
     (fun r s' => r = Ok tt
                  /\ status_dict s' !! task_id = Some (new_job request)).
Proof.
  unfold submit. wp_steps. split; [reflexivity |]. cbn.
  apply lookup_insert_eq.
Qed.

(** C1 (as amended): a job is created with progress 0; every record
    [process_task] writes has progress 100 only with status COMPLETED;
    and when at most one inference process is launched for the job (no
    retry after a failed distributed run), the progress values written,
    from the creation value 0 on, never decrease. *)
Theorem progress_lifecycle (w : World) (self : Pipeline) (fuel : nat)
    (task_id : string) (request : ImageGenerationRequest) (s : State) :
  (2 <= fuel)%nat ->
  status_dict s !! task_id = Some (new_job request) ->
  (forall s0,
     wp (submit task_id request) s0
        (fun _ s1 => exists j, status_dict s1 !! task_id = Some j
                               /\ status j = PENDING /\ progress j = 0))
  /\ wp (process_task w self fuel task_id request) s
       (fun _ s' =>
          exists writes,
            history s' = (history s ++ writes)%list
            /\ Forall (fun x => fst x = task_id
                                /\ (progress (snd x) = 100 ->
                                    status (snd x) = COMPLETED)) writes
            /\ ((length (popen_calls s') <= S (length (popen_calls s)))%nat ->
                StronglySorted Z.le (0 :: progresses writes))).
Proof.
  intros Hfuel Hjob. split.
  { intros s0. eapply wp_mono; [apply submit_creates |].
    intros r s1 [_ Hj]. by exists (new_job request). }
  eapply wp_mono; [by apply process_task_lifecycle |].
  intros r s' (writes & j' & Hh & _ & Hw & Hsorted & _).
  exists writes. split; [exact Hh |]. split; [| exact Hsorted].
  eapply Forall_impl; [exact Hw |].
  intros [i j] [Hi Hok]. split; [exact Hi |]. cbn in *.
  intros H100. unfold snapshot_ok in Hok.
  destruct (status j); try reflexivity; lia.
Qed.

(** C2 (as amended): a job is created with no result locations; every
    record [process_task] writes has result locations only with status
    COMPLETED, so none while PENDING, PROCESSING or FAILED; a job that
    ends COMPLETED stores the URLs of the collector's selection, which
    is empty when the collector selects nothing. *)
Theorem results_lifecycle (w : World) (self : Pipeline) (fuel : nat)
    (task_id : string) (request : ImageGenerationRequest) (s : State) :
  (2 <= fuel)%nat ->
  status_dict s !! task_id = Some (new_job request) ->
  (forall s0,
     wp (submit task_id request) s0
        (fun _ s1 => exists j, status_dict s1 !! task_id = Some j
                               /\ status j = PENDING /\ result_urls j = []))
  /\ wp (process_task w self fuel task_id request) s
       (fun _ s' =>
          exists writes j',
            history s' = (history s ++ writes)%list
            /\ status_dict s' !! task_id = Some j'
            /\ Forall (fun x => fst x = task_id
                                /\ (result_urls (snd x) <> [] ->
                                    status (snd x) = COMPLETED)
                                /\ (status (snd x) <> COMPLETED ->
                                    result_urls (snd x) = [])) writes
            /\ (status j' = COMPLETED ->
                exists c,
                  let out := Py.path_join (output_dir self) task_id in
                  result_urls j'
                  = map (result_url w)
                        (map fst (collect_entries out (listdir w c out)
                                    (num_images_per_prompt request))))).
Proof.
  intros Hfuel Hjob. split.
  { intros s0. eapply wp_mono; [apply submit_creates |].
    intros r s1 [_ Hj]. by exists (new_job request). }
  eapply wp_mono; [by apply process_task_lifecycle |].
  intros r s' (writes & j' & Hh & Hj' & Hw & _ & Hend).
  exists writes, j'. split; [exact Hh |]. split; [exact Hj' |]. split.
  - eapply Forall_impl; [exact Hw |].
    intros [i j] [Hi Hok]. split; [exact Hi |]. cbn in *.
    unfold snapshot_ok in Hok.
    destruct (status j); split; try done; by destruct Hok.
  - intros Hc. destruct Hend as [[_ Hurls] | Hf]; [exact Hurls | congruence].
Qed.

(** C10: [update_progress] on an id that is not in the job table
    returns normally and leaves the state as it is; on an id that is in
    the table it stores min(p, 95) as the record's progress and touches
    nothing else of the record or of other records; and no record that
    [process_task] writes has a progress above 95 unless it is the
    COMPLETED record with progress 100. *)
Theorem update_progress_contract (w : World) (self : Pipeline) (fuel : nat)
    (task_id : string) (request : ImageGenerationRequest) (p : Z)
    (s : State) :
  (status_dict s !! task_id = None ->
   update_progress task_id p s = Some (Ok tt, s))
  /\ (forall j, status_dict s !! task_id = Some j ->
        exists s',
          update_progress task_id p s = Some (Ok tt, s')
          /\ status_dict s'
             = <[task_id := set_progress (Z.min p 95) j]> (status_dict s)
          /\ progress (set_progress (Z.min p 95) j) = Z.min p 95)
  /\ ((2 <= fuel)%nat ->
      status_dict s !! task_id = Some (new_job request) ->
      wp (process_task w self fuel task_id request) s
        (fun _ s' =>
           exists writes,
             history s' = (history s ++ writes)%list
             /\ Forall (fun x => 95 < progress (snd x) ->
                                 status (snd x) = COMPLETED
                                 /\ progress (snd x) = 100) writes)).
Proof.
  split; [| split].
  - intros Hnone. rewrite update_progress_eq. unfold store_progress.
    by rewrite Hnone.
  - intros j Hj. rewrite update_progress_eq.
    rewrite (store_progress_present _ _ _ j Hj). eauto.
  - intros Hfuel Hjob.
    eapply wp_mono; [by apply process_task_lifecycle |].
    intros r s' (writes & j' & Hh & _ & Hw & _).
    exists writes. split; [exact Hh |].
    eapply Forall_impl; [exact Hw |].
    intros [i j] [_ Hok]. cbn in *. intros H95.
    unfold snapshot_ok in Hok. destruct (status j); try lia. done.
Qed.

(** ** Runs that are not retried, and the exceptions of a run *)



Lemma wp_conj {A} (m : M A) s (Q1 Q2 : Result A -> State -> Prop) :
  wp m s Q1 -> wp m s Q2 -> wp m s (fun r s' => Q1 r s' /\ Q2 r s').
Proof.
  intros (r1 & s1 & H1 & HQ1) (r2 & s2 & H2 & HQ2).
  rewrite H1 in H2. injection H2 as <- <-. by exists r1, s1.
Qed.

Lemma failure_has_message (rc : Z) :
  has_message (RuntimeError ("Inference failed with code " +:+ Py.str rc)).
Proof. right. cbn [str_exn String.append]. discriminate. Qed.

(** Whatever [_execute_inference] raises has a message, when the errors
    of the world have one. *)
Lemma wp_execute_inference_raises (w : World) (self : Pipeline) task_id
    (fuel : nat) :
  messages_nonempty w ->
  forall cmd env out n s,
    (leaf_cmd cmd /\ (1 <= fuel)%nat) \/ (2 <= fuel)%nat ->
    wp (_execute_inference w self fuel cmd env
          (Some (update_progress task_id)) out n) s
       (fun r _ => forall e, r = Raise e -> has_message e).
Proof.
  intros (Hlaunch & Hread & Hchdir).
  induction fuel as [| fuel' IH]; intros cmd env out n s Hfuel; [lia |].
  cbn [_execute_inference]. wp_step. wp_step. wp_step.
  eapply wp_mono
    with (Q := fun r _ => forall e, r = Raise e -> has_message e).
  2:{ intros r s' Hr. apply wp_chdir; [intros target _; exact Hr |].
      intros msg Hmsg e [= <-]. right. by eapply Hchdir. }
  wp_step. apply wp_chdir; [intros target _ |].
  2:{ intros msg Hmsg e [= <-]. right. by eapply Hchdir. }
  cbn beta match. wp_step. apply wp_popen.
  assert (Hwait : forall process,
    wp (wait process (Some (update_progress task_id)))
       (with_popen cmd env (with_cwd target s))
       (fun r s' =>
          True
          /\ match process with
             | Exited lines return_code =>
                 r = Ok (return_code, captured lines)
             | Interrupted _ => r = Raise KeyboardInterrupt
             | ReadFailed _ msg => r = Raise (UnicodeDecodeError msg)
             | LaunchFailed msg => r = Raise (OSError msg)
             end)).
  { intros process.
    by apply (wp_wait_inv task_id (fun _ => True) (fun _ _ => True)). }
  destruct (spawn w _ cmd env) as [lines rc | lines | lines msg | msg]
    eqn:Hspawn.
  4:{ intros e [= <-]. right. by eapply Hlaunch. }
  3:{ wp_step. eapply wp_mono; [apply Hwait |].
      intros r s' [_ ->] e [= <-]. right. by eapply Hread. }
  2:{ wp_step. eapply wp_mono; [apply Hwait |].
      intros r s' [_ ->] e [= <-]. by left. }
  wp_step. eapply wp_mono; [apply Hwait |].
  intros r s' [_ ->]. cbn beta match. cbn [fst snd].
  destruct (negb (rc =? 0));
    [| unfold _collect_images; wp_steps; by intros e [=]].
  wp_step. wp_step. wp_step.
  destruct (device_count s' >? 1).
  2:{ wp_steps. intros e [= <-]. apply failure_has_message. }
  wp_step. unfold cmd0. destruct cmd as [| c rest].
  { wp_step. intros e [= <-]. by right. }
  wp_steps. destruct (Py.contains "torchrun" c) eqn:Htorch.
  2:{ wp_steps. intros e [= <-]. apply failure_has_message. }
  wp_steps. eapply wp_mono.
  { apply IH. left. split; [reflexivity |].
    destruct Hfuel as [[Hleaf _] | Hfuel]; [| lia].
    cbn in Hleaf. congruence. }
  intros r s'' Hr. cbn beta. wp_step. exact Hr.
Qed.

Lemma wp_generate_images_raises (w : World) (self : Pipeline) task_id
    (fuel : nat) (request : ImageGenerationRequest) s :
  messages_nonempty w ->
  (2 <= fuel)%nat ->
  wp (generate_images w self fuel task_id request
        (Some (update_progress task_id))) s
     (fun r _ => forall e, r = Raise e -> has_message e).
Proof.
  intros Hmsg Hfuel. unfold generate_images. wp_step. wp_step. wp_step.
  wp_step. wp_step. wp_step. wp_step. wp_step. wp_step.
  eapply wp_mono.
  { instantiate (1 := fun r _ => forall e, r = Raise e -> has_message e).
    destruct (device_count _ >? 1).
    - unfold _run_distributed_inference. wp_step. wp_step.
      by apply wp_execute_inference_raises; [| right].
    - unfold _run_single_inference.
      by apply wp_execute_inference_raises; [| right]. }
  intros r s' Hr. destruct r as [paths | e]; cbn beta match.
  - wp_steps. by intros e [=].
  - destruct (is_Exception e); [| exact Hr].
    wp_steps. exact Hr.
Qed.

(** A job that [process_task] leaves FAILED has an error string. *)
Lemma process_task_error (w : World) (self : Pipeline) (fuel : nat)
    task_id request s j0 :
  messages_nonempty w ->
  (2 <= fuel)%nat ->
  status_dict s !! task_id = Some j0 ->
  wp (process_task w self fuel task_id request) s
     (fun _ s' =>
        exists j',
          status_dict s' !! task_id = Some j'
          /\ (status j' = COMPLETED \/ status j' = FAILED)
          /\ (status j' = FAILED -> error j' <> "")).
Proof.
  intros Hmsg Hfuel Hj0. unfold process_task. wp_step. wp_step.
  eapply wp_update_job_present; [exact Hj0 |]. cbn beta match.
  wp_step. eapply wp_update_job_present; [apply lookup_insert_eq |].
  cbn beta match. wp_step.
  pose (I := fun s1 : State => is_Some (status_dict s1 !! task_id)).
  assert (Hstore : forall s1 v, I s1 -> I (store_progress task_id s1 v)).
  { intros s1 v [j Hj]. rewrite (store_progress_present _ _ _ j Hj).
    unfold I. cbn [status_dict with_job]. rewrite lookup_insert_eq.
    by eexists. }
  eapply wp_mono.
  { apply wp_conj;
      [apply (wp_generate_images_inv w self task_id I (fun _ => I));
         [done | done | done | done | by intros; apply Hstore | done
         | exact Hfuel |]
      | by apply wp_generate_images_raises].
    apply Hstore, Hstore. unfold I. cbn [status_dict with_job].
    rewrite lookup_insert_eq. by eexists. }
  intros r s' [Hinv Hgood]. destruct r as [paths | e]; cbn beta match.
  - destruct Hinv as [(s'' & Hs'' & ->) _].
    destruct (Hstore s'' 100 Hs'') as [j Hj].
    eapply wp_update_job_present; [exact Hj |].
    eexists. cbn. rewrite lookup_insert_eq. split; [reflexivity |].
    split; [by left | discriminate].
  - destruct Hinv as [j Hj]. specialize (Hgood e eq_refl).
    destruct e; cbn beta match;
      try (wp_step; wp_step; eapply wp_update_job_present; [exact Hj |];
           eexists; cbn; rewrite lookup_insert_eq; split; [reflexivity |];
           split; [by right |]; intros _;
           by destruct Hgood as [Hki | Hne]; [discriminate Hki |]).
    wp_step. eapply wp_update_job_present; [exact Hj |]. cbn beta match.
    wp_step. eexists. cbn. rewrite lookup_insert_eq.
    split; [reflexivity |]. split; [by right | discriminate].
Qed.

(** ** Fallback Supervisor *)

Lemma last_n_length {A} (k : nat) (l : list A) :
  (length (Py.last_n k l) <= k)%nat.
Proof. unfold Py.last_n. rewrite length_drop. lia. Qed.


(** C4 (as amended): the command line of the retry after a failed
    distributed run is the single-device command built from the original
    request's image count, the resolution "1024x1024" and 50 inference
    steps, the last two being the defaults of the request model: the
    original resolution and step count are replaced, the original image
    count is kept. *)
Theorem retry_parameters (w : World) (self : Pipeline) (fuel : nat)
    (task_id : string) (request : ImageGenerationRequest) (s : State)
    (lines0 : list string) (rc0 : Z) :
  chdir_total w ->
  (2 <= fuel)%nat ->
  status_dict s !! task_id = Some (new_job request) ->
  1 < device_count s ->
  spawn w (length (popen_calls s))
    (first_distributed_cmd self (device_count s) task_id request)
    (distributed_env w (device_count s))
  = Exited lines0 rc0 ->
  rc0 <> 0 ->
  wp (process_task w self fuel task_id request) s
     (fun _ s' =>
        exists first cmd1 env1,
          popen_calls s' = (popen_calls s ++ [first; (cmd1, env1)])%list
          /\ cmd1
             = single_cmd self
                 (Py.basename (task_output_dir self task_id))
                 (Py.path_join (task_output_dir self task_id)
                    (Py.basename (task_output_dir self task_id)
                     +:+ "_prompt.txt"))
                 (task_output_dir self task_id)
                 {| ir_num_images_per_prompt := num_images_per_prompt request;
                    ir_resolution := "1024x1024";
                    ir_num_inference_steps := 50 |}
          /\ cmd1 !! 14%nat = Some "--num_images_per_prompt"
          /\ cmd1 !! 15%nat = Some (Py.str (num_images_per_prompt request))
          /\ cmd1 !! 16%nat = Some "--resolution"
          /\ cmd1 !! 17%nat = Some (resolution (default_request (prompt request)))
          /\ cmd1 !! 18%nat = Some "--num_inference_steps"
          /\ cmd1 !! 19%nat
             = Some (Py.str (num_inference_steps
                               (default_request (prompt request))))).
Proof.
  intros Hcd Hfuel Hjob Hdev Hspawn Hrc0.
  destruct fuel as [| [| fuel']]; [lia | lia |].
  eapply wp_mono;
    [by apply (process_task_fallback w self fuel' task_id request s
                 (new_job request) lines0 rc0) |].
  intros r s' (j' & _ & Hcalls & _).
  eexists _, _, _. split; [exact Hcalls |]. by repeat split.
Qed.

(** C5 (as amended): when the run that ends the job is read to its end
    and exits non-zero (the only run of a single-device pipeline, or
    the retry after a distributed run that exited non-zero), the job
    ends FAILED with the error string "Inference failed with code <exit
    code of that run>", which is not empty and holds none of the
    captured output.  The captured output goes to the log only: the
    last 10 lines at most of the failed distributed run, in the warning
    before the retry, and the last 15 lines at most of the run that ends
    the job.  ([os.chdir] is taken not to fail in these two cases.)
    However a run goes (a non-zero exit, a failed launch, an [os.chdir]
    that raises, output that cannot be decoded, an interrupt), the job
    ends COMPLETED or FAILED, and a job that ends FAILED has an error
    string that is not empty, the errors of the operating system and of
    the decoder having a message. *)
Theorem execution_error_report (w : World) (self : Pipeline) (fuel : nat)
    (task_id : string) (request : ImageGenerationRequest) (s : State) :
  (2 <= fuel)%nat ->
  status_dict s !! task_id = Some (new_job request) ->
  let failure rc := "Inference failed with code " +:+ Py.str rc in
  let tail k lines := Py.join Py.newline (Py.last_n k (captured lines)) in
  let final_records lines rc :=
    [ (ERROR, "❌ Inference failed with code " +:+ Py.str rc);
      (ERROR, "❌ Error: " +:+ tail 15%nat lines);
      (ERROR, "❌ Image generation failed for task " +:+ task_id +:+ ": "
              +:+ failure rc);
      (ERROR, "❌ Task " +:+ task_id +:+ " failed: " +:+ failure rc) ] in
  (forall lines rc,
     chdir_total w ->
     device_count s <= 1 ->
     spawn w (length (popen_calls s)) (first_single_cmd self task_id request)
       (single_env w) = Exited lines rc ->
     rc <> 0 ->
     wp (process_task w self fuel task_id request) s
        (fun r s' =>
           r = Ok tt
           /\ (exists j', status_dict s' !! task_id = Some j'
                          /\ status j' = FAILED /\ error j' = failure rc
                          /\ error j' <> "")
           /\ log s' = (log s ++ final_records lines rc)%list
           /\ (length (Py.last_n 15 (captured lines)) <= 15)%nat))
  /\ (forall lines0 rc0 lines1 rc1,
        chdir_total w ->
        1 < device_count s ->
        spawn w (length (popen_calls s))
          (first_distributed_cmd self (device_count s) task_id request)
          (distributed_env w (device_count s)) = Exited lines0 rc0 ->
        rc0 <> 0 ->
        spawn w (S (length (popen_calls s)))
          (retry_cmd self (task_output_dir self task_id)
             (num_images_per_prompt request))
          (single_env w) = Exited lines1 rc1 ->
        rc1 <> 0 ->
        wp (process_task w self fuel task_id request) s
           (fun r s' =>
              r = Ok tt
              /\ (exists j', status_dict s' !! task_id = Some j'
                             /\ status j' = FAILED /\ error j' = failure rc1
                             /\ error j' <> "")
              /\ log s'
                 = (log s
                    ++ [ (WARNING, "⚠️ Multi-NPU failed, trying single NPU...");
                         (WARNING, "⚠️ Error: " +:+ tail 10%nat lines0) ]
                    ++ final_records lines1 rc1)%list
              /\ (length (Py.last_n 10 (captured lines0)) <= 10)%nat
              /\ (length (Py.last_n 15 (captured lines1)) <= 15)%nat))
  /\ (messages_nonempty w ->
      wp (process_task w self fuel task_id request) s
         (fun _ s' =>
            exists j',
              status_dict s' !! task_id = Some j'
              /\ (status j' = COMPLETED \/ status j' = FAILED)
              /\ (status j' = FAILED -> error j' <> ""))).
Proof.
  intros Hfuel Hjob failure tail final_records.
  split; [| split].
  - intros lines rc Hcd Hdev Hspawn Hrc.
    destruct fuel as [| [| fuel']]; [lia | lia |].
    eapply wp_mono;
      [by apply (process_task_single w self (S fuel') task_id request s
                   (new_job request)) |].
    intros r s' (j' & Hj' & _ & Hlog & Hend).
    rewrite Hspawn in Hlog, Hend. unfold leaf_exn, leaf_log in Hlog, Hend.
    destruct (Z.eqb_spec rc 0) as [-> | _]; [done |].
    destruct Hend as (-> & Hst & Herr).
    split; [reflexivity |]. split.
    { exists j'. rewrite Herr.
      by repeat split. }
    split; [exact Hlog | apply last_n_length].
  - intros lines0 rc0 lines1 rc1 Hcd Hdev Hspawn0 Hrc0 Hspawn1 Hrc1.
    destruct fuel as [| [| fuel']]; [lia | lia |].
    eapply wp_mono;
      [by apply (process_task_fallback w self fuel' task_id request s
                   (new_job request) lines0 rc0) |].
    intros r s' (j' & Hj' & _ & Hlog & Hend).
    rewrite Hspawn1 in Hlog, Hend. unfold leaf_exn, leaf_log in Hlog, Hend.
    destruct (Z.eqb_spec rc1 0) as [-> | _]; [done |].
    destruct Hend as (-> & Hst & Herr).
    split; [reflexivity |]. split.
    { exists j'. rewrite Herr.
      by repeat split. }
    split; [exact Hlog |]. split; apply last_n_length.
  - intros Hmsg.
    by apply (process_task_error w self fuel task_id request s
                (new_job request)).
Qed.

(** ** The theorems at sample inputs *)

Lemma demo_chdir_total outcomes entries :
  chdir_total (Demo.world outcomes entries).
Proof. intros c path. by exists path. Defined.

Lemma demo_callback_ends :
  callback_ends (Some (update_progress Demo.task_id)).
Proof.
  intros f [= <-] v s. rewrite update_progress_eq. eauto.
Defined.

Lemma progress_drops_on_retry :
  option_map (observed_progress Demo.task_id)
    (final_state
       (process_task Demo.retry_world Demo.pipeline 2 Demo.task_id Demo.request)
       (Demo.submitted 2))
  = Some [0; 0; 10; 10; 20; 32; 34; 32; 95]
  /\ ~ StronglySorted Z.le [0; 0; 10; 10; 20; 32; 34; 32; 95].
Proof.
  split; [vm_compute; reflexivity |].
  intros H. do 6 (apply StronglySorted_inv in H as [H _]).
  apply StronglySorted_inv in H as [_ Hall].
  apply Forall_inv in Hall. lia.
Qed.

Lemma progress_lifecycle_witness :
  (2 <= 2)%nat
  /\ status_dict (Demo.submitted 1) !! Demo.task_id = Some (new_job Demo.request)
  /\ wp (process_task Demo.single_world Demo.pipeline 2 Demo.task_id
           Demo.request) (Demo.submitted 1)
       (fun _ s' =>
          exists writes,
            history s' = (history (Demo.submitted 1) ++ writes)%list
            /\ Forall (fun x => fst x = Demo.task_id
                                /\ (progress (snd x) = 100 ->
                                    status (snd x) = COMPLETED)) writes
            /\ ((length (popen_calls s')
                 <= S (length (popen_calls (Demo.submitted 1))))%nat ->
                StronglySorted Z.le (0 :: progresses writes))).
Proof.
  split; [lia |]. split; [vm_compute; reflexivity |].
  apply (progress_lifecycle Demo.single_world Demo.pipeline 2 Demo.task_id
           Demo.request (Demo.submitted 1));
    [lia | vm_compute; reflexivity].
Defined.

Lemma completed_without_results :
  option_map
    (fun s => option_map (fun j => (status j, result_urls j))
                (status_dict s !! Demo.task_id))
    (final_state
       (process_task Demo.no_image_world Demo.pipeline 2 Demo.task_id
          Demo.request)
       (Demo.submitted 1))
  = Some (Some (COMPLETED, [])).
Proof. vm_compute. reflexivity. Qed.

Lemma results_lifecycle_witness :
  (2 <= 2)%nat
  /\ status_dict (Demo.submitted 1) !! Demo.task_id = Some (new_job Demo.request)
  /\ wp (process_task Demo.single_world Demo.pipeline 2 Demo.task_id
           Demo.request) (Demo.submitted 1)
       (fun _ s' =>
          exists writes j',
            history s' = (history (Demo.submitted 1) ++ writes)%list
            /\ status_dict s' !! Demo.task_id = Some j'
            /\ Forall (fun x => fst x = Demo.task_id
                                /\ (result_urls (snd x) <> [] ->
                                    status (snd x) = COMPLETED)
                                /\ (status (snd x) <> COMPLETED ->
                                    result_urls (snd x) = [])) writes
            /\ (status j' = COMPLETED ->
                exists c,
                  let out := Py.path_join (output_dir Demo.pipeline)
                               Demo.task_id in
                  result_urls j'
                  = map (result_url Demo.single_world)
                        (map fst
                           (collect_entries out
                              (listdir Demo.single_world c out)
                              (num_images_per_prompt Demo.request))))).
Proof.
  split; [lia |]. split; [vm_compute; reflexivity |].
  apply (results_lifecycle Demo.single_world Demo.pipeline 2 Demo.task_id
           Demo.request (Demo.submitted 1));
    [lia | vm_compute; reflexivity].
Defined.



Lemma retry_keeps_image_count :
  option_map
    (fun s => match popen_calls s with
              | [_; (cmd1, _)] => (cmd1 !! 14%nat, cmd1 !! 15%nat)
              | _ => (None, None)
              end)
    (final_state
       (process_task Demo.retry_world Demo.pipeline 2 Demo.task_id Demo.request)
       (Demo.submitted 2))
  = Some (Some "--num_images_per_prompt", Some "2")
  /\ Py.str (num_images_per_prompt Demo.request) = "2"
  /\ Py.str (num_images_per_prompt (default_request (prompt Demo.request)))
     = "1".
Proof. repeat split; vm_compute; reflexivity. Qed.

Lemma retry_parameters_witness :
  chdir_total Demo.retry_world
  /\ (2 <= 2)%nat
  /\ status_dict (Demo.submitted 2) !! Demo.task_id = Some (new_job Demo.request)
  /\ 1 < device_count (Demo.submitted 2)
  /\ 1 <> 0
  /\ wp (process_task Demo.retry_world Demo.pipeline 2 Demo.task_id
           Demo.request) (Demo.submitted 2)
       (fun _ s' =>
          exists first cmd1 env1,
            popen_calls s' = [first; (cmd1, env1)]
            /\ cmd1 !! 15%nat = Some "2"
            /\ cmd1 !! 17%nat = Some "1024x1024"
            /\ cmd1 !! 19%nat = Some "50").
Proof.
  split; [apply demo_chdir_total |]. split; [lia |].
  split; [vm_compute; reflexivity |]. split; [cbn; lia |]. split; [lia |].
  eapply wp_mono.
  - apply (retry_parameters Demo.retry_world Demo.pipeline 2 Demo.task_id
             Demo.request (Demo.submitted 2)
             [Demo.nl "Sampling step 1/30"; Demo.nl "Sampling step 2/30";
              Demo.nl "HCCL timeout"] 1 (demo_chdir_total _ _));
      [lia | vm_compute; reflexivity | cbn; lia | reflexivity | lia].
  - cbn beta.
    intros _ s' (first & cmd1 & env1 & Hcalls & _ & _ & H15 & _ & H17 & _ & H19).
    exists first, cmd1, env1. split; [exact Hcalls |]. auto.
Defined.

Lemma error_string_has_no_output :
  option_map
    (fun s => option_map (fun j => (status j, error j))
                (status_dict s !! Demo.task_id))
    (final_state
       (process_task Demo.failing_world Demo.pipeline 2 Demo.task_id
          Demo.request)
       (Demo.submitted 1))
  = Some (Some (FAILED, "Inference failed with code 1"))
  /\ forallb (fun line => negb (Py.contains line "Inference failed with code 1"))
       (captured Demo.twelve_lines) = true
  /\ option_map (fun s => log s !! 1%nat)
       (final_state
          (process_task Demo.failing_world Demo.pipeline 2 Demo.task_id
             Demo.request)
          (Demo.submitted 1))
     = Some (Some (ERROR, "❌ Error: "
                          +:+ Py.join Py.newline (captured Demo.twelve_lines)))
  /\ length (captured Demo.twelve_lines) = 12%nat.
Proof. repeat split; vm_compute; reflexivity. Qed.

Lemma demo_messages_nonempty :
  messages_nonempty Demo.failing_world.
Proof.
  split; [| split].
  - intros [| [| n]] cmd env msg; cbn; intros [= <-]; discriminate.
  - intros [| [| n]] cmd env lines msg; cbn; discriminate.
  - intros c path msg. cbn. discriminate.
Defined.

Lemma execution_error_report_witness :
  chdir_total Demo.failing_world
  /\ messages_nonempty Demo.failing_world
  /\ (2 <= 2)%nat
  /\ status_dict (Demo.submitted 1) !! Demo.task_id = Some (new_job Demo.request)
  /\ device_count (Demo.submitted 1) <= 1
  /\ 1 <> 0
  /\ wp (process_task Demo.failing_world Demo.pipeline 2 Demo.task_id
           Demo.request) (Demo.submitted 1)
       (fun r s' =>
          r = Ok tt
          /\ exists j', status_dict s' !! Demo.task_id = Some j'
                        /\ status j' = FAILED
                        /\ error j' = "Inference failed with code 1")
  /\ wp (process_task Demo.failing_world Demo.pipeline 2 Demo.task_id
           Demo.request) (Demo.submitted 1)
       (fun _ s' =>
          exists j', status_dict s' !! Demo.task_id = Some j'
                     /\ (status j' = COMPLETED \/ status j' = FAILED)
                     /\ (status j' = FAILED -> error j' <> "")).
Proof.
  split; [apply demo_chdir_total |]. split; [apply demo_messages_nonempty |].
  split; [lia |].
  split; [vm_compute; reflexivity |]. split; [cbn; lia |]. split; [lia |].
  assert (Hjob : status_dict (Demo.submitted 1) !! Demo.task_id
                 = Some (new_job Demo.request)) by (vm_compute; reflexivity).
  destruct (execution_error_report Demo.failing_world Demo.pipeline 2
              Demo.task_id Demo.request (Demo.submitted 1)
              (le_n 2) Hjob) as (Hsingle & _ & Hany).
  split.
  - eapply wp_mono.
    + apply (Hsingle Demo.twelve_lines 1);
        [apply demo_chdir_total | cbn; lia | reflexivity | lia].
    + cbn beta. intros r s' (Hr & (j' & Hj' & Hst & Herr & _) & _).
      split; [exact Hr |]. exists j'. auto.
  - apply Hany, demo_messages_nonempty.
Defined.

Lemma planner_contract_witness :
  0 < 8
  /\ exists tp ep,
       _calculate_distributed_config 8 = Some (tp, ep)
       /\ 1 <= tp /\ 1 <= ep /\ tp * ep <= 8 /\ tp = 4 /\ ep = 2.
Proof.
  split; [lia |].
  destruct (planner_contract 8)
    as (tp & ep & Hcfg & Htp & Hep & Hle & _ & _ & _ & H8 & _); [lia |].
  exists tp, ep. destruct (H8 eq_refl) as [Htp4 Hep2].
  repeat split; assumption.
Defined.


Lemma collector_contract_witness :
  0 <= 2
  /\ _collect_images (Demo.world [] Demo.two_images)
       "generated_images/img_0123456789abcdef" 2 (Demo.idle 1)
     = Some (Ok [ "generated_images/img_0123456789abcdef/0_1.png";
                  "generated_images/img_0123456789abcdef/0_0.png" ],
             Demo.idle 1).
Proof.
  split; [lia |].
  exact (proj1 (collector_contract (Demo.world [] Demo.two_images)
                  "generated_images/img_0123456789abcdef" 2 (Demo.idle 1)
                  ltac:(lia))).
Defined.

Lemma cwd_restored_witness :
  (2 <= 2)%nat
  /\ callback_ends (Some (update_progress Demo.task_id))
  /\ (forall c, chdir_result Demo.retry_world c (cwd (Demo.submitted 2))
                = inr (cwd (Demo.submitted 2)))
  /\ wp (_execute_inference Demo.retry_world Demo.pipeline 2
           (first_distributed_cmd Demo.pipeline 2 Demo.task_id Demo.request)
           (distributed_env Demo.retry_world 2)
           (Some (update_progress Demo.task_id))
           (task_output_dir Demo.pipeline Demo.task_id) 2)
        (Demo.submitted 2)
        (fun _ s' => cwd s' = cwd (Demo.submitted 2)).
Proof.
  split; [lia |]. split; [apply demo_callback_ends |].
  split; [reflexivity |].
  apply cwd_restored; [lia | apply demo_callback_ends | reflexivity].
Defined.

Lemma update_progress_contract_witness :
  (2 <= 2)%nat
  /\ status_dict (Demo.submitted 1) !! Demo.task_id = Some (new_job Demo.request)
  /\ (exists s',
        update_progress Demo.task_id 100 (Demo.submitted 1) = Some (Ok tt, s')
        /\ status_dict s'
           = <[Demo.task_id := set_progress (Z.min 100 95) (new_job Demo.request)]>
               (status_dict (Demo.submitted 1)))
  /\ update_progress "img_unknown" 100 (Demo.submitted 1)
     = Some (Ok tt, Demo.submitted 1)
  /\ wp (process_task Demo.single_world Demo.pipeline 2 Demo.task_id
           Demo.request) (Demo.submitted 1)
       (fun _ s' =>
          exists writes,
            history s' = (history (Demo.submitted 1) ++ writes)%list
            /\ Forall (fun x => 95 < progress (snd x) ->
                                status (snd x) = COMPLETED
                                /\ progress (snd x) = 100) writes).
Proof.
  split; [lia |]. split; [vm_compute; reflexivity |].
  destruct (update_progress_contract Demo.single_world Demo.pipeline 2
              Demo.task_id Demo.request 100 (Demo.submitted 1))
    as (_ & Hpresent & Hlife).
  destruct (update_progress_contract Demo.single_world Demo.pipeline 2
              "img_unknown" Demo.request 100 (Demo.submitted 1))
    as (Habsent & _ & _).
  split.
  { destruct (Hpresent (new_job Demo.request)) as (s' & Hrun & Hsd & _);
      [vm_compute; reflexivity |].
    by exists s'. }
  split; [apply Habsent; vm_compute; reflexivity |].
  apply Hlife; [lia | vm_compute; reflexivity].
Defined.

(** * Further properties of the code *)

(** ** Device Topology Planner *)

(** X1: for a positive device count the tensor-parallel size is at most
    4, and the topology covers all devices (tp * ep = d) exactly when
    d <= 4 or d is a multiple of 4; for 5, 6, 7, 9, ... some devices are
    left out. *)
Theorem planner_coverage (d : Z) :
  0 < d ->
  exists tp ep,
    _calculate_distributed_config d = Some (tp, ep)
    /\ tp <= 4
    /\ (tp * ep = d <-> d <= 4 \/ d mod 4 = 0).
Proof.
  intros Hd. unfold _calculate_distributed_config.
  destruct (Z.eqb_spec d 1) as [-> | H1];
    [exists 1, 1; repeat split; intros; lia |].
  destruct (Z.eqb_spec d 2) as [-> | H2];
    [exists 2, 1; repeat split; intros; lia |].
  destruct (Z.eqb_spec d 4) as [-> | H4];
    [exists 4, 1; repeat split; intros; lia |].
  destruct (Z.eqb_spec d 8) as [-> | H8];
    [exists 4, 2; split; [reflexivity |]; split; [lia |];
     split; intros; [by right | lia] |].
  unfold floordiv.
  destruct (Z.eqb_spec (Z.min 4 d) 0) as [H0 | _]; [lia |].
  exists (Z.min 4 d), (d / Z.min 4 d).
  split; [reflexivity |]. split; [lia |].
  destruct (Z.le_gt_cases d 4) as [Hle | Hgt].
  - assert (d = 3) as -> by lia. split; intros; [lia | reflexivity].
  - replace (Z.min 4 d) with 4 by lia.
    pose proof (Z.div_mod d 4 ltac:(lia)) as Hdm.
    pose proof (Z.mod_pos_bound d 4 ltac:(lia)) as Hmod.
    split; intros; lia.
Qed.

(** X2: a device count of 0 makes the planner divide by zero, and a
    negative device count d gives the pair (d, 1). *)
Theorem planner_nonpositive (d : Z) :
  d <= 0 ->
  _calculate_distributed_config d = if d =? 0 then None else Some (d, 1).
Proof.
  intros Hd. unfold _calculate_distributed_config, floordiv.
  destruct (Z.eqb_spec d 1); [lia |]. destruct (Z.eqb_spec d 2); [lia |].
  destruct (Z.eqb_spec d 4); [lia |]. destruct (Z.eqb_spec d 8); [lia |].
  replace (Z.min 4 d) with d by lia.
  destruct (Z.eqb_spec d 0) as [-> | Hne]; [reflexivity |].
  by rewrite Z.div_same.
Qed.

(** ** Result Collector *)

Lemma collect_entries_slice output_dir entries (N : Z) :
  collect_entries output_dir entries N
  = Py.slice_to (Py.sort_desc snd (matching_paths output_dir entries)) N.
Proof.
  unfold collect_entries.
  destruct (matching_paths output_dir entries) as [| pm l] eqn:E;
    [| reflexivity].
  unfold Py.slice_to. cbn. by destruct (0 <=? N); rewrite take_nil.
Qed.

(** X3: a desired count that is at least the number of image files gives
    all of them: the result is a rearrangement of the matching paths,
    newest first. *)
Theorem collector_returns_all output_dir entries (N : Z) :
  Z.of_nat (length (matching_paths output_dir entries)) <= N ->
  collect_entries output_dir entries N ≡ₚ matching_paths output_dir entries
  /\ StronglySorted (key_ge snd) (collect_entries output_dir entries N).
Proof.
  intros HN. rewrite collect_entries_nonneg by lia.
  rewrite take_ge.
  - split; [apply sort_desc_perm | apply sort_desc_sorted].
  - rewrite (Permutation_length (sort_desc_perm snd _)). lia.
Qed.

(** X4: a negative desired count N does not give an empty result: the
    slice [[:N]] drops the -N oldest paths and returns the rest, so the
    collector returns max(0, m + N) of the m matching paths, still newest
    first. *)
Theorem collector_negative_count output_dir entries (N : Z) :
  N < 0 ->
  let all := Py.sort_desc snd (matching_paths output_dir entries) in
  collect_entries output_dir entries N
  = take (length all - Z.to_nat (- N)) all
  /\ Z.of_nat (length (collect_entries output_dir entries N))
     = Z.max 0 (Z.of_nat (length (matching_paths output_dir entries)) + N).
Proof.
  intros HN all.
  assert (Heq : collect_entries output_dir entries N
                = take (length all - Z.to_nat (- N)) all).
  { rewrite collect_entries_slice. unfold Py.slice_to.
    destruct (Z.leb_spec 0 N); [lia | reflexivity]. }
  split; [exact Heq |].
  rewrite Heq, length_take. unfold all.
  rewrite (Permutation_length (sort_desc_perm snd _)). lia.
Qed.

Lemma endswith_refl (s : string) : Py.endswith s s = true.
Proof. destruct s; cbn [Py.endswith]; by rewrite String.eqb_refl. Qed.

(** Two suffixes of one string: one is a suffix of the other. *)
Lemma endswith_comparable (s a b : string) :
  Py.endswith s a = true -> Py.endswith s b = true ->
  Py.endswith a b = true \/ Py.endswith b a = true.
Proof.
  induction s as [| c s IH]; cbn [Py.endswith]; intros Ha Hb.
  - rewrite orb_false_r in Ha, Hb.
    apply String.eqb_eq in Ha as <-. apply String.eqb_eq in Hb as <-.
    by left.
  - apply orb_true_iff in Ha as [Ha | Ha].
    { apply String.eqb_eq in Ha as <-. left. exact Hb. }
    apply orb_true_iff in Hb as [Hb | Hb].
    { apply String.eqb_eq in Hb as <-. right.
      cbn [Py.endswith]. by rewrite Ha, orb_true_r. }
    by apply IH.
Qed.

Lemma image_exts_exclusive (name ext1 ext2 : string) :
  ext1 ∈ image_exts -> ext2 ∈ image_exts ->
  Py.endswith name ext1 = true -> Py.endswith name ext2 = true ->
  ext1 = ext2.
Proof.
  intros H1 H2 He1 He2.
  destruct (endswith_comparable name ext1 ext2 He1 He2) as [Hc | Hc];
    unfold image_exts in H1, H2;
    repeat (apply elem_of_cons in H1 as [-> | H1]);
    try (by apply elem_of_nil in H1);
    repeat (apply elem_of_cons in H2 as [-> | H2]);
    try (by apply elem_of_nil in H2);
    first [reflexivity | discriminate Hc].
Qed.


Lemma glob_ext_cons (e : DirEntry) (es : list DirEntry) (ext : string) :
  glob_ext (e :: es) ext
  = if Py.endswith (de_name e) ext then e :: glob_ext es ext
    else glob_ext es ext.
Proof.
  unfold glob_ext. rewrite filter_cons.
  destruct (Py.endswith (de_name e) ext); case_decide; done.
Qed.

(** The four globs together list every image entry once. *)
Lemma matching_paths_perm output_dir entries :
  matching_paths output_dir entries
  ≡ₚ map (entry_path output_dir) (filter (fun e => is_image e = true) entries).
Proof.
  induction entries as [| e es IH]; [reflexivity |].
  unfold matching_paths in *. cbn [image_exts map concat] in *.
  rewrite !glob_ext_cons, filter_cons.
  assert (Himg : is_image e
                 = Py.endswith (de_name e) ".png"
                   || (Py.endswith (de_name e) ".jpg"
                       || (Py.endswith (de_name e) ".jpeg"
                           || (Py.endswith (de_name e) ".webp" || false))))
    by reflexivity.
  assert (Hx : forall ext1 ext2, ext1 ∈ image_exts -> ext2 ∈ image_exts ->
             Py.endswith (de_name e) ext1 = true ->
             Py.endswith (de_name e) ext2 = true -> ext1 = ext2)
    by apply image_exts_exclusive.
  assert (Hin : forall k ext, image_exts !! k = Some ext -> ext ∈ image_exts)
    by (intros k ext Hk; by eapply list_elem_of_lookup_2).
  pose proof (Hin 0%nat _ eq_refl) as Hpng.
  pose proof (Hin 1%nat _ eq_refl) as Hjpg.
  pose proof (Hin 2%nat _ eq_refl) as Hjpeg.
  pose proof (Hin 3%nat _ eq_refl) as Hwebp.
  destruct (Py.endswith (de_name e) ".png") eqn:E1;
    destruct (Py.endswith (de_name e) ".jpg") eqn:E2;
    destruct (Py.endswith (de_name e) ".jpeg") eqn:E3;
    destruct (Py.endswith (de_name e) ".webp") eqn:E4;
    try (by specialize (Hx _ _ Hpng Hjpg E1 E2));
    try (by specialize (Hx _ _ Hpng Hjpeg E1 E3));
    try (by specialize (Hx _ _ Hpng Hwebp E1 E4));
    try (by specialize (Hx _ _ Hjpg Hjpeg E2 E3));
    try (by specialize (Hx _ _ Hjpg Hwebp E2 E4));
    try (by specialize (Hx _ _ Hjpeg Hwebp E3 E4));
    cbn [orb] in Himg; case_decide; try congruence;
    cbn [map app]; rewrite <- IH; cbn [map app];
    rewrite ?app_nil_r, <- ?Permutation_middle; reflexivity.
Qed.

Lemma path_join_inj (d a b : string) :
  Py.path_join d a = Py.path_join d b -> a = b.
Proof.
  unfold Py.path_join. induction d as [| c d IH]; cbn; intros H.
  - by injection H.
  - injection H as H. by apply IH.
Qed.

(** X5: in a directory whose entries have distinct names, no path is
    returned twice, whatever the desired count. *)
Theorem collector_no_duplicates output_dir entries (N : Z) :
  NoDup (map de_name entries) ->
  NoDup (map fst (collect_entries output_dir entries N)).
Proof.
  intros Hnames.
  assert (Hall : NoDup (map fst (Py.sort_desc snd
                                   (matching_paths output_dir entries)))).
  { rewrite sort_desc_perm, matching_paths_perm, map_map. cbn.
    rewrite <- (map_map de_name (Py.path_join output_dir)).
    apply NoDup_fmap_2; [intros a b; apply path_join_inj |].
    eapply sublist_NoDup; [exact Hnames |].
    apply fmap_sublist, sublist_filter. }
  rewrite collect_entries_slice. unfold Py.slice_to.
  destruct (0 <=? N);
    (eapply sublist_NoDup; [exact Hall | apply fmap_sublist, sublist_take]).
Qed.

(** ** Cleanup *)










(** ** Paths and URLs *)

Lemma append_cons (x : ascii) (a b : string) :
  String x a +:+ b = String x (a +:+ b).
Proof. reflexivity. Qed.

Lemma append_assoc (a b c : string) : (a +:+ b) +:+ c = a +:+ (b +:+ c).
Proof.
  induction a as [| x a IH]; [reflexivity |].
  by rewrite !append_cons, IH.
Qed.

Lemma length_append (a b : string) :
  String.length (a +:+ b) = (String.length a + String.length b)%nat.
Proof.
  induction a as [| x a IH]; [reflexivity |].
  rewrite append_cons. cbn [String.length]. by rewrite IH.
Qed.

Lemma contains_slash_cons (c : ascii) (s : string) :
  Py.contains "/" (String c s) = Ascii.eqb c "/" || Py.contains "/" s.
Proof.
  cbn [Py.contains String.prefix].
  destruct (ascii_dec "/" c) as [<- | Hne].
  - destruct s; reflexivity.
  - destruct (Ascii.eqb_spec c "/") as [-> | _]; [by destruct Hne | reflexivity].
Qed.

Lemma basename_from_no_slash (s acc : string) :
  Py.contains "/" s = false -> Py.basename_from acc s = acc.
Proof.
  induction s as [| c s IH]; [reflexivity |].
  rewrite contains_slash_cons. intros H.
  apply orb_false_iff in H as [Hc Hs]. cbn [Py.basename_from].
  rewrite Hc. by apply IH.
Qed.

Lemma basename_from_after_slash (a b : string) :
  forall acc,
    Py.basename_from acc (a +:+ String "/" b) = Py.basename_from b b.
Proof.
  induction a as [| c a IH]; intros acc.
  - reflexivity.
  - rewrite append_cons. cbn [Py.basename_from].
    destruct (Ascii.eqb c "/"); apply IH.
Qed.

(** [basename] undoes [path_join] for a name without a separator. *)
Lemma basename_path_join (d name : string) :
  Py.contains "/" name = false ->
  Py.basename (Py.path_join d name) = name.
Proof.
  intros Hname. unfold Py.basename, Py.path_join.
  change (d +:+ "/" +:+ name) with (d +:+ String "/" name).
  rewrite basename_from_after_slash. by apply basename_from_no_slash.
Qed.

(** X7: for a task id that is one path component (the ids [submit]
    makes are), the retry after a failed distributed run is the
    single-device command for the same task id, prompt file and output
    directory as the first run: the id it reads back from the name of
    the output directory is the task id.  It differs from the command a
    single-device pipeline builds for the job in the request it carries
    only. *)
Theorem retry_reuses_task_paths (self : Pipeline) (task_id : string)
    (num_images : Z) :
  path_component task_id ->
  Py.basename (task_output_dir self task_id) = task_id
  /\ retry_cmd self (task_output_dir self task_id) num_images
     = single_cmd self task_id (task_prompt_file self task_id)
         (task_output_dir self task_id) (fallback_request num_images).
Proof.
  intros (_ & _ & Hid). unfold retry_cmd, task_prompt_file, task_output_dir.
  by rewrite basename_path_join.
Qed.

Lemma result_url_entry (w : World) (output_dir : string) (e : DirEntry) :
  Py.contains "/" (de_name e) = false ->
  result_url w (fst (entry_path output_dir e))
  = base_url w +:+ "/images/" +:+ de_name e
  /\ Py.basename (result_url w (fst (entry_path output_dir e))) = de_name e.
Proof.
  intros Hname. unfold result_url, entry_path. cbn [fst].
  rewrite (basename_path_join _ _ Hname). split; [reflexivity |].
  unfold Py.basename.
  change (base_url w +:+ "/images/" +:+ de_name e)
    with (base_url w +:+ ("/images" +:+ String "/" (de_name e))).
  rewrite <- append_assoc, basename_from_after_slash.
  by apply basename_from_no_slash.
Qed.

(** X8: the URL stored for a collected file whose name has no path
    separator is the base URL, "/images/" and the file name: the task
    directory does not appear in it. *)
Theorem result_url_of_entry (w : World) (output_dir : string) (e : DirEntry) :
  Py.contains "/" (de_name e) = false ->
  result_url w (fst (entry_path output_dir e))
  = base_url w +:+ "/images/" +:+ de_name e
  /\ Py.basename (result_url w (fst (entry_path output_dir e))) = de_name e.
Proof. apply result_url_entry. Qed.

(** ** Download *)

Lemma collect_entries_image_entry output_dir entries (N : Z) pm :
  pm ∈ collect_entries output_dir entries N ->
  image_entry output_dir entries pm.
Proof.
  rewrite collect_entries_slice. unfold Py.slice_to. intros Hpm.
  apply matching_paths_image_entry. rewrite <- (sort_desc_perm snd).
  destruct (0 <=? N); apply elem_of_take in Hpm as (k & Hk & _);
    by eapply list_elem_of_lookup_2.
Qed.

Lemma getitem_nonneg {A} (l : list A) (i : Z) :
  0 <= i -> getitem l i = l !! Z.to_nat i.
Proof.
  intros Hi. unfold getitem.
  destruct (Z.leb_spec 0 i); [reflexivity | lia].
Qed.

(** X9: for a COMPLETED job whose result locations are the URLs of the
    collector's selection from its task directory, [download_result] at
    a valid index looks for the file directly under "generated_images/"
    and answers 404 when it is not there; the path it looks up is never
    the path under the task directory from which the collector took the
    file. *)
Theorem download_looks_outside_task_dir (w : World) (self : Pipeline)
    (path_exists : string -> bool) (s : State) (task_id : string) (j : Job)
    (entries : list DirEntry) (N i : Z) (pm : string * Z) :
  output_dir self = "generated_images" ->
  status_dict s !! task_id = Some j ->
  status j = COMPLETED ->
  result_urls j
  = map (result_url w)
        (map fst (collect_entries (task_output_dir self task_id) entries N)) ->
  (forall e, e ∈ entries -> Py.contains "/" (de_name e) = false) ->
  0 <= i ->
  collect_entries (task_output_dir self task_id) entries N !! Z.to_nat i
  = Some pm ->
  exists e,
    e ∈ entries
    /\ pm = entry_path (task_output_dir self task_id) e
    /\ download_result path_exists s task_id i
       = (if path_exists ("generated_images/" +:+ de_name e) then
            Respond {| fr_path := "generated_images/" +:+ de_name e;
                       fr_media_type := "image/png";
                       fr_filename := task_id +:+ "_image_" +:+ Py.str i
                                      +:+ ".png" |}
          else HTTPException 404 "Image file not found")
    /\ "generated_images/" +:+ de_name e <> fst pm.
Proof.
  intros Hout Hj Hst Hurls Hnames Hi Hpm.
  assert (Hin : pm ∈ collect_entries (task_output_dir self task_id) entries N)
    by (by eapply list_elem_of_lookup_2).
  apply collect_entries_image_entry in Hin as (e & ext & He & _ & _ & ->).
  exists e. split; [exact He |]. split; [reflexivity |].
  pose proof (Hnames e He) as Hname.
  assert (Hurl : result_urls j !! Z.to_nat i
                 = Some (result_url w
                           (fst (entry_path (task_output_dir self task_id) e)))).
  { rewrite Hurls, !list_lookup_fmap. unfold entry_path. by rewrite Hpm. }
  pose proof (lookup_lt_Some _ _ _ Hurl) as Hlen.
  split.
  - unfold download_result. rewrite Hj, Hst.
    rewrite bool_decide_eq_true_2 by reflexivity. cbn [negb].
    rewrite bool_decide_eq_false_2
      by (intros Hnil; rewrite Hnil in Hlen; cbn in Hlen; lia).
    destruct (Z.leb_spec (Z.of_nat (length (result_urls j))) i) as [Hge | _];
      [lia |].
    cbn [orb]. rewrite getitem_nonneg by exact Hi. rewrite Hurl.
    destruct (result_url_entry w (task_output_dir self task_id) e Hname)
      as [_ ->].
    by destruct (path_exists ("generated_images/" +:+ de_name e)).
  - cbn [fst]. unfold task_output_dir, Py.path_join. rewrite Hout.
    intros Heq. apply (f_equal String.length) in Heq.
    rewrite !length_append in Heq. cbn in Heq. lia.
Qed.

(** X10: a negative [image_index] is not rejected: for a COMPLETED job
    with n result locations and -n <= i < 0, [download_result] serves
    the location i counted from the end (and names the download after
    the negative index); for i < -n the [IndexError] of the list access
    escapes instead of a 404. *)
Theorem download_negative_index (path_exists : string -> bool) (s : State)
    (task_id : string) (j : Job) (i : Z) :
  status_dict s !! task_id = Some j ->
  status j = COMPLETED ->
  result_urls j <> [] ->
  i < 0 ->
  let n := Z.of_nat (length (result_urls j)) in
  (i < - n ->
   download_result path_exists s task_id i
   = Escapes (IndexError "list index out of range"))
  /\ (- n <= i ->
      exists url,
        result_urls j !! Z.to_nat (n + i) = Some url
        /\ download_result path_exists s task_id i
           = if path_exists ("generated_images/" +:+ Py.basename url) then
               Respond {| fr_path := "generated_images/" +:+ Py.basename url;
                          fr_media_type := "image/png";
                          fr_filename := task_id +:+ "_image_" +:+ Py.str i
                                         +:+ ".png" |}
             else HTTPException 404 "Image file not found").
Proof.
  intros Hj Hst Hne Hi n.
  assert (Hunfold :
    download_result path_exists s task_id i
    = match getitem (result_urls j) i with
      | None => Escapes (IndexError "list index out of range")
      | Some image_url =>
          if negb (path_exists ("generated_images/" +:+ Py.basename image_url))
          then HTTPException 404 "Image file not found"
          else Respond {| fr_path := "generated_images/"
                                     +:+ Py.basename image_url;
                          fr_media_type := "image/png";
                          fr_filename := task_id +:+ "_image_" +:+ Py.str i
                                         +:+ ".png" |}
      end).
  { unfold download_result. rewrite Hj, Hst.
    rewrite bool_decide_eq_true_2 by reflexivity. cbn [negb].
    rewrite bool_decide_eq_false_2 by exact Hne.
    destruct (Z.leb_spec (Z.of_nat (length (result_urls j))) i); [lia |].
    reflexivity. }
  rewrite Hunfold. unfold getitem.
  destruct (Z.leb_spec 0 i); [lia |]. fold n. split.
  - intros Hlow. destruct (Z.leb_spec 0 (n + i)); [lia | reflexivity].
  - intros Hlow. destruct (Z.leb_spec 0 (n + i)); [| lia].
    destruct (result_urls j !! Z.to_nat (n + i)) as [url |] eqn:Hurl.
    + exists url. split; [reflexivity |].
      by destruct (path_exists ("generated_images/" +:+ Py.basename url)).
    + apply lookup_ge_None in Hurl. unfold n in *. lia.
Qed.

(** ** [process_task] on any job record *)

Lemma running_frame task_id s0 j0 s s' :
  running task_id s0 j0 s ->
  status_dict s' = status_dict s ->
  history s' = history s ->
  task_queue s' = task_queue s ->
  running task_id s0 j0 s'.
Proof.
  intros (j & writes & H) Hsd Hh Hq. exists j, writes.
  by rewrite Hsd, Hh, Hq.
Qed.

Lemma running_write task_id s0 j0 s j (f : Job -> Job) :
  running task_id s0 j0 s ->
  status_dict s !! task_id = Some j ->
  request (f j) = request j ->
  0 <= progress (f j) <= 95 ->
  running task_id s0 j0 (with_job task_id (f j) s).
Proof.
  intros (j' & writes & Hj' & Hreq & Hp & Hh & Hne & Hw & Hother & Hq) Hj Hfreq Hfp.
  rewrite Hj in Hj'. injection Hj' as <-.
  exists (f j), (writes ++ [(task_id, f j)])%list. cbn.
  rewrite lookup_insert_eq, Hh, <- app_assoc.
  split; [reflexivity |]. split; [congruence |]. split; [exact Hfp |].
  split; [reflexivity |]. split; [by destruct writes |].
  split.
  { apply Forall_app. split; [exact Hw |].
    constructor; [| constructor]. cbn. split; [reflexivity | lia]. }
  split; [| exact Hq].
  intros other Hne'. rewrite lookup_insert_ne by congruence. by apply Hother.
Qed.

Lemma running_store task_id s0 j0 s v :
  running task_id s0 j0 s -> 0 <= v ->
  running task_id s0 j0 (store_progress task_id s v).
Proof.
  intros H Hv. pose proof H as (j & _ & Hj & _).
  rewrite (store_progress_present _ _ _ j Hj).
  apply (running_write task_id s0 j0 s j (set_progress (Z.min v 95)));
    [exact H | exact Hj | reflexivity | cbn; lia].
Qed.

Lemma running_settle task_id s0 j0 s (f : Job -> Job) r :
  running task_id s0 j0 s ->
  (r = Ok tt \/ r = Raise KeyboardInterrupt) ->
  (forall j, request (f j) = request j
             /\ (progress (f j) = progress j \/ progress (f j) = 100)
             /\ (status (f j) = COMPLETED \/ status (f j) = FAILED)
             /\ (r = Raise KeyboardInterrupt ->
                 status (f j) = FAILED /\ error (f j) = "Task interrupted")) ->
  wp (update_job task_id f) s
     (fun r1 s' => r1 = Ok tt /\ settled task_id s0 j0 r s').
Proof.
  intros (j & writes & Hj & Hreq & Hp & Hh & Hne & Hw & Hother & Hq) Hr Hf.
  destruct (Hf j) as (Hfreq & Hfp & Hfst & Hfint).
  eapply wp_update_job_present; [exact Hj |].
  split; [reflexivity |]. split; [exact Hr |]. cbn.
  split; [exact Hq |]. split.
  { intros other Hne'. rewrite lookup_insert_ne by congruence.
    by apply Hother. }
  exists (f j), (writes ++ [(task_id, f j)])%list.
  rewrite lookup_insert_eq, Hh, <- app_assoc.
  split; [reflexivity |]. split; [congruence |]. split; [exact Hfst |].
  split; [exact Hfint |]. split; [reflexivity |].
  split; [by destruct writes |].
  apply Forall_app. split; [exact Hw |].
  constructor; [| constructor]. cbn. split; [reflexivity | lia].
Qed.

(** [process_task] on a record that is in the job table. *)
Lemma process_task_settles (w : World) (self : Pipeline) (fuel : nat)
    (task_id : string) (request : ImageGenerationRequest) (s0 : State)
    (j0 : Job) :
  (2 <= fuel)%nat ->
  status_dict s0 !! task_id = Some j0 ->
  0 <= progress j0 <= 100 ->
  wp (process_task w self fuel task_id request) s0
     (settled task_id s0 j0).
Proof.
  intros Hfuel Hj0 Hp0. unfold process_task.
  set (j1 := set_status PROCESSING j0).
  set (j2 := set_progress 10 j1).
  set (s1 := with_job task_id j1 s0).
  set (s2 := with_job task_id j2 s1).
  assert (H2 : running task_id s0 j0 s2).
  { exists j2, [(task_id, j1); (task_id, j2)].
    unfold s2, s1. cbn. rewrite lookup_insert_eq, <- app_assoc.
    split; [reflexivity |]. split; [reflexivity |]. split; [lia |].
    split; [reflexivity |]. split; [done |].
    split; [repeat constructor; cbn; lia |].
    split; [| reflexivity].
    intros other Hne. by rewrite !lookup_insert_ne by congruence. }
  assert (H3 : running task_id s0 j0
                 (store_progress task_id (store_progress task_id s2 10) 20)).
  { apply running_store; [apply running_store; [exact H2 | lia] | lia]. }
  wp_step. wp_step.
  eapply wp_update_job_present; [exact Hj0 |]. cbn beta match.
  wp_step. eapply wp_update_job_present; [apply lookup_insert_eq |].
  cbn beta match. wp_step.
  eapply wp_mono.
  { apply (wp_generate_images_inv w self task_id
             (running task_id s0 j0)
             (fun p s => running task_id s0 j0 s /\ 30 <= p <= 85)).
    - intros s c H. by eapply running_frame.
    - intros s d H. by eapply running_frame.
    - intros s level msg H. by eapply running_frame.
    - intros s cmd env H. split; [by eapply running_frame | lia].
    - intros p s [H Hp]. split; [| unfold advance; lia].
      apply running_store; [exact H | unfold advance; lia].
    - by intros p s [H _].
    - exact Hfuel.
    - exact H3. }
  intros r s' Hr. destruct r as [paths | e]; cbn beta match.
  - destruct Hr as [(s'' & HI & ->) _].
    eapply wp_mono.
    { apply (running_settle task_id s0 j0 _ _ (Ok tt));
        [apply running_store; [exact HI | lia] | by left |].
      intros j. cbn. repeat split; try done; [by right | by left]. }
    intros r1 s1' [-> Hpost]. exact Hpost.
  - assert (Hfail : forall msg st,
              running task_id s0 j0 st ->
              wp (update_job task_id
                    (fun j => set_error msg (set_status FAILED j))) st
                 (fun r1 s1' => r1 = Ok tt
                                /\ settled task_id s0 j0 (Ok tt) s1')).
    { intros msg st Hst.
      apply (running_settle task_id s0 j0 _ _ (Ok tt)); [exact Hst | by left |].
      intros j. cbn. repeat split; try done; [by left | by right]. }
    destruct e; cbn beta match;
      try (wp_step; wp_step;
           eapply wp_mono;
             [apply Hfail; by eapply running_frame |];
           intros r1 s1' [-> Hpost]; exact Hpost).
    wp_step. eapply wp_mono.
    { apply (running_settle task_id s0 j0 _ _ (Raise KeyboardInterrupt));
        [exact Hr | by right |].
      intros j. cbn. repeat split; try done; [by left | by right]. }
    intros r1 s1' [-> Hpost]. cbn beta match. wp_step. exact Hpost.
Qed.

Lemma process_task_missing (w : World) (self : Pipeline) (fuel : nat)
    (task_id : string) (req : ImageGenerationRequest) (s : State) :
  status_dict s !! task_id = None ->
  exists s',
    process_task w self fuel task_id req s = Some (Raise (KeyError task_id), s')
    /\ status_dict s' = status_dict s
    /\ history s' = history s
    /\ popen_calls s' = popen_calls s
    /\ task_queue s' = task_queue s
    /\ cwd s' = cwd s
    /\ length (log s') = S (length (log s)).
Proof.
  intros Hnone. eexists. split.
  - unfold process_task, try_except, bind at 1, update_job at 1.
    rewrite Hnone. cbn beta match.
    unfold bind, logger, modify, update_job. cbn [status_dict with_log].
    rewrite Hnone. reflexivity.
  - cbn. rewrite length_app. cbn. repeat split; lia.
Qed.

(** X11: [process_task] on an id that is not in the job table launches
    no process and changes no record, no queue entry and no working
    directory; its own handler fails on the same missing key, so it
    raises [KeyError] to its caller, for any recursion bound, after one
    log record. *)
Theorem process_task_unknown_id (w : World) (self : Pipeline) (fuel : nat)
    (task_id : string) (req : ImageGenerationRequest) (s : State) :
  status_dict s !! task_id = None ->
  exists s',
    process_task w self fuel task_id req s = Some (Raise (KeyError task_id), s')
    /\ status_dict s' = status_dict s
    /\ history s' = history s
    /\ popen_calls s' = popen_calls s
    /\ task_queue s' = task_queue s
    /\ cwd s' = cwd s
    /\ length (log s') = S (length (log s)).
Proof. apply process_task_missing. Qed.

(** X12: when the output of every child ends (it exits, the read is
    interrupted or fails to decode, or the launch fails: the read loop
    has no timeout of its own), [process_task] on a record that is in
    the job table touches that record only: every other record and the
    queue are as before, and the record keeps its request.  No exception
    of the job escapes: the call returns normally or passes on a
    [KeyboardInterrupt], and either way the record is then COMPLETED or
    FAILED, never PENDING or PROCESSING. *)
Theorem process_task_isolation (w : World) (self : Pipeline) (fuel : nat)
    (task_id : string) (req : ImageGenerationRequest) (s : State)
    (j0 : Job) :
  (2 <= fuel)%nat ->
  status_dict s !! task_id = Some j0 ->
  0 <= progress j0 <= 100 ->
  wp (process_task w self fuel task_id req) s
     (fun r s' =>
        (r = Ok tt \/ r = Raise KeyboardInterrupt)
        /\ task_queue s' = task_queue s
        /\ (forall other, other <> task_id ->
                          status_dict s' !! other = status_dict s !! other)
        /\ exists j',
             status_dict s' !! task_id = Some j'
             /\ request j' = request j0
             /\ (status j' = COMPLETED \/ status j' = FAILED)
             /\ (r = Raise KeyboardInterrupt ->
                 status j' = FAILED /\ error j' = "Task interrupted")).
Proof.
  intros Hfuel Hj0 Hp0.
  eapply wp_mono; [by apply (process_task_settles w self fuel task_id req s j0) |].
  intros r s' (Hr & Hq & Hother & j' & writes & Hj' & Hreq & Hst & Hint & _).
  split; [exact Hr |]. split; [exact Hq |]. split; [exact Hother |].
  by exists j'.
Qed.

(** X13: every progress value [process_task] writes into the job table
    lies between 0 and 100, whatever the processes print and however
    they end, and the call writes at least once. *)
Theorem progress_is_a_percentage (w : World) (self : Pipeline) (fuel : nat)
    (task_id : string) (req : ImageGenerationRequest) (s : State)
    (j0 : Job) :
  (2 <= fuel)%nat ->
  status_dict s !! task_id = Some j0 ->
  0 <= progress j0 <= 100 ->
  wp (process_task w self fuel task_id req) s
     (fun _ s' =>
        exists writes,
          history s' = (history s ++ writes)%list
          /\ writes <> []
          /\ Forall (fun x => fst x = task_id
                              /\ 0 <= progress (snd x) <= 100) writes).
Proof.
  intros Hfuel Hj0 Hp0.
  eapply wp_mono; [by apply (process_task_settles w self fuel task_id req s j0) |].
  intros r s' (_ & _ & _ & j' & writes & _ & _ & _ & _ & Hh & Hne & Hw).
  by exists writes.
Qed.

(** ** Worker loop *)

Lemma worker_round_settles (w : World) (self : Pipeline) (fuel : nat)
    (task_id : string) (req : ImageGenerationRequest)
    (rest : list (string * ImageGenerationRequest)) (s : State) (j0 : Job) :
  (2 <= fuel)%nat ->
  task_queue s = (task_id, req) :: rest ->
  status_dict s !! task_id = Some j0 ->
  0 <= progress j0 <= 100 ->
  wp (task_worker_round w self fuel) s
     (settled task_id (with_task_queue rest s) j0).
Proof.
  intros Hfuel Hq Hj0 Hp0. unfold task_worker_round.
  wp_step. wp_step. wp_step. rewrite Hq. wp_step. wp_step.
  eapply wp_mono;
    [by apply (process_task_settles w self fuel task_id req
                 (with_task_queue rest s) j0) |].
  intros r s' Hpost. pose proof Hpost as ([-> | ->] & _); [exact Hpost |].
  exact Hpost.
Qed.

Lemma worker_round_idle (w : World) (self : Pipeline) (fuel : nat)
    (s : State) :
  task_queue s = [] -> task_worker_round w self fuel s = Some (Ok tt, s).
Proof.
  intros Hq. unfold task_worker_round, try_except, bind, gets. by rewrite Hq.
Qed.

Lemma worker_round_missing (w : World) (self : Pipeline) (fuel : nat)
    (task_id : string) (req : ImageGenerationRequest)
    (rest : list (string * ImageGenerationRequest)) (s : State) :
  task_queue s = (task_id, req) :: rest ->
  status_dict s !! task_id = None ->
  wp (task_worker_round w self fuel) s
     (fun r s' =>
        r = Ok tt /\ task_queue s' = rest
        /\ status_dict s' = status_dict s
        /\ popen_calls s' = popen_calls s).
Proof.
  intros Hq Hnone. unfold task_worker_round.
  wp_step. wp_step. wp_step. rewrite Hq. wp_step. wp_step.
  destruct (process_task_missing w self fuel task_id req
              (with_task_queue rest s) Hnone)
    as (s' & Hrun & Hsd & _ & Hpc & Hq' & _).
  exists (Raise (KeyError task_id)), s'. split; [exact Hrun |].
  cbn [is_Exception]. unfold logger. wp_step.
  cbn [task_queue status_dict popen_calls with_log with_task_queue] in *.
  by rewrite Hsd, Hpc, Hq'.
Qed.

(** X14: one round of the worker.  On an empty queue it changes
    nothing.  On a queue whose head is a job of the table it removes the
    head and nothing else from the queue, leaves every other record as
    it is, and ends with the head's record COMPLETED or FAILED; the only
    exception it lets out is [KeyboardInterrupt].  On a head whose id is
    not in the table it removes the head, logs, launches nothing and
    returns normally. *)
Theorem worker_round_contract (w : World) (self : Pipeline) (fuel : nat)
    (s : State) :
  (task_queue s = [] -> task_worker_round w self fuel s = Some (Ok tt, s))
  /\ (forall task_id req rest j0,
        (2 <= fuel)%nat ->
        task_queue s = (task_id, req) :: rest ->
        status_dict s !! task_id = Some j0 ->
        0 <= progress j0 <= 100 ->
        wp (task_worker_round w self fuel) s
           (fun r s' =>
              (r = Ok tt \/ r = Raise KeyboardInterrupt)
              /\ task_queue s' = rest
              /\ (forall other, other <> task_id ->
                                status_dict s' !! other = status_dict s !! other)
              /\ exists j', status_dict s' !! task_id = Some j'
                            /\ (status j' = COMPLETED \/ status j' = FAILED)))
  /\ (forall task_id req rest,
        task_queue s = (task_id, req) :: rest ->
        status_dict s !! task_id = None ->
        wp (task_worker_round w self fuel) s
           (fun r s' =>
              r = Ok tt /\ task_queue s' = rest
              /\ status_dict s' = status_dict s
              /\ popen_calls s' = popen_calls s)).
Proof.
  split; [| split].
  - apply worker_round_idle.
  - intros task_id req rest j0 Hfuel Hq Hj0 Hp0.
    eapply wp_mono; [by eapply worker_round_settles |].
    intros r s' (Hr & Hq' & Hother & j' & writes & Hj' & _ & Hst & _).
    split; [exact Hr |]. split; [exact Hq' |]. split; [exact Hother |].
    by exists j'.
  - intros task_id req rest. apply worker_round_missing.
Qed.

Lemma task_worker_drains (w : World) (self : Pipeline) (fuel : nat)
    (items : list (string * ImageGenerationRequest)) :
  forall s,
    (2 <= fuel)%nat ->
    NoDup (map fst items) ->
    task_queue s = items ->
    (forall task_id req, (task_id, req) ∈ items ->
       exists j, status_dict s !! task_id = Some j /\ 0 <= progress j <= 100) ->
    wp (task_worker w self fuel (length items)) s
       (fun r s' =>
          r = Raise KeyboardInterrupt
          \/ (r = Ok tt
              /\ task_queue s' = []
              /\ (forall task_id req, (task_id, req) ∈ items ->
                    exists j j', status_dict s !! task_id = Some j
                                 /\ status_dict s' !! task_id = Some j'
                                 /\ request j' = request j
                                 /\ (status j' = COMPLETED
                                     \/ status j' = FAILED))
              /\ (forall other, other ∉ map fst items ->
                                status_dict s' !! other = status_dict s !! other)
              /\ exists blocks,
                   history s' = (history s ++ concat blocks)%list
                   /\ Forall2 (fun item block =>
                                 block <> []
                                 /\ Forall (fun x => fst x = fst item) block)
                        items blocks)).
Proof.
  induction items as [| [task_id req] rest IH];
    intros s Hfuel Hnodup Hq Hjobs; cbn [length task_worker].
  - wp_step. right. split; [reflexivity |]. split; [exact Hq |].
    split; [intros ? ? H; by apply elem_of_nil in H |].
    split; [reflexivity |].
    exists []. cbn. rewrite app_nil_r. split; [reflexivity | constructor].
  - cbn [map] in Hnodup. apply NoDup_cons in Hnodup as [Hfresh Hnodup].
    destruct (Hjobs task_id req) as (j0 & Hj0 & Hp0); [left |].
    wp_step. eapply wp_mono; [by eapply worker_round_settles |].
    intros r s1 (Hr & Hq1 & Hother1 & j1 & writes & Hj1 & Hreq1 & Hst1 & _
                 & Hh1 & Hne1 & Hw1).
    cbn [task_queue with_task_queue status_dict history] in Hq1, Hother1, Hh1.
    destruct Hr as [-> | ->]; [| by left]. cbn beta match.
    eapply wp_mono.
    { apply (IH s1 Hfuel Hnodup Hq1).
      intros id' req' Hin.
      assert (id' <> task_id).
      { intros ->. apply Hfresh. apply list_elem_of_fmap.
        by exists (task_id, req'). }
      rewrite Hother1 by done. apply (Hjobs id' req'). by right. }
    intros r s2 [-> | (-> & Hq2 & Hdone & Hother2 & blocks & Hh2 & Hblocks)];
      [by left | right].
    split; [reflexivity |]. split; [exact Hq2 |]. split.
    { intros id' req' Hin. apply elem_of_cons in Hin as [[= -> ->] | Hin].
      - exists j0, j1. by rewrite Hother2 by exact Hfresh.
      - destruct (Hdone id' req' Hin) as (j & j' & Hj & Hj' & Hreq & Hst).
        exists j, j'. split; [| done].
        rewrite <- Hother1; [exact Hj |].
        intros ->. apply Hfresh. apply list_elem_of_fmap.
        by exists (task_id, req'). }
    split.
    { intros other Hnot. cbn [map] in Hnot. apply not_elem_of_cons in Hnot
        as [Hne Hnot].
      rewrite Hother2 by exact Hnot. by apply Hother1. }
    exists (writes :: blocks). cbn [concat].
    rewrite Hh2, Hh1, <- app_assoc. split; [reflexivity |].
    constructor; [| exact Hblocks]. split; [exact Hne1 |].
    eapply Forall_impl; [exact Hw1 |]. by intros x [Hx _].
Qed.

(** X15: the worker drains its queue in order.  For a queue of jobs of
    the table with distinct ids, as many rounds as the queue is long
    either are cut short by a [KeyboardInterrupt] or leave the queue
    empty and every queued job COMPLETED or FAILED with the request it
    had, with no other record touched; the writes made to the table then fall into one block per
    job, in queue order, so the processing of two jobs never
    interleaves. *)
Theorem worker_drains_queue (w : World) (self : Pipeline) (fuel : nat)
    (items : list (string * ImageGenerationRequest)) :
  forall s,
    (2 <= fuel)%nat ->
    NoDup (map fst items) ->
    task_queue s = items ->
    (forall task_id req, (task_id, req) ∈ items ->
       exists j, status_dict s !! task_id = Some j /\ 0 <= progress j <= 100) ->
    wp (task_worker w self fuel (length items)) s
       (fun r s' =>
          r = Raise KeyboardInterrupt
          \/ (r = Ok tt
              /\ task_queue s' = []
              /\ (forall task_id req, (task_id, req) ∈ items ->
                    exists j j', status_dict s !! task_id = Some j
                                 /\ status_dict s' !! task_id = Some j'
                                 /\ request j' = request j
                                 /\ (status j' = COMPLETED
                                     \/ status j' = FAILED))
              /\ (forall other, other ∉ map fst items ->
                                status_dict s' !! other = status_dict s !! other)
              /\ exists blocks,
                   history s' = (history s ++ concat blocks)%list
                   /\ Forall2 (fun item block =>
                                 block <> []
                                 /\ Forall (fun x => fst x = fst item) block)
                        items blocks)).
Proof. apply task_worker_drains. Qed.


(** ** Runs that are not retried, and the device count *)


Lemma device_count_store task_id s v :
  device_count (store_progress task_id s v) = device_count s.
Proof. unfold store_progress. by destruct (status_dict s !! task_id). Qed.

Lemma wp_execute_inference_device_count (w : World) (self : Pipeline)
    task_id (fuel : nat) :
  forall cmd env out n s,
    (leaf_cmd cmd /\ (1 <= fuel)%nat) \/ (2 <= fuel)%nat ->
    wp (_execute_inference w self fuel cmd env
          (Some (update_progress task_id)) out n) s
       (fun _ s' => device_count s' = device_count s).
Proof.
  induction fuel as [| fuel' IH]; intros cmd env out n s Hfuel; [lia |].
  cbn [_execute_inference]. wp_step. wp_step. wp_step.
  eapply wp_mono with (Q := fun _ s' => device_count s' = device_count s).
  2:{ intros r s' Hd. apply wp_chdir; intros; by destruct r. }
  wp_step. apply wp_chdir; [intros target _ | done].
  cbn beta match. wp_step. apply wp_popen.
  assert (Hwait : forall process,
    wp (wait process (Some (update_progress task_id)))
       (with_popen cmd env (with_cwd target s))
       (fun r s' =>
          device_count s' = device_count s
          /\ match process with
             | Exited lines return_code =>
                 r = Ok (return_code, captured lines)
             | Interrupted _ => r = Raise KeyboardInterrupt
             | ReadFailed _ msg => r = Raise (UnicodeDecodeError msg)
             | LaunchFailed msg => r = Raise (OSError msg)
             end)).
  { intros process.
    apply (wp_wait_inv task_id
             (fun s' => device_count s' = device_count s)
             (fun _ s' => device_count s' = device_count s));
      [| done | done].
    intros p s2 Hd. by rewrite device_count_store. }
  destruct (spawn w _ cmd env) as [lines rc | lines | lines msg | msg];
    [| | | done].
  3:{ wp_step. eapply wp_mono; [apply Hwait |]. by intros r s' [Hd ->]. }
  2:{ wp_step. eapply wp_mono; [apply Hwait |]. by intros r s' [Hd ->]. }
  wp_step. eapply wp_mono; [apply Hwait |].
  intros r s' [Hd ->]. cbn beta match. cbn [fst snd].
  destruct (negb (rc =? 0)); [| unfold _collect_images; by wp_steps].
  wp_step. wp_step. wp_step.
  destruct (device_count s' >? 1); [| by wp_steps].
  wp_step. unfold cmd0. destruct cmd as [| c rest]; [by wp_step |].
  wp_steps. destruct (Py.contains "torchrun" c) eqn:Htorch; [| by wp_steps].
  wp_steps. eapply wp_mono.
  { apply IH. left. split; [reflexivity |].
    destruct Hfuel as [[Hleaf _] | Hfuel]; [| lia].
    cbn in Hleaf. congruence. }
  intros r s'' _. cbn beta. wp_step. by destruct r.
Qed.

(** X17: the pipeline's [device_count] attribute, which the fallback
    path sets to 1 for the time of the retry, is back at its value when
    [_execute_inference] ends, and so when [generate_images] and
    [process_task] end: on the normal return, on either kind of failed
    run, on a failed launch, on an interrupt and when [os.chdir]
    raises. *)
Theorem device_count_restored (w : World) (self : Pipeline) (fuel : nat)
    (task_id : string) (req : ImageGenerationRequest) (s : State) :
  (2 <= fuel)%nat ->
  (forall cmd env out n,
     wp (_execute_inference w self fuel cmd env
           (Some (update_progress task_id)) out n) s
        (fun _ s' => device_count s' = device_count s))
  /\ wp (generate_images w self fuel task_id req
           (Some (update_progress task_id))) s
        (fun _ s' => device_count s' = device_count s)
  /\ wp (process_task w self fuel task_id req) s
        (fun _ s' => device_count s' = device_count s).
Proof.
  intros Hfuel.
  assert (Hgen : forall s0,
    wp (generate_images w self fuel task_id req
          (Some (update_progress task_id))) s0
       (fun _ s' => device_count s' = device_count s0)).
  { intros s0. unfold generate_images. wp_step. wp_step. wp_step. wp_step.
    wp_step. wp_step. wp_step. wp_step. wp_step.
    eapply wp_mono.
    { instantiate (1 := fun _ s' => device_count s' = device_count s0).
      destruct (device_count _ >? 1).
      - unfold _run_distributed_inference. wp_step. wp_step.
        eapply wp_mono;
          [by apply wp_execute_inference_device_count; right |].
        intros r s' ->. by rewrite !device_count_store.
      - unfold _run_single_inference.
        eapply wp_mono;
          [by apply wp_execute_inference_device_count; right |].
        intros r s' ->. by rewrite !device_count_store. }
    intros r s' Hd. destruct r as [paths | e]; cbn beta match.
    - wp_steps. by rewrite device_count_store.
    - destruct (is_Exception e); [| exact Hd]. by wp_steps. }
  split; [| split].
  - intros cmd env out n. by apply wp_execute_inference_device_count; right.
  - apply Hgen.
  - assert (Hupd : forall (f : Job -> Job) s1
                     (Q : Result unit -> State -> Prop),
      (forall r1 s2, device_count s2 = device_count s1 -> Q r1 s2) ->
      wp (update_job task_id f) s1 Q).
    { intros f s1 Q HQ. unfold wp, update_job.
      destruct (status_dict s1 !! task_id); eexists _, _;
        (split; [reflexivity | by apply HQ]). }
    unfold process_task. apply wp_try_except.
    eapply wp_mono with (Q := fun _ s' => device_count s' = device_count s).
    { wp_step. apply Hupd. intros [[] | e] s1 H1; [| exact H1].
      wp_step. apply Hupd. intros [[] | e] s2 H2; [| congruence].
      wp_step. eapply wp_mono; [apply Hgen |].
      intros [paths | e] s3 H3; [| congruence].
      apply Hupd. intros r4 s4 H4. congruence. }
    intros r s' Hd. destruct r as [[] | e]; [exact Hd |].
    destruct e; cbn beta match;
      try (wp_step; wp_step; apply Hupd; intros r1 s2 H2;
           cbn [device_count with_log] in H2; congruence).
    wp_step. apply Hupd. intros [[] | e1] s2 H2; [wp_step |]; congruence.
Qed.

(** ** The read loop without a callback *)

Lemma final_progress_closed_form (lines : list string) :
  forall p, p <= 85 ->
    final_progress p lines
    = Z.min (p + 2 * Z.of_nat (progress_line_count lines)) 85.
Proof.
  induction lines as [| output rest IH]; intros p Hp.
  - cbn. lia.
  - rewrite final_progress_cons, progress_line_count_cons.
    destruct (String.eqb output ""); [by apply IH |].
    destruct (is_progress_line (Py.strip output)); [| by apply IH].
    rewrite IH by (unfold advance; lia). unfold advance. lia.
Qed.

Lemma read_lines_no_callback (lines : list string) :
  forall p acc s,
    read_lines None lines p acc s
    = Some (Ok (final_progress p lines, (acc ++ captured lines)%list), s).
Proof.
  induction lines as [| output rest IH]; intros p acc s.
  - cbn. by rewrite app_nil_r.
  - rewrite captured_cons, final_progress_cons. cbn [read_lines].
    destruct (String.eqb output ""); [apply IH |].
    destruct (is_progress_line (Py.strip output)).
    + unfold bind, call, ret. by rewrite IH, <- app_assoc.
    + by rewrite IH, <- app_assoc.
Qed.

(** X18: without a progress callback the read loop of
    [_execute_inference] changes nothing of the state; it still keeps
    every non-empty line, stripped of the white space of [str.strip] at
    both ends, and its counter ends at min(30 + 2k, 85) for k
    progress-indicating lines. *)
Theorem read_loop_without_callback (lines : list string) (s : State) :
  read_lines None lines 30 [] s
  = Some (Ok (Z.min (30 + 2 * Z.of_nat (progress_line_count lines)) 85,
              captured lines), s).
Proof.
  rewrite read_lines_no_callback, final_progress_closed_form by lia.
  reflexivity.
Qed.

(** ** Submitting, and the counters of [health] *)

Lemma active_tasks_zero (s : State) :
  active_tasks (health s) = 0%nat
  <-> forall k j, status_dict s !! k = Some j -> status j <> PROCESSING.
Proof.
  unfold health. cbn [active_tasks].
  rewrite map_size_empty_iff, map_empty_filter. reflexivity.
Qed.

(** X19: [submit] with an id that is not in the job table adds one to
    the total and to the queue length that [health] reports and leaves
    its count of active tasks as it is; the new record is PENDING at
    progress 0 and the new queue entry is the last one. *)
Theorem submit_counts (task_id : string) (req : ImageGenerationRequest)
    (s : State) :
  status_dict s !! task_id = None ->
  exists s',
    submit task_id req s = Some (Ok tt, s')
    /\ total_tasks (health s') = S (total_tasks (health s))
    /\ queue_length (health s') = S (queue_length (health s))
    /\ active_tasks (health s') = active_tasks (health s)
    /\ status_dict s' !! task_id = Some (new_job req)
    /\ last (task_queue s') = Some (task_id, req).
Proof.
  intros Hnone. eexists. split; [reflexivity |].
  cbn [health total_tasks queue_length active_tasks status_dict task_queue
       with_job with_task_queue].
  split; [by apply map_size_insert_None |].
  split; [rewrite length_app; cbn; lia |].
  split.
  { rewrite map_filter_insert_not'; [reflexivity | by cbn |].
    intros y Hy. congruence. }
  split; [apply lookup_insert_eq | apply last_snoc].
Qed.

(** X20: the worker leaves no job in state PROCESSING behind: when
    [health] counts no active task before a round of the worker, it
    counts none after it, whether the round found the queue empty,
    processed a job to its end, was interrupted, or met an id that is
    not in the table. *)
Theorem no_job_left_processing (w : World) (self : Pipeline) (fuel : nat)
    (s : State) :
  (2 <= fuel)%nat ->
  active_tasks (health s) = 0%nat ->
  (forall task_id req rest j,
     task_queue s = (task_id, req) :: rest ->
     status_dict s !! task_id = Some j -> 0 <= progress j <= 100) ->
  wp (task_worker_round w self fuel) s
     (fun _ s' => active_tasks (health s') = 0%nat).
Proof.
  intros Hfuel Hidle Hrange.
  destruct (task_queue s) as [| [task_id req] rest] eqn:Hq.
  - exists (Ok tt), s. split; [by apply worker_round_idle | exact Hidle].
  - destruct (status_dict s !! task_id) as [j0 |] eqn:Hj0.
    + eapply wp_mono;
        [eapply worker_round_settles; [exact Hfuel | exact Hq | exact Hj0 |];
         by eapply Hrange |].
      intros r s' (_ & _ & Hother & j' & writes & Hj' & _ & Hst & _).
      cbn [status_dict with_task_queue] in Hother.
      apply active_tasks_zero. intros k j Hk.
      destruct (decide (k = task_id)) as [-> | Hne].
      * assert (j = j') as -> by congruence.
        destruct Hst as [-> | ->]; discriminate.
      * rewrite Hother in Hk by exact Hne.
        by eapply active_tasks_zero.
    + eapply wp_mono; [by eapply worker_round_missing |].
      intros r s' (_ & _ & Hsd & _).
      apply active_tasks_zero. rewrite Hsd. by apply active_tasks_zero.
Qed.





(** ** Construction of the pipeline *)

Example candidate_paths :
  parent "/srv/app" = "/srv" /\ parent "/srv" = "/" /\ parent "/" = "/"
  /\ possible_paths "/root" "/srv/app"
     = [ "/workspace/HiDream-I1"; "/data/HiDream-I1"; "/root/HiDream-I1";
         "/srv/app/HiDream-I1"; "/srv/HiDream-I1"; "/srv/app" ].
Proof. repeat split; reflexivity. Qed.

Lemma filter_first {A} (P : A -> bool) (l : list A) (x : A) (rest : list A) :
  filter (fun a => P a = true) l = x :: rest ->
  exists k, l !! k = Some x /\ P x = true
            /\ forall i q, (i < k)%nat -> l !! i = Some q -> P q = false.
Proof.
  induction l as [| a l IH]; intros Hf; [discriminate |].
  rewrite filter_cons in Hf. case_decide as Ha.
  - injection Hf as -> _. exists 0%nat. split; [reflexivity |].
    split; [exact Ha |]. intros i q Hi. lia.
  - destruct (IH Hf) as (k & Hk & HP & Hbefore). exists (S k).
    split; [exact Hk |]. split; [exact HP |].
    intros [| i] q Hi Hq.
    + injection Hq as <-. by destruct (P a).
    + apply (Hbefore i); [lia | exact Hq].
Qed.

Lemma filter_none {A} (P : A -> bool) (l : list A) :
  filter (fun a => P a = true) l = [] ->
  forall q, q ∈ l -> P q = false.
Proof.
  intros Hf q Hq. destruct (P q) eqn:HP; [| reflexivity].
  assert (Hin : q ∈ filter (fun a => P a = true) l)
    by (by apply list_elem_of_filter).
  rewrite Hf in Hin. by apply elem_of_nil in Hin.
Qed.

(** X23: [_detect_project_path] returns the value of
    HIDREAM_PROJECT_PATH whenever the variable is set, without looking
    at the file system.  Otherwise it returns the first of its six
    candidates, in their order, that exists and holds an [inference.py],
    every earlier candidate failing that test; and it raises
    [FileNotFoundError] when no candidate passes. *)
Theorem project_path_detection (w : World) (h : Host) (cwd : string) :
  match environ w !! "HIDREAM_PROJECT_PATH" with
  | Some path => _detect_project_path w h cwd = inr path
  | None =>
      let candidates := possible_paths (host_home h) cwd in
      match _detect_project_path w h cwd with
      | inr path =>
          exists k,
            candidates !! k = Some path /\ is_project h path = true
            /\ forall i q, (i < k)%nat -> candidates !! i = Some q ->
                           is_project h q = false
      | inl e =>
          e = FileNotFoundError "HiDream-I1 project not found"
          /\ forall q, q ∈ candidates -> is_project h q = false
      end
  end.
Proof.
  unfold _detect_project_path.
  destruct (environ w !! "HIDREAM_PROJECT_PATH") as [path |];
    [reflexivity |].
  cbn zeta.
  destruct (filter _ (possible_paths (host_home h) cwd))
    as [| path rest] eqn:Hf.
  - split; [reflexivity |]. by apply filter_none.
  - by eapply filter_first.
Qed.

(** X24: the constructor, when [Path.home()], [Path.cwd()] and
    [Path.exists] answer, ends in one of four ways, tried in this order:
    with [FileNotFoundError] when no project path is detected, whatever
    the device count; with [ZeroDivisionError] when the device count is
    0, before the output directory is created; with the [OSError] of
    [mkdir] when "generated_images" cannot be created; and otherwise
    with a pipeline that has the detected project path, the planner's
    pair and the output directory "generated_images", for every device
    count other than 0, negative ones included. *)
Theorem init_outcomes (w : World) (h : Host) (cwd : string)
    (model : string) (extra : string) (d : Z) :
  match init w h cwd model extra d with
  | inl (FileNotFoundError msg) =>
      _detect_project_path w h cwd = inl (FileNotFoundError msg)
  | inl ZeroDivisionError =>
      d = 0 /\ exists path, _detect_project_path w h cwd = inr path
  | inl (MkdirError msg) =>
      d <> 0
      /\ (exists path, _detect_project_path w h cwd = inr path)
      /\ host_mkdir h "generated_images" = Some msg
  | inr self =>
      d <> 0
      /\ host_mkdir h "generated_images" = None
      /\ _detect_project_path w h cwd = inr (project_path self)
      /\ _calculate_distributed_config d = Some (tp_size self, ep_size self)
      /\ model_path self = model /\ extra_model_path self = extra
      /\ output_dir self = "generated_images"
  end.
Proof.
  unfold init.
  assert (Hdetect : forall e, _detect_project_path w h cwd = inl e ->
                              exists msg, e = FileNotFoundError msg).
  { unfold _detect_project_path. intros e.
    destruct (environ w !! "HIDREAM_PROJECT_PATH"); [discriminate |].
    destruct (filter _ _); [| discriminate]. intros [= <-]. eauto. }
  assert (Hzero : forall tp ep,
            _calculate_distributed_config d = Some (tp, ep) -> d <> 0).
  { intros tp ep Hcfg ->. discriminate. }
  destruct (_detect_project_path w h cwd) as [e | path] eqn:Hpath.
  - destruct (Hdetect e eq_refl) as [msg ->]. reflexivity.
  - destruct (_calculate_distributed_config d) as [[tp ep] |] eqn:Hcfg.
    + destruct (host_mkdir h "generated_images") as [msg |] eqn:Hmk.
      * split; [by eapply Hzero |]. split; [by eauto | reflexivity].
      * cbn. split; [by eapply Hzero |]. by repeat split.
    + split; [| by eauto].
      unfold _calculate_distributed_config, floordiv in Hcfg.
      repeat (destruct (_ =? _) eqn:? in Hcfg; try discriminate).
      lia.
Qed.

(** ** The download endpoint and the environment of the child *)

(** X25: for a COMPLETED job and an index that is not negative,
    [download_result] answers 404 "Image not found" exactly when the
    index is not below the number of result locations (an empty list
    included), lets no exception escape, and otherwise looks for the
    file named by the last component of the location at that index. *)
Theorem download_index_contract (path_exists : string -> bool) (s : State)
    (task_id : string) (j : Job) (i : Z) :
  status_dict s !! task_id = Some j ->
  status j = COMPLETED ->
  0 <= i ->
  let n := Z.of_nat (length (result_urls j)) in
  (n <= i ->
   download_result path_exists s task_id i
   = HTTPException 404 "Image not found")
  /\ (i < n ->
      exists url,
        result_urls j !! Z.to_nat i = Some url
        /\ download_result path_exists s task_id i
           = if path_exists ("generated_images/" +:+ Py.basename url) then
               Respond {| fr_path := "generated_images/" +:+ Py.basename url;
                          fr_media_type := "image/png";
                          fr_filename := task_id +:+ "_image_" +:+ Py.str i
                                         +:+ ".png" |}
             else HTTPException 404 "Image file not found").
Proof.
  intros Hj Hst Hi n. subst n. unfold download_result. rewrite Hj.
  rewrite bool_decide_eq_true_2 by exact Hst. cbn [negb]. split.
  - intros Hn.
    destruct (Z.leb_spec (Z.of_nat (length (result_urls j))) i)
      as [_ | Hlt]; [| lia].
    by rewrite orb_true_r.
  - intros Hn.
    destruct (Z.leb_spec (Z.of_nat (length (result_urls j))) i)
      as [Hle | _]; [lia |].
    rewrite bool_decide_eq_false_2.
    2:{ intros Hnil. rewrite Hnil in Hn. cbn in Hn. lia. }
    cbn [orb]. rewrite getitem_nonneg by exact Hi.
    destruct (result_urls j !! Z.to_nat i) as [url |] eqn:Hurl.
    + exists url. split; [reflexivity |].
      by destruct (path_exists _).
    + apply lookup_ge_None in Hurl. lia.
Qed.

(** X26: the environment of the child process is [os.environ] with the
    variables of the run set on top: every other variable is handed on
    as it is, none is dropped.  In particular ASCEND_RT_VISIBLE_DEVICES
    reaches the child only if the server has it: the default "0,1,2,3"
    that [_run_distributed_inference] reads into [device_list] is never
    put into the environment.  The distributed run does not set
    HCCL_DISABLE, which the single run sets to "1". *)
Theorem child_environment (w : World) (d : Z) (k : string) :
  (k ∉ distributed_env_keys -> distributed_env w d !! k = environ w !! k)
  /\ (k ∉ single_env_keys -> single_env w !! k = environ w !! k)
  /\ distributed_env w d !! "ASCEND_RT_VISIBLE_DEVICES"
     = environ w !! "ASCEND_RT_VISIBLE_DEVICES"
  /\ single_env w !! "ASCEND_RT_VISIBLE_DEVICES"
     = environ w !! "ASCEND_RT_VISIBLE_DEVICES"
  /\ distributed_env w d !! "HCCL_LOCAL_RANK_NUM" = Some (Py.str d)
  /\ distributed_env w d !! "HCCL_DISABLE" = environ w !! "HCCL_DISABLE"
  /\ single_env w !! "HCCL_DISABLE" = Some "1".
Proof.
  split; [| split].
  - intros Hk. unfold distributed_env.
    repeat (rewrite lookup_insert_ne;
            [| intros <-; apply Hk; unfold distributed_env_keys;
               repeat constructor]).
    reflexivity.
  - intros Hk. unfold single_env.
    repeat (rewrite lookup_insert_ne;
            [| intros <-; apply Hk; unfold single_env_keys;
               repeat constructor]).
    reflexivity.
  - unfold distributed_env, single_env.
    repeat split;
      repeat (rewrite lookup_insert_ne by discriminate);
      try reflexivity; by rewrite lookup_insert_eq.
Qed.

(** ** The properties on sample inputs *)

Example batch_run :
  option_map
    (fun s' => (status <$> status_dict s' !! "img_00000000000000a1",
                status <$> status_dict s' !! "img_00000000000000b2",
                length (popen_calls s'), task_queue s',
                active_tasks (health s'), total_tasks (health s')))
    (final_state
       (batch_submit Sample.batch ;;
        task_worker Sample.batch_world Demo.pipeline 2 2) (Demo.idle 1))
  = Some (Some COMPLETED, Some FAILED, 2%nat, [], 0%nat, 2%nat).
Proof. vm_compute. reflexivity. Qed.

Example batch_interrupted :
  option_map
    (fun rs : Result unit * State =>
       (fst rs,
        (fun j => (status j, error j))
          <$> status_dict (snd rs) !! "img_00000000000000a1",
        status <$> status_dict (snd rs) !! "img_00000000000000b2",
        map fst (task_queue (snd rs)),
        length (popen_calls (snd rs))))
    ((batch_submit Sample.batch ;;
      task_worker Sample.interrupted_batch_world Demo.pipeline 2 2)
       (Demo.idle 1))
  = Some (Raise KeyboardInterrupt, Some (FAILED, "Task interrupted"),
          Some PENDING, ["img_00000000000000b2"], 1%nat).
Proof. vm_compute. reflexivity. Qed.

Example detect_and_init :
  _detect_project_path (Demo.world [] []) Sample.host "/srv/app"
  = inr "/srv/HiDream-I1"
  /\ _detect_project_path (Demo.world [] []) Sample.host "/tmp"
     = inl (FileNotFoundError "HiDream-I1 project not found")
  /\ match init (Demo.world [] []) Sample.host "/srv/app" "m" "x" 6 with
     | inr self => Some (project_path self, tp_size self, ep_size self)
     | inl _ => None
     end
     = Some ("/srv/HiDream-I1", 4, 1)
  /\ init (Demo.world [] []) Sample.host "/srv/app" "m" "x" 0
     = inl ZeroDivisionError
  /\ init (Demo.world [] []) Sample.blocked_host "/srv/app" "m" "x" 0
     = inl ZeroDivisionError
  /\ init (Demo.world [] []) Sample.blocked_host "/srv/app" "m" "x" 2
     = inl (MkdirError "[Errno 17] File exists: 'generated_images'").
Proof. repeat split; vm_compute; reflexivity. Qed.

Example download_after_run :
  download_result Sample.no_files Sample.completed Demo.task_id 0
  = HTTPException 404 "Image file not found"
  /\ fr_path <$> match download_result (fun _ => true) Sample.completed
                        Demo.task_id (-1) with
                 | Respond r => Some r
                 | _ => None
                 end
     = Some "generated_images/0_0.png"
  /\ download_result (fun _ => true) Sample.completed Demo.task_id (-3)
     = Escapes (IndexError "list index out of range").
Proof. repeat split; vm_compute; reflexivity. Qed.


Lemma sample_batch_nodup : NoDup (map fst Sample.batch).
Proof. apply (bool_decide_unpack _). by vm_compute. Defined.

Lemma sample_names_plain :
  forall e, e ∈ Demo.two_images -> Py.contains "/" (de_name e) = false.
Proof.
  intros e He. unfold Demo.two_images in He.
  repeat (apply elem_of_cons in He as [-> | He]; [reflexivity |]).
  by apply elem_of_nil in He.
Defined.

Lemma sample_batch_jobs (d : Z) :
  forall task_id req, (task_id, req) ∈ Sample.batch ->
    exists j, status_dict (Sample.queued d) !! task_id = Some j
              /\ 0 <= progress j <= 100.
Proof.
  intros task_id req Hin. unfold Sample.batch in Hin.
  repeat (apply elem_of_cons in Hin as [[= -> ->] | Hin];
          [eexists; split; [reflexivity | cbn; lia] |]).
  by apply elem_of_nil in Hin.
Defined.

Lemma planner_coverage_witness :
  0 < 6
  /\ exists tp ep,
       _calculate_distributed_config 6 = Some (tp, ep)
       /\ tp <= 4
       /\ (tp * ep = 6 <-> 6 <= 4 \/ 6 mod 4 = 0).
Proof. split; [lia | apply (planner_coverage 6); lia]. Defined.

Lemma planner_nonpositive_witness :
  -2 <= 0 /\ _calculate_distributed_config (-2) = Some (-2, 1).
Proof. split; [lia | exact (planner_nonpositive (-2) ltac:(lia))]. Defined.

Lemma collector_returns_all_witness :
  Z.of_nat (length (matching_paths "out" Demo.two_images)) <= 5
  /\ collect_entries "out" Demo.two_images 5
     ≡ₚ matching_paths "out" Demo.two_images
  /\ StronglySorted (key_ge snd) (collect_entries "out" Demo.two_images 5).
Proof.
  assert (H : Z.of_nat (length (matching_paths "out" Demo.two_images)) <= 5)
    by (vm_compute; discriminate).
  split; [exact H | exact (collector_returns_all "out" Demo.two_images 5 H)].
Defined.

Lemma collector_negative_count_witness :
  -1 < 0
  /\ Z.of_nat (length (collect_entries "out" Demo.two_images (-1))) = 1.
Proof.
  split; [lia |].
  destruct (collector_negative_count "out" Demo.two_images (-1) ltac:(lia))
    as [_ H].
  exact H.
Defined.

Lemma collector_no_duplicates_witness :
  NoDup (map de_name Demo.two_images)
  /\ NoDup (map fst (collect_entries "out" Demo.two_images 2)).
Proof.
  assert (H : NoDup (map de_name Demo.two_images))
    by (apply (bool_decide_unpack _); by vm_compute).
  split; [exact H | exact (collector_no_duplicates "out" _ 2 H)].
Defined.

Lemma sample_task_id_component : path_component Demo.task_id.
Proof. repeat split; discriminate. Defined.

Lemma retry_reuses_task_paths_witness :
  path_component Demo.task_id
  /\ Py.basename (task_output_dir Demo.pipeline Demo.task_id) = Demo.task_id
  /\ retry_cmd Demo.pipeline (task_output_dir Demo.pipeline Demo.task_id) 2
     = single_cmd Demo.pipeline Demo.task_id
         (task_prompt_file Demo.pipeline Demo.task_id)
         (task_output_dir Demo.pipeline Demo.task_id) (fallback_request 2).
Proof.
  split; [apply sample_task_id_component |].
  apply retry_reuses_task_paths, sample_task_id_component.
Defined.

Lemma result_url_of_entry_witness :
  Py.contains "/" "0_1.png" = false
  /\ result_url (Demo.world [] [])
       (fst (entry_path "generated_images/img_0123456789abcdef"
               {| de_name := "0_1.png"; de_mtime := 1700000020 |}))
     = "http://localhost:8088/images/0_1.png".
Proof.
  split; [reflexivity |].
  destruct (result_url_of_entry (Demo.world [] [])
              "generated_images/img_0123456789abcdef"
              {| de_name := "0_1.png"; de_mtime := 1700000020 |} eq_refl)
    as [H _].
  exact H.
Defined.

Lemma download_looks_outside_task_dir_witness :
  exists e,
    e ∈ Demo.two_images
    /\ ("generated_images/img_0123456789abcdef/0_1.png", 1700000020)
       = entry_path (task_output_dir Demo.pipeline Demo.task_id) e
    /\ download_result Sample.no_files Sample.completed Demo.task_id 0
       = HTTPException 404 "Image file not found"
    /\ "generated_images/" +:+ de_name e
       <> "generated_images/img_0123456789abcdef/0_1.png".
Proof.
  exact (download_looks_outside_task_dir (Demo.world [] Demo.two_images)
           Demo.pipeline Sample.no_files Sample.completed Demo.task_id
           (set_result_urls
              (map (result_url (Demo.world [] Demo.two_images))
                 (map fst (collect_entries
                             (task_output_dir Demo.pipeline Demo.task_id)
                             Demo.two_images 2)))
              (set_progress 100 (set_status COMPLETED (new_job Demo.request))))
           Demo.two_images 2 0
           ("generated_images/img_0123456789abcdef/0_1.png", 1700000020)
           eq_refl eq_refl eq_refl eq_refl sample_names_plain ltac:(lia)
           eq_refl).
Defined.

Lemma download_negative_index_witness :
  -1 < 0
  /\ exists url,
       download_result (fun _ => true) Sample.completed Demo.task_id (-1)
       = Respond {| fr_path := "generated_images/" +:+ Py.basename url;
                    fr_media_type := "image/png";
                    fr_filename := "img_0123456789abcdef_image_-1.png" |}.
Proof.
  split; [lia |].
  destruct (download_negative_index (fun _ => true) Sample.completed
              Demo.task_id
              (set_result_urls
                 (map (result_url (Demo.world [] Demo.two_images))
                    (map fst (collect_entries
                                (task_output_dir Demo.pipeline Demo.task_id)
                                Demo.two_images 2)))
                 (set_progress 100
                    (set_status COMPLETED (new_job Demo.request))))
              (-1) eq_refl eq_refl ltac:(discriminate) ltac:(lia))
    as [_ H].
  destruct (H ltac:(vm_compute; discriminate)) as (url & _ & Hrun).
  exists url. exact Hrun.
Defined.

Lemma process_task_unknown_id_witness :
  status_dict (Demo.idle 1) !! "img_unknown" = None
  /\ exists s',
       process_task Demo.single_world Demo.pipeline 2 "img_unknown"
         Demo.request (Demo.idle 1)
       = Some (Raise (KeyError "img_unknown"), s')
       /\ status_dict s' = status_dict (Demo.idle 1)
       /\ history s' = history (Demo.idle 1)
       /\ popen_calls s' = popen_calls (Demo.idle 1)
       /\ task_queue s' = task_queue (Demo.idle 1)
       /\ cwd s' = cwd (Demo.idle 1)
       /\ length (log s') = S (length (log (Demo.idle 1))).
Proof.
  split; [reflexivity |].
  apply (process_task_unknown_id Demo.single_world Demo.pipeline 2
           "img_unknown" Demo.request (Demo.idle 1)).
  reflexivity.
Defined.

Lemma process_task_isolation_witness :
  (2 <= 2)%nat
  /\ status_dict (Sample.queued 1) !! "img_00000000000000a1"
     = Some (new_job Demo.request)
  /\ 0 <= progress (new_job Demo.request) <= 100
  /\ wp (process_task Sample.batch_world Demo.pipeline 2
           "img_00000000000000a1" Demo.request) (Sample.queued 1)
       (fun r s' =>
          (r = Ok tt \/ r = Raise KeyboardInterrupt)
          /\ task_queue s' = task_queue (Sample.queued 1)
          /\ (forall other, other <> "img_00000000000000a1" ->
                status_dict s' !! other
                = status_dict (Sample.queued 1) !! other)
          /\ exists j',
               status_dict s' !! "img_00000000000000a1" = Some j'
               /\ request j' = request (new_job Demo.request)
               /\ (status j' = COMPLETED \/ status j' = FAILED)
               /\ (r = Raise KeyboardInterrupt ->
                   status j' = FAILED /\ error j' = "Task interrupted")).
Proof.
  split; [lia |]. split; [reflexivity |]. split; [cbn; lia |].
  apply process_task_isolation; [lia | reflexivity | cbn; lia].
Defined.

Lemma progress_is_a_percentage_witness :
  (2 <= 2)%nat
  /\ status_dict (Demo.submitted 2) !! Demo.task_id
     = Some (new_job Demo.request)
  /\ 0 <= progress (new_job Demo.request) <= 100
  /\ wp (process_task Demo.retry_world Demo.pipeline 2 Demo.task_id
           Demo.request) (Demo.submitted 2)
       (fun _ s' =>
          exists writes,
            history s' = (history (Demo.submitted 2) ++ writes)%list
            /\ writes <> []
            /\ Forall (fun x => fst x = Demo.task_id
                                /\ 0 <= progress (snd x) <= 100) writes).
Proof.
  split; [lia |]. split; [reflexivity |]. split; [cbn; lia |].
  apply (progress_is_a_percentage Demo.retry_world Demo.pipeline 2
           Demo.task_id Demo.request (Demo.submitted 2)
           (new_job Demo.request));
    [lia | reflexivity | cbn; lia].
Defined.

Lemma worker_drains_queue_witness :
  (2 <= 2)%nat
  /\ NoDup (map fst Sample.batch)
  /\ task_queue (Sample.queued 1) = Sample.batch
  /\ wp (task_worker Sample.batch_world Demo.pipeline 2
           (length Sample.batch)) (Sample.queued 1)
       (fun r s' =>
          r = Raise KeyboardInterrupt
          \/ (r = Ok tt
              /\ task_queue s' = []
              /\ (forall task_id req, (task_id, req) ∈ Sample.batch ->
                    exists j j',
                      status_dict (Sample.queued 1) !! task_id = Some j
                      /\ status_dict s' !! task_id = Some j'
                      /\ request j' = request j
                      /\ (status j' = COMPLETED \/ status j' = FAILED))
              /\ (forall other, other ∉ map fst Sample.batch ->
                    status_dict s' !! other
                    = status_dict (Sample.queued 1) !! other)
              /\ exists blocks,
                   history s'
                   = (history (Sample.queued 1) ++ concat blocks)%list
                   /\ Forall2 (fun item block =>
                                 block <> []
                                 /\ Forall (fun x => fst x = fst item) block)
                        Sample.batch blocks)).
Proof.
  split; [lia |]. split; [apply sample_batch_nodup |].
  split; [reflexivity |].
  apply (worker_drains_queue Sample.batch_world Demo.pipeline 2 Sample.batch
           (Sample.queued 1));
    [lia | apply sample_batch_nodup | reflexivity | apply sample_batch_jobs].
Defined.


Lemma device_count_restored_witness :
  (2 <= 2)%nat
  /\ wp (process_task Demo.retry_world Demo.pipeline 2 Demo.task_id
           Demo.request) (Demo.submitted 2)
       (fun _ s' => device_count s' = device_count (Demo.submitted 2)).
Proof.
  split; [lia |].
  destruct (device_count_restored Demo.retry_world Demo.pipeline 2
              Demo.task_id Demo.request (Demo.submitted 2) ltac:(lia))
    as (_ & _ & H).
  exact H.
Defined.

Lemma submit_counts_witness :
  status_dict (Demo.idle 1) !! Demo.task_id = None
  /\ exists s',
       submit Demo.task_id Demo.request (Demo.idle 1) = Some (Ok tt, s')
       /\ total_tasks (health s') = S (total_tasks (health (Demo.idle 1)))
       /\ queue_length (health s') = S (queue_length (health (Demo.idle 1)))
       /\ active_tasks (health s') = active_tasks (health (Demo.idle 1))
       /\ status_dict s' !! Demo.task_id = Some (new_job Demo.request)
       /\ last (task_queue s') = Some (Demo.task_id, Demo.request).
Proof.
  split; [reflexivity |].
  apply (submit_counts Demo.task_id Demo.request (Demo.idle 1)). reflexivity.
Defined.

Lemma sample_queue_head (d : Z) :
  forall task_id req rest j,
    task_queue (Sample.queued d) = (task_id, req) :: rest ->
    status_dict (Sample.queued d) !! task_id = Some j ->
    0 <= progress j <= 100.
Proof.
  intros task_id req rest j [= <- <- <-] Hj.
  assert (Hjob : status_dict (Sample.queued d) !! "img_00000000000000a1"
                 = Some (new_job Demo.request)) by reflexivity.
  rewrite Hjob in Hj. injection Hj as <-. cbn. lia.
Defined.

Lemma no_job_left_processing_witness :
  (2 <= 2)%nat
  /\ active_tasks (health (Sample.queued 1)) = 0%nat
  /\ wp (task_worker_round Sample.batch_world Demo.pipeline 2)
       (Sample.queued 1)
       (fun _ s' => active_tasks (health s') = 0%nat).
Proof.
  split; [lia |]. split; [by vm_compute |].
  apply no_job_left_processing;
    [lia | by vm_compute | apply sample_queue_head].
Defined.



Lemma download_index_contract_witness :
  0 <= 2
  /\ download_result Sample.no_files Sample.completed Demo.task_id 2
     = HTTPException 404 "Image not found".
Proof.
  split; [lia |].
  destruct (download_index_contract Sample.no_files Sample.completed
              Demo.task_id
              (set_result_urls
                 (map (result_url (Demo.world [] Demo.two_images))
                    (map fst (collect_entries
                                (task_output_dir Demo.pipeline Demo.task_id)
                                Demo.two_images 2)))
                 (set_progress 100
                    (set_status COMPLETED (new_job Demo.request))))
              2 eq_refl eq_refl ltac:(lia))
    as [H _].
  apply H. vm_compute. discriminate.
Defined.
